(** * Kalypso backend: Bridge HTTP client, webhook handlers and status mapping

    A shallow embedding of the parts of the backend that talk to the ledger
    provider (the BridgeClient class, which follows the card service in
    src/services/cardService.js, and src/config/bridge.config.js), of the
    webhook handlers (src/webhooks/bridge.js), of the customer and transfer
    services and of the notification helper of the Supabase configuration
    module (src/unnamed/part_000), followed by the properties proved about
    them.

    Conventions of the embedding:
    - JS strings are [string]; an object literal used as a dictionary is a
      [gmap] of its own keys, read through [Js.get], which also finds what
      every object inherits from [Object.prototype];
    - a field that may be [undefined] or [null] is an [option], and a
      [Js.field] where the code tells the two apart;
    - timestamps are milliseconds since the epoch, in [Z];
    - monetary amounts are JS numbers: their type and the operations the code
      uses on them are kept abstract ([JsNumber]), so nothing is assumed about
      floating-point rounding; a DECIMAL column holds a finite number as it
      is, whatever its precision;
    - the relational store is a record of tables, each a list of rows; the
      constraints of the SQL migrations that the handlers can run into
      (unique keys, CHECK lists, NOT NULL on amounts) are part of the
      inserts and updates;
    - [console.log] output is not modelled. *)

From Stdlib Require Import ZArith QArith Lia Ascii String.
From stdpp Require Import base option list strings gmap pretty.

Open Scope Z_scope.

(** ** JavaScript helpers *)

Module Js.

(** [x || d] on a possibly-undefined string: the empty string is falsy. *)
Definition truthy (o : option string) : bool :=
  match o with
  | Some s => negb (String.eqb s "")
  | None => false
  end.

Definition or_default (o : option string) (d : string) : string :=
  match o with
  | Some s => if String.eqb s "" then d else s
  | None => d
  end.

(** [x || null] on a possibly-undefined string. *)
Definition or_null (o : option string) : option string :=
  if truthy o then o else None.

(** [x || false] on a possibly-undefined boolean. *)
Definition or_false (o : option bool) : bool := default false o.

Definition lower_ascii (a : ascii) : ascii :=
  let n := nat_of_ascii a in
  if ((65 <=? n) && (n <=? 90))%nat then ascii_of_nat (n + 32) else a.

Definition upper_ascii (a : ascii) : ascii :=
  let n := nat_of_ascii a in
  if ((97 <=? n) && (n <=? 122))%nat then ascii_of_nat (n - 32) else a.

Fixpoint toLowerCase (s : string) : string :=
  match s with
  | EmptyString => EmptyString
  | String a s' => String (lower_ascii a) (toLowerCase s')
  end.

Fixpoint toUpperCase (s : string) : string :=
  match s with
  | EmptyString => EmptyString
  | String a s' => String (upper_ascii a) (toUpperCase s')
  end.

(** [arr.includes(x)] on an array of strings. *)
Definition includes (arr : list string) (x : string) : bool :=
  existsb (String.eqb x) arr.

(** [arr.includes(x)] on an array of numbers. *)
Definition includesZ (arr : list Z) (x : Z) : bool :=
  existsb (Z.eqb x) arr.

(** *** Missing and null properties *)

(** A property of a JSON payload where the code tells [undefined] (the key is
    missing) from [null]. *)
Inductive field (A : Type) :=
| undefined
| null
| value (a : A).
Arguments undefined {A}.
Arguments null {A}.
Arguments value {A}.

Definition to_option {A : Type} (f : field A) : option A :=
  match f with
  | value a => Some a
  | undefined | null => None
  end.

(** [x || []] on a possibly-missing array: an array, even empty, is truthy. *)
Definition or_empty {A : Type} (f : field (list A)) : list A :=
  match f with
  | value l => l
  | undefined | null => []
  end.

(** [`${x}`] on a possibly-missing string. *)
Definition template (f : field string) : string :=
  match f with
  | value s => s
  | undefined => "undefined"
  | null => "null"
  end.

(** *** Property lookup on an object literal

    [obj[key]] on an object literal finds the own keys of the literal and,
    failing these, the members every object inherits from
    [Object.prototype]: eleven functions, and the accessor [__proto__], which
    returns [Object.prototype] itself. *)
Definition prototype_functions : list string :=
  ["constructor"; "__defineGetter__"; "__defineSetter__"; "hasOwnProperty";
   "__lookupGetter__"; "__lookupSetter__"; "isPrototypeOf";
   "propertyIsEnumerable"; "toString"; "valueOf"; "toLocaleString"].

Inductive Member :=
| method (name : string)    (* one of the inherited functions *)
| object_prototype.         (* [Object.prototype], through [__proto__] *)

Inductive Lookup (A : Type) :=
| own (a : A)
| inherited (m : Member)
| missing.                  (* [undefined] *)
Arguments own {A}.
Arguments inherited {A}.
Arguments missing {A}.

Definition get {A : Type} (obj : gmap string A) (key : string) : Lookup A :=
  match obj !! key with
  | Some a => own a
  | None =>
      if String.eqb key "__proto__" then inherited object_prototype
      else if includes prototype_functions key then inherited (method key)
      else missing
  end.

(** The keys every object answers to. *)
Definition inherits (key : string) : bool :=
  String.eqb key "__proto__" || includes prototype_functions key.

(** A value that is a string unless it was read off the prototype. *)
Inductive Value :=
| str (s : string)
| member (m : Member).

(** [obj[key] || d] on a literal of strings: functions and objects are
    truthy, so an inherited member is what the expression evaluates to. *)
Definition get_or_default (obj : gmap string string) (key d : string) : Value :=
  match get obj key with
  | own s => if String.eqb s "" then str d else str s
  | inherited m => member m
  | missing => str d
  end.

(** [`${v}`]: the source text of a built-in function, the tag of an
    object. *)
Definition show (v : Value) : string :=
  match v with
  | str s => s
  | member (method name) =>
      "function " +:+ (if String.eqb name "constructor" then "Object" else name)
        +:+ "() { [native code] }"
  | member object_prototype => "[object Object]"
  end.

(** [a !== b] between a string and such a value. *)
Definition differs (a : string) (v : Value) : bool :=
  match v with
  | str s => negb (String.eqb a s)
  | member _ => true
  end.

End Js.

(** ** src/config/bridge.config.js *)

Module BridgeConfig.

Record t := mk {
  timeout : Z;
  retryAttempts : Z;
  retryDelay : Z;
  retryableStatusCodes : list Z
}.

Definition bridgeConfig : t := {|
  timeout := 30000;
  retryAttempts := 3;
  retryDelay := 1000;
  retryableStatusCodes := [429; 500; 502; 503; 504]
|}.

End BridgeConfig.

(** ** The Bridge HTTP client (class BridgeClient)

    The interceptors also write an audit-log entry per response and per
    error; these writes are fire-and-forget and cannot fail the call. They
    are read off the log of dispatches by [BridgeClientAudit], which comes
    after the store. The clock is read for log output only and is left
    out. *)

Module BridgeClient.

Import BridgeConfig.

Record Metadata := mkMetadata {
  correlationId : string
}.

(** The axios request configuration, with the two properties the client
    bolts onto it ([_retryCount], [metadata]). *)
Record RequestConfig := mkRequest {
  method : string;
  url : string;
  headers : gmap string string;
  data : option string;
  _retryCount : option Z;
  metadata : option Metadata
}.

(** What the provider returned, when it returned anything. *)
Record Response := mkResponse {
  status : Z;
  body : string
}.

(** The error axios rejects with: [response] is absent on a network failure
    or a timeout. *)
Record AxiosError := mkError {
  message : string;
  code : option string;
  response : option Response;
  config : RequestConfig
}.

(** What one dispatch of a request produces: a response with a 2xx status
    resolves, everything else rejects. *)
Inductive Outcome :=
| Resolved (r : Response)
| Rejected (msg : string) (code : option string) (r : option Response).

(** The object [_formatError] serialises into the thrown [Error]. *)
Record FormattedError := mkFormatted {
  f_message : string;
  f_status : option Z;
  f_code : option string;
  f_bridgeError : option string;
  f_correlationId : option string
}.

Inductive Result :=
| Returned (data : string)
| Thrown (e : FormattedError).

(** What can be observed of a call from outside the process. *)
Inductive Event :=
| Sent (c : RequestConfig) (o : Outcome)
| Slept (ms : Z).

(** The environment of the client: the position in the stream of random
    UUIDs and the log of what the client did so far. *)
Record World := mkWorld {
  uuid_next : nat;
  log : list Event
}.

Definition sends (t : list Event) : list (RequestConfig * Outcome) :=
  omap (fun e => match e with Sent c o => Some (c, o) | Slept _ => None end) t.

Definition delays (t : list Event) : list Z :=
  omap (fun e => match e with Slept ms => Some ms | Sent _ _ => None end) t.

(** The log of a call in which every dispatch but the last is followed by
    one wait. *)
Fixpoint alternate (ss : list (RequestConfig * Outcome)) (ds : list Z)
  : list Event :=
  match ss with
  | [] => []
  | (c, o) :: ss' =>
      Sent c o ::
      match ds with
      | [] => []
      | d :: ds' => Slept d :: alternate ss' ds'
      end
  end.

Section Client.

(** The stream [uuidv4()] draws from, and the network: the outcome of the
    [n]-th dispatch of the process, given the request as sent. *)
Variable uuidv4 : nat -> string.
Variable transport : nat -> RequestConfig -> Outcome.
Variable cfg : BridgeConfig.t.

Definition _handleRequest (config : RequestConfig) (w : World)
  : RequestConfig * World :=
  let correlationId := uuidv4 (uuid_next w) in
  let w := mkWorld (S (uuid_next w)) (log w) in
  let hs := <["X-Correlation-ID" := correlationId]> (headers config) in
  let '(hs, w) :=
    if Js.includes ["post"; "put"] (Js.toLowerCase (method config)) then
      if negb (Js.truthy (hs !! "Idempotency-Key")) then
        (<["Idempotency-Key" := uuidv4 (uuid_next w)]> hs,
         mkWorld (S (uuid_next w)) (log w))
      else (hs, w)
    else (hs, w) in
  (mkRequest (method config) (url config) hs (data config)
     (_retryCount config) (Some (mkMetadata correlationId)), w).

Definition _handleResponse (r : Response) : string := body r.

Definition _isRetryable (error : AxiosError) : bool :=
  if match _retryCount (config error) with
     | Some n => retryAttempts cfg <=? n
     | None => false          (* [undefined >= n] is false *)
     end
  then false
  else match response error with
       | None => true
       | Some r => Js.includesZ (retryableStatusCodes cfg) (status r)
       end.

Definition _formatError (error : AxiosError) : FormattedError := {|
  f_message := message error;
  f_status := status <$> response error;
  f_code := code error;
  f_bridgeError := body <$> response error;
  f_correlationId := correlationId <$> metadata (config error)
|}.

(** [_retry] and [_handleError] call back into the axios instance; the
    instance is passed as [client]. *)
Definition _retry (client : RequestConfig -> World -> option (Result * World))
    (error : AxiosError) (w : World) : option (Result * World) :=
  let config := config error in
  let count := default 0 (_retryCount config) + 1 in
  let config := mkRequest (method config) (url config) (headers config)
                  (data config) (Some count) (metadata config) in
  let delay := retryDelay cfg * 2 ^ (count - 1) in
  let w := mkWorld (uuid_next w) (log w ++ [Slept delay]) in
  client config w.

Definition _handleError (client : RequestConfig -> World -> option (Result * World))
    (error : AxiosError) (w : World) : option (Result * World) :=
  if _isRetryable error then _retry client error w
  else Some (Thrown (_formatError error), w).

(** [this.client(config)]: request interceptor, dispatch, response or
    error interceptor. [fuel] bounds the depth of the re-entrant calls;
    [None] means the bound was hit. *)
Fixpoint client (fuel : nat) (config : RequestConfig) (w : World)
  : option (Result * World) :=
  match fuel with
  | O => None
  | S fuel =>
      let '(config, w) := _handleRequest config w in
      let o := transport (length (sends (log w))) config in
      let w := mkWorld (uuid_next w) (log w ++ [Sent config o]) in
      match o with
      | Resolved r => Some (Returned (_handleResponse r), w)
      | Rejected msg cd r =>
          _handleError (client fuel) (mkError msg cd r config) w
      end
  end.

(** A call made through one of the verb helpers ([get], [post], [put],
    [delete], [patch]): a fresh configuration carrying the caller's
    headers. The bound is never hit, see [request_total]. *)
Definition request (verb : string) (u : string) (d : option string)
    (hs : gmap string string) (w : World) : option (Result * World) :=
  client (S (S (Z.to_nat (retryAttempts cfg))))
    (mkRequest verb u hs d None None) w.

Definition get u hs := request "get" u None hs.
Definition post u d hs := request "post" u (Some d) hs.
Definition put u d hs := request "put" u (Some d) hs.
Definition delete u hs := request "delete" u None hs.
Definition patch u d hs := request "patch" u (Some d) hs.

(** A failure the client classifies as transient. *)
Definition retryable_failure (o : Outcome) : Prop :=
  match o with
  | Resolved _ => False
  | Rejected _ _ None => True
  | Rejected _ _ (Some r) => status r ∈ retryableStatusCodes cfg
  end.

End Client.

End BridgeClient.

(** ** JS numbers

    Amounts reach the handlers through [parseFloat] and are IEEE doubles. The
    code adds them, compares them and prints them; these operations are the
    interface below, and nothing is assumed about them. [num_finite] tells
    the numbers from [NaN] and the infinities, which [parseFloat] returns for
    a missing or malformed amount and which [JSON.stringify] writes as
    [null]. *)

Class JsNumber (num : Type) := {
  num_add : num -> num -> num;
  num_geb : num -> num -> bool;
  num_of_Z : Z -> num;
  num_show : num -> string;
  num_finite : num -> bool
}.

(** The integers, on which the operations are exact (as they are on doubles
    below 2^53); used for the examples. *)
#[export] Instance Z_JsNumber : JsNumber Z := {|
  num_add := Z.add;
  num_geb := Z.geb;
  num_of_Z := fun z => z;
  num_show := pretty;
  num_finite := fun _ => true
|}.

(** ** The persisted mirror and the helpers of the Supabase configuration
    module (src/unnamed/part_000)

    Tables carry the columns the modelled code reads or writes. Columns
    filled in by the database (generated ids of inserted rows) and JSON
    payload columns are left out, foreign keys are taken to hold, and the
    store is taken to be reachable: a query fails only on a constraint. *)

Module SupabaseConfig.

Section Store.

Context {num : Type} `{JsNumber num}.

Record User := mkUser {
  u_id : string;
  u_bridge_customer_id : option string;
  u_kyc_status : option string;
  u_kyc_tier : option Z
}.

Record Card := mkCard {
  card_id : string;
  card_user_id : string;
  card_bridge_card_id : string;
  current_daily_spend : num;
  current_monthly_spend : num;
  daily_spend_limit : num;
  monthly_spend_limit : num;
  last_daily_reset : option Z;
  last_monthly_reset : option Z;
  card_updated_at : Z
}.

Record CardTransaction := mkCardTransaction {
  ct_card_id : string;
  ct_user_id : string;
  ct_bridge_transaction_id : string;
  ct_amount : num;
  ct_currency : string;
  ct_merchant_name : option string;
  ct_merchant_category : option string;
  ct_merchant_city : option string;
  ct_merchant_country : option string;
  ct_type : string;
  ct_status : string;
  ct_decline_reason : option string;
  ct_description : option string;
  ct_is_international : bool;
  ct_is_online : bool;
  ct_created_at : Z;
  ct_settled_at : option Z
}.

(** The payload of a [transfer.updated] event. *)
Record TransferData := mkTransferData {
  td_id : string;
  td_state : string
}.

Record Transaction := mkTransaction {
  tx_id : string;
  tx_user_id : string;
  tx_bridge_transfer_id : option string;
  tx_status : string;
  tx_bridge_state : option string;
  tx_bridge_receipt : option TransferData;
  tx_updated_at : Z;
  tx_completed_at : option Z
}.

Record Transfer := mkTransfer {
  bt_user_id : string;
  bt_bridge_transfer_id : string;
  bt_transfer_type : string;
  bt_amount : num;
  bt_currency : string;
  bt_fee : num;
  bt_total_amount : num;
  bt_status : string;
  bt_description : option string;
  bt_created_at : Z;
  bt_updated_at : Z;
  bt_completed_at : option Z;
  bt_cancelled_at : option Z
}.

Record VirtualAccount := mkVirtualAccount {
  va_id : string;
  va_user_id : string;
  va_bridge_account_id : string
}.

Record NotificationPreferences := mkPreferences {
  np_user_id : string;
  enable_transaction_notifications : option bool;
  enable_card_notifications : option bool;
  enable_wallet_notifications : option bool;
  enable_kyc_notifications : option bool;
  enable_security_notifications : option bool;
  enable_system_notifications : option bool;
  min_priority_level : option string
}.

Record Notification := mkNotification {
  n_user_id : string;
  n_type : string;
  n_title : string;
  n_message : string;
  n_priority : string;
  n_category : string;
  n_action_url : option string;
  n_expires_at : option Z
}.

Record AuditLog := mkAuditLog {
  al_user_id : option string;
  al_event_type : string;
  al_event_description : option string;
  al_bridge_event_id : option string;
  al_bridge_event_type : option string
}.

Record Db := mkDb {
  users : list User;
  bridge_cards : list Card;
  card_transactions : list CardTransaction;
  transactions : list Transaction;
  bridge_transfers : list Transfer;
  bridge_virtual_accounts : list VirtualAccount;
  notification_preferences : list NotificationPreferences;
  notifications : list Notification;
  audit_logs : list AuditLog
}.

Definition set_users (v : list User) (db : Db) : Db :=
  mkDb v (bridge_cards db) (card_transactions db) (transactions db)
    (bridge_transfers db) (bridge_virtual_accounts db)
    (notification_preferences db) (notifications db) (audit_logs db).

Definition set_bridge_cards (v : list Card) (db : Db) : Db :=
  mkDb (users db) v (card_transactions db) (transactions db)
    (bridge_transfers db) (bridge_virtual_accounts db)
    (notification_preferences db) (notifications db) (audit_logs db).

Definition set_card_transactions (v : list CardTransaction) (db : Db) : Db :=
  mkDb (users db) (bridge_cards db) v (transactions db)
    (bridge_transfers db) (bridge_virtual_accounts db)
    (notification_preferences db) (notifications db) (audit_logs db).

Definition set_transactions (v : list Transaction) (db : Db) : Db :=
  mkDb (users db) (bridge_cards db) (card_transactions db) v
    (bridge_transfers db) (bridge_virtual_accounts db)
    (notification_preferences db) (notifications db) (audit_logs db).

Definition set_bridge_transfers (v : list Transfer) (db : Db) : Db :=
  mkDb (users db) (bridge_cards db) (card_transactions db) (transactions db)
    v (bridge_virtual_accounts db)
    (notification_preferences db) (notifications db) (audit_logs db).

Definition set_notifications (v : list Notification) (db : Db) : Db :=
  mkDb (users db) (bridge_cards db) (card_transactions db) (transactions db)
    (bridge_transfers db) (bridge_virtual_accounts db)
    (notification_preferences db) v (audit_logs db).

Definition set_audit_logs (v : list AuditLog) (db : Db) : Db :=
  mkDb (users db) (bridge_cards db) (card_transactions db) (transactions db)
    (bridge_transfers db) (bridge_virtual_accounts db)
    (notification_preferences db) (notifications db) v.

(** [.single()]: the row when the query selects exactly one, an error
    (and no data) otherwise. *)
Definition single {A : Type} (rows : list A) : option A :=
  match rows with
  | [r] => Some r
  | _ => None
  end.

(** *** Constraints of the migrations *)

Definition kyc_status_values : list string :=
  ["not_started"; "pending"; "under_review"; "approved"; "rejected"].

Definition card_transaction_types : list string :=
  ["purchase"; "refund"; "atm_withdrawal"; "fee"; "decline"].

Definition card_transaction_statuses : list string :=
  ["pending"; "approved"; "declined"; "settled"; "reversed"].

Definition transfer_types : list string := ["internal"; "external"; "ach"].

Definition transfer_statuses : list string :=
  ["pending"; "processing"; "completed"; "failed"; "cancelled"].

Definition notification_types : list string :=
  ["success"; "error"; "warning"; "info"; "kyc"; "transaction"; "card"; "account"].

Definition notification_priorities : list string :=
  ["low"; "normal"; "high"; "urgent"].

Definition notification_categories : list string :=
  ["general"; "transaction"; "card"; "wallet"; "kyc"; "security"; "system"].

(** [insert] into [card_transactions]: [bridge_transaction_id] is UNIQUE,
    [type] and [status] are CHECKed, and [amount] is NOT NULL, which refuses
    a number sent as [null]. [None] is the error. *)
Definition insert_card_transaction (row : CardTransaction)
    (tbl : list CardTransaction) : option (list CardTransaction) :=
  if existsb (fun r => String.eqb (ct_bridge_transaction_id r)
                         (ct_bridge_transaction_id row)) tbl then None
  else if negb (Js.includes card_transaction_types (ct_type row)) then None
  else if negb (Js.includes card_transaction_statuses (ct_status row)) then None
  else if negb (num_finite (ct_amount row)) then None
  else Some (tbl ++ [row]).

(** [insert] into [bridge_transfers]: [bridge_transfer_id] is UNIQUE,
    [transfer_type] and [status] are CHECKed, [amount] and [total_amount]
    are NOT NULL. *)
Definition insert_bridge_transfer (row : Transfer)
    (tbl : list Transfer) : option (list Transfer) :=
  if existsb (fun r => String.eqb (bt_bridge_transfer_id r)
                         (bt_bridge_transfer_id row)) tbl then None
  else if negb (Js.includes transfer_types (bt_transfer_type row)) then None
  else if negb (Js.includes transfer_statuses (bt_status row)) then None
  else if negb (num_finite (bt_amount row)) then None
  else if negb (num_finite (bt_total_amount row)) then None
  else Some (tbl ++ [row]).

(** [insert] into [notifications]: [type], [priority] and [category] are
    CHECKed. *)
Definition insert_notification (row : Notification)
    (tbl : list Notification) : option (list Notification) :=
  if negb (Js.includes notification_types (n_type row)) then None
  else if negb (Js.includes notification_priorities (n_priority row)) then None
  else if negb (Js.includes notification_categories (n_category row)) then None
  else Some (tbl ++ [row]).

(** *** Helpers *)

(** [getUserById]: throws when the row is not there. *)
Definition getUserById (userId : string) (db : Db) : option User :=
  single (filter (fun u => u_id u = userId) (users db)).

Definition getUserByBridgeCustomerId (bridgeCustomerId : string) (db : Db)
  : option User :=
  single (filter (fun u => u_bridge_customer_id u = Some bridgeCustomerId)
            (users db)).

(** What the body of an [update] carries for a text property read off an
    object literal: [JSON.stringify] leaves a function-valued property out,
    and writes [Object.prototype] as the object [{}], which is no value of a
    column CHECKed against a list of names. *)
Inductive BodyText :=
| body_string (s : string)
| body_omitted
| body_object.

Definition body_text (v : Js.Value) : BodyText :=
  match v with
  | Js.str s => body_string s
  | Js.member (Js.method _) => body_omitted
  | Js.member Js.object_prototype => body_object
  end.

(** Whether a CHECK against [allowed] lets the update through. *)
Definition check_text (allowed : list string) (v : BodyText) : bool :=
  match v with
  | body_string s => Js.includes allowed s
  | body_omitted => true
  | body_object => false
  end.

(** The column after the update. *)
Definition write_text (v : BodyText) (old : option string) : option string :=
  match v with
  | body_string s => Some s
  | body_omitted | body_object => old
  end.

(** [update({ kyc_status, kyc_tier }).eq('id', userId)] on [users], where
    [kyc_tier] is in the body only when given: both columns are CHECKed, and
    a violation on a selected row refuses the whole update ([None]). *)
Definition update_users_kyc (userId : string) (kyc_status : Js.Value)
    (kyc_tier : option Z) (db : Db) : option Db :=
  if negb (existsb (fun u => String.eqb (u_id u) userId) (users db)) then Some db
  else if negb (check_text kyc_status_values (body_text kyc_status)) then None
  else if negb (match kyc_tier with
                | Some t => Js.includesZ [1; 2] t
                | None => true
                end) then None
  else
    Some (set_users
            (map (fun u =>
                    if decide (u_id u = userId) then
                      mkUser (u_id u) (u_bridge_customer_id u)
                        (write_text (body_text kyc_status) (u_kyc_status u))
                        (match kyc_tier with
                         | Some t => Some t
                         | None => u_kyc_tier u
                         end)
                    else u)
               (users db)) db).

(** [updateUserKycStatus]: the tier is written unless it is [null];
    [.select().single()] makes it an error when no row has the id. [None]
    is the error thrown. *)
Definition updateUserKycStatus (userId : string) (kycStatus : Js.Value)
    (kycTier : option Z) (db : Db) : option Db :=
  if negb (existsb (fun u => String.eqb (u_id u) userId) (users db)) then None
  else update_users_kyc userId kycStatus kycTier db.

Record LogData := mkLogData {
  ld_userId : option string;
  ld_eventType : string;
  ld_description : option string;
  ld_bridgeEventId : option string;
  ld_bridgeEventType : option string
}.

Definition createAuditLog (logData : LogData) (db : Db) : Db :=
  set_audit_logs
    (audit_logs db ++
       [mkAuditLog (Js.or_null (ld_userId logData)) (ld_eventType logData)
          (Js.or_null (ld_description logData))
          (Js.or_null (ld_bridgeEventId logData))
          (Js.or_null (ld_bridgeEventType logData))]) db.

(** The JS value of a preference flag: [true], [false] or [null]. *)
Definition getCategoryPreference (preferences : NotificationPreferences)
    (category : string) : option bool :=
  let categoryMap : gmap string (option bool) :=
    <["transaction" := enable_transaction_notifications preferences]>
    (<["card" := enable_card_notifications preferences]>
    (<["wallet" := enable_wallet_notifications preferences]>
    (<["kyc" := enable_kyc_notifications preferences]>
    (<["security" := enable_security_notifications preferences]>
    (<["system" := enable_system_notifications preferences]>
    (<["general" := Some true]> ∅)))))) in
  match Js.get categoryMap category with
  | Js.own v => v
  | Js.inherited _ => Some true   (* a function or an object: truthy, which
                                     is all [createNotification] reads *)
  | Js.missing => Some true
  end.

Definition priorityLevels : gmap string Z :=
  <["low" := 0]> (<["normal" := 1]> (<["high" := 2]> (<["urgent" := 3]> ∅))).

(** What [priorityLevels[p] || d] evaluates to: a number, or the member an
    inherited key finds. *)
Inductive Level :=
| level_number (n : Z)
| level_member (m : Js.Member).

(** [priorityLevels[p] || d]: a level of [0] is falsy; an inherited member
    is truthy. *)
Definition level_or (p : string) (d : Z) : Level :=
  match Js.get priorityLevels p with
  | Js.own n => level_number (if n =? 0 then d else n)
  | Js.inherited m => level_member m
  | Js.missing => level_number d
  end.

(** [a >= b]: two numbers are compared as numbers; two members are both
    turned into the strings they print as, and these are compared as
    strings; a member next to a number is turned into a string that is no
    number, and the comparison is false. *)
Definition level_ge (a b : Level) : bool :=
  match a, b with
  | level_number n, level_number m => m <=? n
  | level_member x, level_member y =>
      negb (String.ltb (Js.show (Js.member x)) (Js.show (Js.member y)))
  | level_number _, level_member _ | level_member _, level_number _ => false
  end.

(** [minPriority] is the column [min_priority_level], [null] when not set;
    the key [null] stands for is the string of that name. *)
Definition meetsMinimumPriority (notificationPriority : string)
    (minPriority : option string) : bool :=
  let notificationLevel := level_or notificationPriority 1 in
  let minimumLevel := level_or (default "null" minPriority) 0 in
  level_ge notificationLevel minimumLevel.

Record Options := mkOptions {
  opt_priority : option string;
  opt_category : option string;
  opt_actionUrl : option string;
  opt_expiresAt : option Z
}.

Definition no_options : Options := mkOptions None None None None.

(** [createNotification]: the notification created, if any, and the
    store. *)
Definition createNotification (userId type title message : string)
    (options : Options) (db : Db) : option Notification * Db :=
  let priority := default "normal" (opt_priority options) in
  let category := default "general" (opt_category options) in
  let actionUrl := opt_actionUrl options in
  let expiresAt := opt_expiresAt options in
  let preferences :=
    single (filter (fun p => np_user_id p = userId)
              (notification_preferences db)) in
  let skipped :=
    match preferences with
    | Some preferences =>
        let categoryEnabled := getCategoryPreference preferences category in
        if negb (default false categoryEnabled) then true
        else negb (meetsMinimumPriority priority (min_priority_level preferences))
    | None => false
    end in
  if skipped then (None, db)
  else
    let notification :=
      mkNotification userId type title message priority category
        actionUrl expiresAt in
    match insert_notification notification (notifications db) with
    | Some tbl => (Some notification, set_notifications tbl db)
    | None => (None, db)
    end.

End Store.

End SupabaseConfig.

(** ** The audit trail of the Bridge HTTP client

    [_handleResponse] and [_handleError] of class BridgeClient hand an entry
    to [_createAuditLog] for every dispatch that comes back, before the
    response is returned, the request retried or the error thrown. The
    entries are read off the log of the call, in the order of the
    dispatches. *)

Module BridgeClientAudit.

Import BridgeClient SupabaseConfig.

(** A call through the client as its caller sees it: the value decoded from
    the response, or nothing when the call throws, and the log of the
    call. *)
Record ApiCall (A : Type) := mkApiCall {
  api_result : option A;
  api_log : list Event
}.
Arguments mkApiCall {A}.
Arguments api_result {A}.
Arguments api_log {A}.

Section Audit.

Context {num : Type} `{JsNumber num}.

Definition _createAuditLog (logData : LogData) (db : @Db num) : @Db num :=
  createAuditLog
    (mkLogData (ld_userId logData) (ld_eventType logData) (ld_description logData)
       (ld_bridgeEventId logData) (Some (ld_eventType logData))) db.

(** The entry of [_handleResponse]. *)
Definition response_entry (config : RequestConfig) : LogData :=
  mkLogData None "bridge_api_success"
    (Some (Js.toUpperCase (method config) +:+ " " +:+ url config)) None None.

(** The entry of [_handleError]. *)
Definition error_entry (config : RequestConfig) : LogData :=
  mkLogData None "bridge_api_error"
    (Some (Js.toUpperCase (method config) +:+ " " +:+ url config +:+ " failed"))
    None None.

Definition audit_dispatch (db : @Db num) (s : RequestConfig * Outcome) : @Db num :=
  match s.2 with
  | Resolved _ => _createAuditLog (response_entry s.1) db
  | Rejected _ _ _ => _createAuditLog (error_entry s.1) db
  end.

(** What the interceptors write to the store in the course of a call, one
    entry for each dispatch. The interceptors start these writes without
    waiting for them; the store is taken once they are through, in the order
    of the dispatches. *)
Definition audit (t : list Event) (db : @Db num) : @Db num :=
  foldl audit_dispatch db (sends t).

End Audit.

Section Calls.

Variable uuidv4 : nat -> string.
Variable transport : nat -> RequestConfig -> Outcome.
Variable cfg : BridgeConfig.t.

(** [bridgeClient.get(url)] seen that way; [decode] is the parsing of the
    response body, which axios does. *)
Definition get_call {A : Type} (decode : string -> A) (u : string) (w : World)
  : ApiCall A * World :=
  match get uuidv4 transport cfg u ∅ w with
  | Some (res, w') =>
      (mkApiCall
         (match res with
          | Returned body => Some (decode body)
          | Thrown _ => None
          end)
         (drop (length (log w)) (log w')), w')
  | None => (mkApiCall None [], w)
  end.

End Calls.

End BridgeClientAudit.

(** ** src/services/customerService.js *)

Module CustomerService.

Import SupabaseConfig.

Record Endorsement := mkEndorsement {
  e_name : string;
  e_status : string
}.

(** A customer object of the provider, as parsed from JSON. *)
Record Customer := mkCustomer {
  cust_id : string;
  cust_status : string;
  cust_endorsements : Js.field (list Endorsement)
}.

Record KycResult := mkKycResult {
  kycStatus : Js.Value;
  kycTier : Z
}.

Definition statusMap : gmap string string :=
  <["active" := "approved"]>
  (<["paused" := "under_review"]>
  (<["offboarded" := "rejected"]> ∅)).

(** [mapBridgeStatusToKalypso] on an array of endorsements. *)
Definition mapBridgeStatusToKalypso (bridgeStatus : string)
    (endorsements : list Endorsement) : KycResult :=
  let hasRequiredEndorsements :=
    existsb (fun e =>
               (String.eqb (e_name e) "ach" || String.eqb (e_name e) "base")
               && String.eqb (e_status e) "approved") endorsements in
  let kycTier := if hasRequiredEndorsements then 2 else 1 in
  {| kycStatus := Js.get_or_default statusMap bridgeStatus "pending";
     kycTier := kycTier |}.

(** A call [mapBridgeStatusToKalypso(status, endorsements)] whose second
    argument may be missing: the default [[]] of the parameter stands in for
    [undefined] only, and [null.some] raises a [TypeError] ([None]). *)
Definition mapBridgeStatusToKalypso_call (bridgeStatus : string)
    (endorsements : Js.field (list Endorsement)) : option KycResult :=
  match endorsements with
  | Js.undefined => Some (mapBridgeStatusToKalypso bridgeStatus [])
  | Js.null => None
  | Js.value l => Some (mapBridgeStatusToKalypso bridgeStatus l)
  end.

(** What [getKycStatus] returns of the customer: [endorsements] is
    [customer.endorsements || []]. *)
Record KycStatus := mkKycStatus {
  ks_status : string;
  ks_endorsements : list Endorsement
}.

Definition getKycStatus (customer : Customer) : KycStatus :=
  mkKycStatus (cust_status customer) (Js.or_empty (cust_endorsements customer)).

Record NotificationConfig := mkNotificationConfig {
  nc_type : string;
  nc_title : string;
  nc_message : string
}.

Definition notificationConfig (kycTier : Z) : gmap string NotificationConfig :=
  <["approved" := mkNotificationConfig "success" "KYC Verification Complete"
      ("Your identity verification has been approved! You now have Tier "
         +:+ pretty kycTier +:+ " access.")]>
  (<["pending" := mkNotificationConfig "info" "KYC Verification Pending"
      "Your identity verification is being reviewed. We'll notify you once it's complete."]>
  (<["under_review" := mkNotificationConfig "warning" "KYC Under Review"
      "Your identity verification requires additional review. This may take a few business days."]>
  (<["rejected" := mkNotificationConfig "error" "KYC Verification Failed"
      "We were unable to verify your identity. Please contact support for assistance."]>
   ∅))).

Section Sync.

Context {num : Type} `{JsNumber num}.

(** [getBridgeCustomer]: the call [bridgeClient.get] makes for a customer
    id, see [BridgeClientAudit.get_call]; its result is absent when the call
    throws. *)
Variable getBridgeCustomer : string -> BridgeClientAudit.ApiCall Customer.

(** [syncCustomerStatus]: the thrown message or the result, and the
    store. *)
Definition syncCustomerStatus (userId bridgeCustomerId : string)
    (db : @Db num) : (string + KycResult) * @Db num :=
  match getUserById userId db with
  | None => (inl "Failed to sync customer status", db)
  | Some currentUser =>
      let previousStatus :=
        Js.or_default (u_kyc_status currentUser) "not_started" in
      let previousTier := default 0 (u_kyc_tier currentUser) in
      let call := getBridgeCustomer bridgeCustomerId in
      let db := BridgeClientAudit.audit (BridgeClientAudit.api_log call) db in
      match BridgeClientAudit.api_result call with
      | None => (inl "Failed to sync customer status", db)
      | Some customer =>
          let kycStatus := getKycStatus customer in
          let r := mapBridgeStatusToKalypso (ks_status kycStatus)
                     (ks_endorsements kycStatus) in
          let kalypsoStatus := CustomerService.kycStatus r in
          let kycTier := kycTier r in
          let statusChanged :=
            Js.differs previousStatus kalypsoStatus
            || negb (previousTier =? kycTier) in
          match updateUserKycStatus userId kalypsoStatus (Some kycTier) db with
          | None => (inl "Failed to sync customer status", db)
          | Some db =>
              let db :=
                if statusChanged then
                  match Js.get (notificationConfig kycTier) (Js.show kalypsoStatus) with
                  | Js.own config =>
                      (createNotification userId (nc_type config) (nc_title config)
                         (nc_message config) no_options db).2
                  | Js.inherited _ => db   (* a member without [type], [title]
                                              or [message]: the insert is
                                              refused, nothing is created *)
                  | Js.missing => db
                  end
                else db in
              (inr r, db)
          end
      end
  end.

End Sync.

End CustomerService.

(** ** src/services/transferService.js *)

Module TransferService.

Import SupabaseConfig.

Section Cancel.

Context {num : Type} `{JsNumber num}.

Record Cancelled := mkCancelled {
  success : bool;
  transferId : string
}.

(** [cancelTransfer], at time [now]: the thrown message or the result,
    and the store. *)
Definition cancelTransfer (userId transferId : string) (now : Z)
    (db : @Db num) : (string + Cancelled) * @Db num :=
  match single (filter (fun t => bt_bridge_transfer_id t = transferId
                                 /\ bt_user_id t = userId)
                  (bridge_transfers db)) with
  | None =>
      (inl "Failed to cancel transfer: Transfer not found or unauthorized", db)
  | Some transfer =>
      if negb (String.eqb (bt_status transfer) "pending") then
        (inl "Failed to cancel transfer: Can only cancel pending transfers", db)
      else
        let db :=
          set_bridge_transfers
            (map (fun t =>
                    if decide (bt_bridge_transfer_id t = transferId) then
                      mkTransfer (bt_user_id t) (bt_bridge_transfer_id t)
                        (bt_transfer_type t) (bt_amount t) (bt_currency t)
                        (bt_fee t) (bt_total_amount t) "cancelled"
                        (bt_description t) (bt_created_at t) now
                        (bt_completed_at t) (Some now)
                    else t)
               (bridge_transfers db)) db in
        let db :=
          (createNotification userId "info" "Transfer Cancelled"
             "Your transfer has been cancelled."
             (mkOptions (Some "normal") (Some "transaction") None None) db).2 in
        (inr (mkCancelled true transferId), db)
  end.

End Cancel.

End TransferService.

(** ** src/webhooks/bridge.js

    Each handler is a function of the event, of the time [now] at which it
    runs and of the store. A handler that throws is given the store it
    leaves behind: the router catches the error, so the store is all that
    remains of the call. *)

Module BridgeWebhook.

Import SupabaseConfig CustomerService.

(** The envelope of a webhook event. *)
Record Event (D : Type) := mkEvent {
  event_id : string;
  event_type : string;
  event_data : D
}.
Arguments mkEvent {D}.
Arguments event_id {D}.
Arguments event_type {D}.
Arguments event_data {D}.

Record Merchant := mkMerchant {
  m_name : option string;
  m_category : option string;
  m_city : option string;
  m_country : option string
}.

Section Handlers.

Context {num : Type} `{JsNumber num}.

Local Abbreviation Db := (@SupabaseConfig.Db num).
Local Abbreviation Card := (@SupabaseConfig.Card num).

(** The payload of a [card.transaction.created] event; [cd_amount] is
    [parseFloat(cardTransaction.amount)]. *)
Record CardTransactionData := mkCardTransactionData {
  cd_id : string;
  cd_card_id : option string;
  cd_amount : num;
  cd_currency : option string;
  cd_type : option string;
  cd_status : option string;
  cd_merchant : option Merchant;
  cd_decline_reason : option string;
  cd_description : option string;
  cd_is_international : option bool;
  cd_is_online : option bool;
  cd_created_at : option Z
}.

(** The payload of a [virtual_account.deposit.created] event;
    [dd_amount] is [parseFloat(deposit.amount)]. *)
Record DepositData := mkDepositData {
  dd_id : string;
  dd_external_account_id : option string;
  dd_amount : num;
  dd_currency : option string;
  dd_status : option string;
  dd_created_at : option Z;
  dd_completed_at : option Z;
  dd_failure_reason : option string
}.

(** *** customer.updated *)

(** The handler rethrows what it catches: a [TypeError] of the mapping or a
    refused update ends it with the store as it was. *)
Definition handleCustomerUpdated (event : Event Customer) (db : Db)
  : Db :=
  let customer := event_data event in
  let bridgeCustomerId := cust_id customer in
  match getUserByBridgeCustomerId bridgeCustomerId db with
  | None => db
  | Some user =>
      match mapBridgeStatusToKalypso_call (cust_status customer)
              (cust_endorsements customer) with
      | None => db
      | Some r =>
          match update_users_kyc (u_id user) (kycStatus r) (Some (kycTier r)) db with
          | None => db
          | Some db =>
              createAuditLog
                (mkLogData (Some (u_id user)) "kyc_status_updated"
                   (Some ("KYC status updated to " +:+ Js.show (kycStatus r)
                            +:+ " (tier " +:+ pretty (kycTier r) +:+ ")"))
                   (Some (event_id event)) (Some (event_type event))) db
          end
      end
  end.

(** *** transfer.updated *)

Definition statusMap : gmap string string :=
  <["pending" := "pending"]>
  (<["processing" := "processing"]>
  (<["payment_processed" := "completed"]>
  (<["failed" := "failed"]>
  (<["cancelled" := "cancelled"]> ∅)))).

(** [status === 'completed']. *)
Definition is_completed (status : Js.Value) : bool :=
  match status with
  | Js.str s => String.eqb s "completed"
  | Js.member _ => false
  end.

(** The update is on the row the handler has just read; the CHECK on
    [status] can refuse it, and the handler rethrows the error. *)
Definition handleTransferUpdated (event : Event TransferData) (now : Z)
    (db : Db) : Db :=
  let transfer := event_data event in
  let bridgeTransferId := td_id transfer in
  match single (filter (fun t => tx_bridge_transfer_id t = Some bridgeTransferId)
                  (transactions db)) with
  | None => db
  | Some transaction =>
      let status := Js.get_or_default statusMap (td_state transfer) "processing" in
      if negb (check_text transfer_statuses (body_text status)) then db
      else
        set_transactions
          (map (fun t =>
                  if decide (tx_id t = tx_id transaction) then
                    mkTransaction (tx_id t) (tx_user_id t) (tx_bridge_transfer_id t)
                      (match body_text status with
                       | body_string s => s
                       | body_omitted | body_object => tx_status t
                       end)
                      (Some (td_state transfer)) (Some transfer) now
                      (if is_completed status then Some now
                       else tx_completed_at t)
                  else t)
             (transactions db)) db
  end.

(** *** card.transaction.created *)

(** The object sent to [update] by [updateCardSpendingLimits]; the two
    reset stamps are present only when the window has elapsed. *)
Record CardUpdates := mkCardUpdates {
  upd_current_daily_spend : num;
  upd_current_monthly_spend : num;
  upd_updated_at : Z;
  upd_last_daily_reset : option Z;
  upd_last_monthly_reset : option Z
}.

Definition apply_card_updates (updates : CardUpdates) (c : Card) : Card :=
  mkCard (card_id c) (card_user_id c) (card_bridge_card_id c)
    (upd_current_daily_spend updates) (upd_current_monthly_spend updates)
    (daily_spend_limit c) (monthly_spend_limit c)
    (match upd_last_daily_reset updates with
     | Some t => Some t
     | None => last_daily_reset c
     end)
    (match upd_last_monthly_reset updates with
     | Some t => Some t
     | None => last_monthly_reset c
     end)
    (upd_updated_at updates).

(** [new Date(x).getTime()] of a stored stamp; [new Date(null)] is the
    epoch. *)
Definition Date (stamp : option Z) : Z := default 0 stamp.

Definition hoursSinceDaily (now : Z) (card : Card) : Q :=
  (inject_Z (now - Date (last_daily_reset card)) / inject_Z (1000 * 60 * 60))%Q.

Definition shouldResetDaily (now : Z) (card : Card) : bool :=
  Qle_bool 24 (hoursSinceDaily now card).

Definition daysSinceMonthly (now : Z) (card : Card) : Q :=
  (inject_Z (now - Date (last_monthly_reset card))
   / inject_Z (1000 * 60 * 60 * 24))%Q.

Definition shouldResetMonthly (now : Z) (card : Card) : bool :=
  Qle_bool 30 (daysSinceMonthly now card).

Definition spending_updates (card : Card) (amount : num) (now : Z)
  : CardUpdates := {|
  upd_current_daily_spend :=
    if shouldResetDaily now card then amount
    else num_add (current_daily_spend card) amount;
  upd_current_monthly_spend :=
    if shouldResetMonthly now card then amount
    else num_add (current_monthly_spend card) amount;
  upd_updated_at := now;
  upd_last_daily_reset := if shouldResetDaily now card then Some now else None;
  upd_last_monthly_reset := if shouldResetMonthly now card then Some now else None
|}.

(** [updateCardSpendingLimits]: [card] is the row read by the caller. *)
Definition updateCardSpendingLimits (card : Card) (amount : num) (now : Z)
    (db : Db) : Db :=
  let updates := spending_updates card amount now in
  set_bridge_cards
    (map (fun c =>
            if decide (card_id c = card_id card)
            then apply_card_updates updates c else c)
       (bridge_cards db)) db.

Definition merchant_name (cardTransaction : CardTransactionData)
  : option string :=
  Js.or_null (cd_merchant cardTransaction ≫= m_name).

Definition at_merchant (cardTransaction : CardTransactionData) : string :=
  match merchant_name cardTransaction with
  | Some name => " at " +:+ name
  | None => ""
  end.

Definition handleCardTransaction (event : Event CardTransactionData)
    (now : Z) (db : Db) : Db :=
  let cardTransaction := event_data event in
  let bridgeCardId := cd_card_id cardTransaction in
  let bridgeTransactionId := cd_id cardTransaction in
  let amount := cd_amount cardTransaction in
  let currency :=
    Js.toUpperCase (Js.or_default (cd_currency cardTransaction) "usd") in
  if negb (Js.truthy bridgeCardId) then db
  else
    match single (filter (fun c => Some (card_bridge_card_id c) = bridgeCardId)
                    (bridge_cards db)) with
    | None => db
    | Some card =>
        let userId := card_user_id card in
        let transactionType := Js.or_default (cd_type cardTransaction) "purchase" in
        let transactionStatus := Js.or_default (cd_status cardTransaction) "pending" in
        let isApproved :=
          String.eqb transactionStatus "approved"
          || String.eqb transactionStatus "settled" in
        let isDeclined := String.eqb transactionStatus "declined" in
        let row :=
          mkCardTransaction (card_id card) userId bridgeTransactionId amount
            (Js.toLowerCase currency)
            (merchant_name cardTransaction)
            (Js.or_null (cd_merchant cardTransaction ≫= m_category))
            (Js.or_null (cd_merchant cardTransaction ≫= m_city))
            (Js.or_null (cd_merchant cardTransaction ≫= m_country))
            transactionType transactionStatus
            (Js.or_null (cd_decline_reason cardTransaction))
            (Js.or_null (cd_description cardTransaction))
            (Js.or_false (cd_is_international cardTransaction))
            (Js.or_false (cd_is_online cardTransaction))
            (default now (cd_created_at cardTransaction))
            (if String.eqb transactionStatus "settled" then Some now else None) in
        let db :=
          match insert_card_transaction row (card_transactions db) with
          | Some tbl => set_card_transactions tbl db
          | None => db      (* the error is logged, the handler goes on *)
          end in
        let db :=
          if isApproved && String.eqb transactionType "purchase"
          then updateCardSpendingLimits card amount now db
          else db in
        let db :=
          createAuditLog
            (mkLogData (Some userId) "card_transaction_created"
               (Some ("Card "
                  +:+ (if isApproved then "purchase"
                       else if isDeclined then "declined" else "transaction")
                  +:+ ": " +:+ num_show amount +:+ " " +:+ currency
                  +:+ at_merchant cardTransaction))
               (Some (event_id event)) (Some (event_type event))) db in
        let '(notificationTitle, notificationMessage, notificationType) :=
          if isDeclined then
            ("Card Declined",
             "Transaction of " +:+ num_show amount +:+ " " +:+ currency
               +:+ " was declined"
               +:+ (match Js.or_null (cd_decline_reason cardTransaction) with
                    | Some reason => ": " +:+ reason
                    | None => ""
                    end),
             "warning")
          else if isApproved then
            ("Card Purchase",
             num_show amount +:+ " " +:+ currency +:+ at_merchant cardTransaction,
             "info")
          else
            ("Card Transaction",
             "Transaction of " +:+ num_show amount +:+ " " +:+ currency
               +:+ " is pending",
             "info") in
        (createNotification userId notificationType notificationTitle
           notificationMessage
           (mkOptions (Some (if isDeclined then "high" else "normal"))
              (Some "card") None None) db).2
    end.

(** *** virtual_account.deposit.created *)

Definition handleVirtualAccountDeposit (event : Event DepositData)
    (now : Z) (db : Db) : Db :=
  let deposit := event_data event in
  let bridgeAccountId := dd_external_account_id deposit in
  let bridgeDepositId := dd_id deposit in
  let amount := dd_amount deposit in
  let currency := Js.toUpperCase (Js.or_default (dd_currency deposit) "usd") in
  let status := Js.or_default (dd_status deposit) "pending" in
  if negb (Js.truthy bridgeAccountId) then db
  else
    match single (filter (fun a => Some (va_bridge_account_id a) = bridgeAccountId)
                    (bridge_virtual_accounts db)) with
    | None => db
    | Some virtualAccount =>
        let userId := va_user_id virtualAccount in
        let depositRecord :=
          mkTransfer userId bridgeDepositId "ach" amount
            (Js.toLowerCase currency) (num_of_Z 0) amount
            (if String.eqb status "completed" then "completed" else "pending")
            (Some ("ACH deposit of " +:+ num_show amount +:+ " " +:+ currency))
            (default now (dd_created_at deposit)) now
            (if String.eqb status "completed"
             then Some (default now (dd_completed_at deposit)) else None)
            None in
        let db :=
          match insert_bridge_transfer depositRecord (bridge_transfers db) with
          | Some tbl => set_bridge_transfers tbl db
          | None => db      (* the error is logged, the handler goes on *)
          end in
        let db :=
          createAuditLog
            (mkLogData (Some userId) "virtual_account_deposit_created"
               (Some ("Virtual account deposit " +:+ status +:+ ": "
                        +:+ num_show amount +:+ " " +:+ currency))
               (Some (event_id event)) (Some (event_type event))) db in
        let '(notificationTitle, notificationMessage, notificationType) :=
          if String.eqb status "completed" then
            ("Deposit Received",
             num_show amount +:+ " " +:+ currency
               +:+ " has been deposited to your virtual account",
             "success")
          else if String.eqb status "pending" then
            ("Deposit Pending",
             "Deposit of " +:+ num_show amount +:+ " " +:+ currency
               +:+ " is being processed",
             "info")
          else if String.eqb status "failed" then
            ("Deposit Failed",
             "Deposit of " +:+ num_show amount +:+ " " +:+ currency +:+ " failed"
               +:+ (match Js.or_null (dd_failure_reason deposit) with
                    | Some reason => ": " +:+ reason
                    | None => ""
                    end),
             "error")
          else
            ("Deposit Update",
             "Deposit of " +:+ num_show amount +:+ " " +:+ currency
               +:+ " status: " +:+ status,
             "info") in
        (createNotification userId notificationType notificationTitle
           notificationMessage
           (mkOptions
              (Some (if String.eqb status "failed" then "urgent"
                     else if String.eqb status "completed"
                             && num_geb amount (num_of_Z 10000)
                          then "high" else "normal"))
              (Some "transaction") None None) db).2
    end.

End Handlers.

End BridgeWebhook.

(** ** The wallet service (second module of src/services/virtualAccountService.js) *)

(** The two further operations the balance computation uses on amounts:
    subtraction, and the falsiness test behind [x || 0]. *)
Class JsBalance (num : Type) `{JsNumber num} := {
  num_sub : num -> num -> num;
  num_falsy : num -> bool
}.

#[export] Instance Z_JsBalance : JsBalance Z := {|
  num_sub := Z.sub;
  num_falsy := fun z => z =? 0
|}.

Module WalletService.

(** One side of a transaction of the wallet history, as parsed from
    JSON. *)
Record Side := mkSide {
  side_bridge_wallet_id : Js.field string;
  side_currency : Js.field string;
  side_payment_rail : Js.field string
}.

(** The three properties where only the string, if any, is read. *)
Definition bridge_wallet_id (s : Side) : option string :=
  Js.to_option (side_bridge_wallet_id s).
Definition currency (s : Side) : option string :=
  Js.to_option (side_currency s).
Definition payment_rail (s : Side) : option string :=
  Js.to_option (side_payment_rail s).

(** [key.split('_')]. *)
Fixpoint split_underscore (s : string) : list string :=
  match s with
  | EmptyString => [EmptyString]
  | String a s' =>
      if Ascii.eqb a "_" then EmptyString :: split_underscore s'
      else match split_underscore s' with
           | [] => [String a EmptyString]
           | p :: ps => String a p :: ps
           end
  end.

(** An entry of the returned array. *)
Record Balance := mkBalance {
  balance : string;
  b_currency : option string;
  b_chain : option string
}.

Section Balances.

Context {num : Type} `{JsBalance num}.

(** A transaction of the history; [h_amount] is [parseFloat(amount)], and a
    side is absent when the property is [undefined]. *)
Record HistoryTransaction := mkHistoryTransaction {
  h_amount : num;
  h_destination : option Side;
  h_source : option Side
}.

(** The [Map], in insertion order. *)
Fixpoint map_get (key : string) (m : list (string * num)) : option num :=
  match m with
  | [] => None
  | (k, v) :: m' => if String.eqb k key then Some v else map_get key m'
  end.

Fixpoint map_set (key : string) (v : num) (m : list (string * num))
  : list (string * num) :=
  match m with
  | [] => [(key, v)]
  | (k, x) :: m' =>
      if String.eqb k key then (k, v) :: m' else (k, x) :: map_set key v m'
  end.

(** [balanceMap.get(key) || 0]. *)
Definition get_or_0 (key : string) (m : list (string * num)) : num :=
  match map_get key m with
  | Some x => if num_falsy x then num_of_Z 0 else x
  | None => num_of_Z 0
  end.

(** [`${side.currency}_${side.payment_rail}`]. *)
Definition side_key (s : Side) : string :=
  Js.template (side_currency s) +:+ "_" +:+ Js.template (side_payment_rail s).

(** The callback of [history.forEach]; [None] is the [TypeError] raised when
    a side that is read is [undefined]. *)
Definition count_transaction (balanceMap : list (string * num))
    (transaction : HistoryTransaction) : option (list (string * num)) :=
  let value := h_amount transaction in
  match h_destination transaction with
  | None => None
  | Some destination =>
      if Js.truthy (bridge_wallet_id destination) then
        let key := side_key destination in
        Some (map_set key (num_add (get_or_0 key balanceMap) value) balanceMap)
      else
        match h_source transaction with
        | None => None
        | Some source =>
            if Js.truthy (payment_rail source) then
              let key := side_key source in
              Some (map_set key (num_sub (get_or_0 key balanceMap) value) balanceMap)
            else Some balanceMap
        end
  end.

Fixpoint forEach (history : list HistoryTransaction)
    (balanceMap : list (string * num)) : option (list (string * num)) :=
  match history with
  | [] => Some balanceMap
  | transaction :: history' =>
      match count_transaction balanceMap transaction with
      | Some balanceMap' => forEach history' balanceMap'
      | None => None
      end
  end.

Definition entry (e : string * num) : Balance :=
  let parts := split_underscore e.1 in
  mkBalance (num_show e.2) (parts !! 0%nat) (parts !! 1%nat).

Definition calculateBalanceFromHistory (history : list HistoryTransaction)
  : option (list Balance) :=
  map entry <$> forEach history [].

End Balances.

End WalletService.

(** ** Further helpers of the Supabase configuration module and of the card
    service *)

Module MirrorUpdates.

Import SupabaseConfig.

Section Updates.

Context {num : Type} `{JsNumber num}.

Local Abbreviation Db := (@SupabaseConfig.Db num).

(** [updateUserBridgeCustomerId] (src/unnamed/part_000): the updated row
    and the store, or [None] when it throws, which it does when no row has
    the id ([.single()] finds nothing) and when another user already
    carries the customer id ([bridge_customer_id] is UNIQUE); nothing is
    written in either case. *)
Definition updateUserBridgeCustomerId (userId bridgeCustomerId : string)
    (db : Db) : option (User * Db) :=
  match single (filter (fun u => u_id u = userId) (users db)) with
  | None => None
  | Some user =>
      if existsb (fun u => negb (String.eqb (u_id u) userId)
                           && bool_decide (u_bridge_customer_id u
                                           = Some bridgeCustomerId)) (users db)
      then None
      else
        let updated u := mkUser (u_id u) (Some bridgeCustomerId)
                           (u_kyc_status u) (u_kyc_tier u) in
        Some (updated user,
              set_users (map (fun u => if decide (u_id u = userId)
                                       then updated u else u) (users db)) db)
  end.

(** [resetDailySpend] and [resetMonthlySpend] (src/services/cardService.js),
    run at [now]: [.lt] selects the rows whose stamp is earlier than [now],
    a NULL stamp selects nothing, and the trigger of [bridge_cards] stamps
    [updated_at] on the rows written. *)
Definition resetDailySpend (now : Z) (db : Db) : Db :=
  set_bridge_cards
    (map (fun c =>
            match last_daily_reset c with
            | Some stamp =>
                if stamp <? now then
                  mkCard (card_id c) (card_user_id c) (card_bridge_card_id c)
                    (num_of_Z 0) (current_monthly_spend c)
                    (daily_spend_limit c) (monthly_spend_limit c)
                    (Some now) (last_monthly_reset c) now
                else c
            | None => c
            end) (bridge_cards db)) db.

Definition resetMonthlySpend (now : Z) (db : Db) : Db :=
  set_bridge_cards
    (map (fun c =>
            match last_monthly_reset c with
            | Some stamp =>
                if stamp <? now then
                  mkCard (card_id c) (card_user_id c) (card_bridge_card_id c)
                    (current_daily_spend c) (num_of_Z 0)
                    (daily_spend_limit c) (monthly_spend_limit c)
                    (last_daily_reset c) (Some now) now
                else c
            | None => c
            end) (bridge_cards db)) db.

End Updates.

End MirrorUpdates.

(** * Properties *)

(** ** The retry loop of the HTTP client *)

Module BridgeClientFacts.

Import BridgeConfig BridgeClient.

Lemma sends_app t1 t2 : sends (t1 ++ t2) = sends t1 ++ sends t2.
Proof. apply omap_app. Qed.

Lemma delays_app t1 t2 : delays (t1 ++ t2) = delays t1 ++ delays t2.
Proof. apply omap_app. Qed.

Lemma includesZ_elem_of (l : list Z) (x : Z) :
  Js.includesZ l x = true <-> x ∈ l.
Proof.
  unfold Js.includesZ. rewrite existsb_exists. split.
  - intros (y & Hy & Heq). apply Z.eqb_eq in Heq. subst.
    by apply list_elem_of_In.
  - intros H. exists x. split; [by apply list_elem_of_In | apply Z.eqb_refl].
Qed.

Section Facts.

Variable uuidv4 : nat -> string.
Variable transport : nat -> RequestConfig -> Outcome.
Variable cfg : BridgeConfig.t.

Abbreviation client := (client uuidv4 transport cfg).
Abbreviation _handleRequest := (_handleRequest uuidv4).

(** The number of retries a configuration has been through. *)
Definition retries_so_far (c : RequestConfig) : Z := default 0 (_retryCount c).

Lemma _handleRequest_retryCount c w :
  _retryCount (_handleRequest c w).1 = _retryCount c.
Proof.
  unfold BridgeClient._handleRequest.
  repeat (case_match; simplify_eq/=); done.
Qed.

Lemma _handleRequest_log c w : log (_handleRequest c w).2 = log w.
Proof.
  unfold BridgeClient._handleRequest.
  repeat (case_match; simplify_eq/=); done.
Qed.

(** Below the cap, [_isRetryable] is the classification of the failure. *)
Lemma _isRetryable_spec msg cd r c :
  1 <= retryAttempts cfg -> 0 <= retries_so_far c ->
  _isRetryable cfg (mkError msg cd r c) = true <->
  retries_so_far c < retryAttempts cfg /\ retryable_failure cfg (Rejected msg cd r).
Proof.
  intros HRA Hc. unfold _isRetryable, retries_so_far in *. simpl.
  destruct (_retryCount c) as [n|]; simpl in *.
  - destruct (Z.leb_spec (retryAttempts cfg) n).
    + split; [done | lia].
    + destruct r as [r|]; [rewrite includesZ_elem_of|]; intuition lia.
  - destruct r as [r|]; [rewrite includesZ_elem_of|]; intuition lia.
Qed.

(** The shape of every run of the loop, from a configuration that has
    been through [retries_so_far c] retries already. *)
Lemma client_run fuel : forall c w,
  1 <= retryAttempts cfg ->
  0 <= retries_so_far c <= retryAttempts cfg ->
  (Z.to_nat (retryAttempts cfg - retries_so_far c) < fuel)%nat ->
  exists res t w',
    client fuel c w = Some (res, w') /\
    log w' = log w ++ t /\
    t = alternate (sends t) (delays t) /\
    length (sends t) = S (length (delays t)) /\
    retries_so_far c + Z.of_nat (length (delays t)) <= retryAttempts cfg /\
    (forall (n : nat) ms, delays t !! n = Some ms ->
       ms = retryDelay cfg * 2 ^ (retries_so_far c + Z.of_nat n)) /\
    (forall (i : nat) c' o, sends t !! i = Some (c', o) ->
       (i < length (delays t))%nat -> retryable_failure cfg o) /\
    exists c' o, sends t !! length (delays t) = Some (c', o) /\
      match o with
      | Resolved r => res = Returned (body r)
      | Rejected msg cd r =>
          res = Thrown (_formatError (mkError msg cd r c')) /\
          (retryable_failure cfg o ->
           retries_so_far c + Z.of_nat (length (delays t)) = retryAttempts cfg)
      end.
Proof.
  induction fuel as [|fuel IH]; intros c w HRA Hc Hfuel; [lia|].
  unfold retries_so_far in *. simpl.
  destruct (_handleRequest c w) as [c1 w1] eqn:Hreq.
  assert (Hc1 : _retryCount c1 = _retryCount c)
    by (rewrite <- (_handleRequest_retryCount c w), Hreq; done).
  assert (Hw1 : log w1 = log w)
    by (rewrite <- (_handleRequest_log c w), Hreq; done).
  set (o := transport _ c1). destruct o as [r | msg cd r] eqn:Ho.
  - exists (Returned (body r)), [Sent c1 (Resolved r)],
      (mkWorld (uuid_next w1) (log w1 ++ [Sent c1 (Resolved r)])).
    simpl. rewrite Hw1.
    split; [done|]. split; [done|]. split; [done|]. split; [done|]. split; [lia|].
    split; [intros n ms Hn; done|].
    split; [intros i c' o' Hi Hlt; lia|].
    exists c1, (Resolved r). done.
  - unfold _handleError.
    destruct (_isRetryable cfg (mkError msg cd r c1)) eqn:Hretry.
    + apply _isRetryable_spec in Hretry;
        [| done | unfold retries_so_far; rewrite Hc1; apply Hc].
      destruct Hretry as [Hlt Hfail].
      unfold retries_so_far in Hlt. rewrite Hc1 in Hlt.
      unfold _retry. simpl. rewrite Hc1.
      match goal with |- context [client fuel ?c2 ?w2] =>
        destruct (IH c2 w2)
          as (res & t & w' & Hrun & Hlog & Halt & Hlen & Hcap & Hdel & Hsent & Hlast)
      end.
      { done. }
      { simpl. lia. }
      { simpl. lia. }
      simpl in Hcap, Hdel, Hlast, Hlog.
      exists res,
        (Sent c1 (Rejected msg cd r)
           :: Slept (retryDelay cfg * 2 ^ (default 0 (_retryCount c) + 1 - 1)) :: t), w'.
      simpl. split; [done|]. split.
      { rewrite Hlog, Hw1, <- !app_assoc. done. }
      split; [by rewrite <- Halt|].
      split; [lia|]. split; [lia|]. split.
      { intros [|n] ms Hn; simpl in Hn.
        - inversion Hn. f_equal. f_equal. lia.
        - rewrite (Hdel n ms Hn). f_equal. f_equal. lia. }
      split.
      { intros [|i] c' o' Hi Hilt; simpl in Hi.
        - inversion Hi; subst. done.
        - apply (Hsent i c' o' Hi). lia. }
      destruct Hlast as (c' & o' & Hl & Hm).
      exists c', o'. split; [done|].
      destruct o'; [done|]. destruct Hm as [? Hm]. split; [done|].
      intros Hf. specialize (Hm Hf). lia.
    + exists (Thrown (_formatError (mkError msg cd r c1))),
        [Sent c1 (Rejected msg cd r)],
        (mkWorld (uuid_next w1) (log w1 ++ [Sent c1 (Rejected msg cd r)])).
      simpl. rewrite Hw1.
      split; [done|]. split; [done|]. split; [done|]. split; [done|]. split; [lia|].
      split; [intros n ms Hn; done|].
      split; [intros i c' o' Hi Hlt; lia|].
      exists c1, (Rejected msg cd r). split; [done|]. split; [done|].
      intros Hf.
      destruct (Z.lt_ge_cases (default 0 (_retryCount c)) (retryAttempts cfg))
        as [Hlt|Hge]; [|lia].
      assert (_isRetryable cfg (mkError msg cd r c1) = true) as Hr; [|congruence].
      apply _isRetryable_spec;
        [done | unfold retries_so_far; rewrite Hc1; apply Hc |].
      unfold retries_so_far. rewrite Hc1. done.
Qed.

(** The bound on re-entrant calls is never hit, whatever the
    configuration. *)
Lemma client_total_retried fuel : forall c w n,
  _retryCount c = Some n -> 1 <= n ->
  (Z.to_nat (retryAttempts cfg - n) < fuel)%nat ->
  is_Some (client fuel c w).
Proof.
  induction fuel as [|fuel IH]; intros c w n Hn Hpos Hfuel; [lia|].
  simpl.
  destruct (_handleRequest c w) as [c1 w1] eqn:Hreq.
  assert (Hc1 : _retryCount c1 = Some n)
    by (rewrite <- Hn, <- (_handleRequest_retryCount c w), Hreq; done).
  destruct (transport _ c1) as [r | msg cd r]; [done|].
  unfold _handleError, _isRetryable. simpl. rewrite Hc1.
  destruct (Z.leb_spec (retryAttempts cfg) n); [done|].
  assert (Hgo : forall w2, is_Some (_retry cfg (client fuel)
                  (mkError msg cd r c1) w2)).
  { intros w2. unfold _retry. simpl. rewrite Hc1. simpl.
    eapply (IH _ _ (n + 1)); simpl; [done | lia | lia]. }
  destruct r as [r|]; [|apply Hgo].
  destruct (Js.includesZ _ _); [apply Hgo | done].
Qed.

Lemma request_total verb u d hs w :
  is_Some (request uuidv4 transport cfg verb u d hs w).
Proof.
  unfold request. simpl.
  destruct (_handleRequest _ w) as [c1 w1] eqn:Hreq.
  pose proof (_handleRequest_retryCount
                (mkRequest verb u hs d None None) w) as Hc1.
  rewrite Hreq in Hc1. simpl in Hc1.
  destruct (transport _ c1) as [r | msg cd r]; [done|].
  unfold _handleError, _isRetryable. simpl. rewrite Hc1.
  assert (Hgo : forall w2, is_Some (_retry cfg
                  (client (S (Z.to_nat (retryAttempts cfg))))
                  (mkError msg cd r c1) w2)).
  { intros w2. unfold _retry. simpl BridgeClient.config. rewrite Hc1.
    eapply (client_total_retried _ _ _ 1); simpl; [done | lia | lia]. }
  destruct r as [r|]; [|apply Hgo].
  destruct (Js.includesZ _ _); [apply Hgo | done].
Qed.

(** The [Idempotency-Key] header a configuration leaves the request
    interceptor with. *)
Definition idempotency_key_sent (c : RequestConfig) (w : World)
  : option string :=
  if Js.includes ["post"; "put"] (Js.toLowerCase (method c)) then
    if Js.truthy (headers c !! "Idempotency-Key")
    then headers c !! "Idempotency-Key"
    else Some (uuidv4 (S (uuid_next w)))
  else headers c !! "Idempotency-Key".

Lemma _handleRequest_key c w :
  headers (_handleRequest c w).1 !! "Idempotency-Key"
  = idempotency_key_sent c w.
Proof.
  unfold BridgeClient._handleRequest, idempotency_key_sent.
  destruct (Js.includes _ _); simpl;
    [|by rewrite lookup_insert_ne by discriminate].
  rewrite lookup_insert_ne by discriminate.
  destruct (Js.truthy _); simpl;
    [by rewrite lookup_insert_ne by discriminate|].
  by rewrite lookup_insert_eq.
Qed.

Lemma _handleRequest_method c w : method (_handleRequest c w).1 = method c.
Proof.
  unfold BridgeClient._handleRequest.
  repeat (case_match; simplify_eq/=); done.
Qed.

Section Keys.

Hypothesis uuidv4_nonempty : forall n, uuidv4 n <> "".

Lemma idempotency_key_sent_again c w c2 w2 :
  method c2 = method c ->
  headers c2 !! "Idempotency-Key" = idempotency_key_sent c w ->
  idempotency_key_sent c2 w2 = idempotency_key_sent c w.
Proof.
  intros Hm Hk. unfold idempotency_key_sent in *. rewrite Hm, Hk.
  destruct (Js.includes _ _); [|done].
  destruct (Js.truthy (headers c !! _)) eqn:Ht; [by rewrite Ht|].
  simpl. destruct (String.eqb_spec (uuidv4 (S (uuid_next w))) "") as [He|];
    [by apply uuidv4_nonempty in He | done].
Qed.

(** Every dispatch of one call carries the header of the first. *)
Lemma client_keys fuel : forall c w res w',
  client fuel c w = Some (res, w') ->
  exists t, log w' = log w ++ t /\ sends t <> [] /\
    forall c' o, (c', o) ∈ sends t ->
      headers c' !! "Idempotency-Key" = idempotency_key_sent c w.
Proof.
  induction fuel as [|fuel IH]; intros c w res w' Hrun; [done|].
  simpl in Hrun.
  pose proof (_handleRequest_key c w) as Hk.
  pose proof (_handleRequest_method c w) as Hm.
  pose proof (_handleRequest_log c w) as Hw1.
  destruct (_handleRequest c w) as [c1 w1]. simpl in Hk, Hm, Hw1.
  destruct (transport _ c1) as [r | msg cd r].
  - simplify_eq. exists [Sent c1 (Resolved r)]. simpl. rewrite Hw1.
    split; [done|]. split; [done|]. intros c' o Hin. apply list_elem_of_singleton in Hin.
    by simplify_eq.
  - unfold _handleError in Hrun.
    destruct (_isRetryable _ _).
    + unfold _retry in Hrun. simpl in Hrun.
      apply IH in Hrun as (t & Hlog & _ & Hkeys). simpl in Hlog.
      exists (Sent c1 (Rejected msg cd r) :: Slept
                (retryDelay cfg * 2 ^ (default 0 (_retryCount c1) + 1 - 1)) :: t).
      split; [by rewrite Hlog, Hw1, <- !app_assoc|]. split; [done|].
      intros c' o Hin. simpl in Hin. apply elem_of_cons in Hin as [Heq|Hin].
      * by simplify_eq.
      * rewrite (Hkeys c' o Hin).
        apply idempotency_key_sent_again; done.
    + simplify_eq. exists [Sent c1 (Rejected msg cd r)]. simpl. rewrite Hw1.
      split; [done|]. split; [done|]. intros c' o Hin. apply list_elem_of_singleton in Hin.
      by simplify_eq.
Qed.

End Keys.

End Facts.

(** C1. Every call made through the client has this shape: a dispatch is
    followed by a retry exactly when it failed without a response or with a
    status of the retryable list and fewer than [retryAttempts] retries
    were made before it; the [n]-th retry is preceded by a wait of
    [retryDelay * 2^(n-1)]; there are at most [retryAttempts] retries; the
    last dispatch decides the result, which is the formatted error when it
    failed; and a failure with any other status is the last dispatch of the
    call, its error being the result. *)
Theorem C1_retry_policy (uuidv4 : nat -> string)
    (transport : nat -> RequestConfig -> Outcome) (cfg : BridgeConfig.t)
    (verb u : string) (d : option string) (hs : gmap string string) (w : World) :
  1 <= retryAttempts cfg ->
  exists res t w',
    request uuidv4 transport cfg verb u d hs w = Some (res, w') /\
    log w' = log w ++ t /\
    t = alternate (sends t) (delays t) /\
    length (sends t) = S (length (delays t)) /\
    Z.of_nat (length (delays t)) <= retryAttempts cfg /\
    (forall (n : nat) ms, delays t !! n = Some ms ->
       ms = retryDelay cfg * 2 ^ (Z.of_nat (S n) - 1)) /\
    (forall (i : nat) c o, sends t !! i = Some (c, o) ->
       (i < length (delays t))%nat <->
       retryable_failure cfg o /\ Z.of_nat i < retryAttempts cfg) /\
    (exists c o, sends t !! length (delays t) = Some (c, o) /\
       res = match o with
             | Resolved r => Returned (body r)
             | Rejected msg cd r => Thrown (_formatError (mkError msg cd r c))
             end) /\
    (forall (i : nat) c msg cd r,
       sends t !! i = Some (c, Rejected msg cd (Some r)) ->
       status r ∉ retryableStatusCodes cfg ->
       i = length (delays t) /\
       res = Thrown (_formatError (mkError msg cd (Some r) c))).
Proof.
  intros HRA. unfold request.
  destruct (client_run uuidv4 transport cfg (S (S (Z.to_nat (retryAttempts cfg))))
              (mkRequest verb u hs d None None) w)
    as (res & t & w' & Hrun & Hlog & Halt & Hlen & Hcap & Hdel & Hsent & Hlast);
    [done | unfold retries_so_far; simpl; lia
     | unfold retries_so_far; simpl; lia |].
  unfold retries_so_far in *. simpl in *.
  destruct Hlast as (cl & ol & Hl & Hres).
  assert (Hfinal : forall (i : nat) c o, sends t !! i = Some (c, o) ->
            ~ (i < length (delays t))%nat -> i = length (delays t) /\ c = cl /\ o = ol).
  { intros i c o Hi Hn. apply lookup_lt_Some in Hi as Hb.
    assert (i = length (delays t)) by lia. subst i.
    rewrite Hl in Hi. by simplify_eq. }
  exists res, t, w'. split; [done|]. split; [done|]. split; [done|].
  split; [done|]. split; [lia|]. split.
  { intros n ms Hn. rewrite (Hdel n ms Hn). f_equal. f_equal. lia. }
  split.
  { intros i c o Hi. split.
    - intros Hlt. split; [by eapply Hsent | lia].
    - intros [Hf Hilt].
      destruct (decide (i < length (delays t))%nat) as [|Hn]; [done|].
      destruct (Hfinal i c o Hi Hn) as (-> & -> & ->).
      destruct ol; [done|]. destruct Hres as [_ Hc]. specialize (Hc Hf). lia. }
  split.
  { exists cl, ol. split; [done|]. destruct ol; [done | by destruct Hres]. }
  intros i c msg cd r Hi Hstatus.
  destruct (decide (i < length (delays t))%nat) as [Hlt|Hn].
  - by apply (Hsent i _ _ Hi) in Hlt.
  - destruct (Hfinal i _ _ Hi Hn) as (-> & -> & <-). split; [done|].
    by destruct Hres.
Qed.

(** The UUID stream and the networks of the examples. *)
Definition uuid_of_nat (n : nat) : string := "uuid-" +:+ pretty n.
Definition always_unavailable (n : nat) (c : RequestConfig) : Outcome :=
  Rejected "Request failed with status code 503" (Some "ERR_BAD_RESPONSE")
    (Some (mkResponse 503 "{}")).
Definition always_ok (n : nat) (c : RequestConfig) : Outcome :=
  Resolved (mkResponse 200 "{}").
Definition fresh_world : World := mkWorld 0 [].

Lemma C1_retry_policy_witness :
  1 <= retryAttempts bridgeConfig /\
  exists res t w',
    post uuid_of_nat always_unavailable bridgeConfig "/transfers" "{}" ∅ fresh_world
      = Some (res, w') /\
    log w' = log fresh_world ++ t /\
    Z.of_nat (length (delays t)) <= retryAttempts bridgeConfig.
Proof.
  split; [simpl; lia|].
  destruct (C1_retry_policy uuid_of_nat always_unavailable bridgeConfig
              "post" "/transfers" (Some "{}") ∅ fresh_world)
    as (res & t & w' & Hrun & Hlog & _ & _ & Hcap & _); [simpl; lia|].
  exists res, t, w'. split; [exact Hrun|]. split; [exact Hlog | exact Hcap].
Defined.

(** On a provider that answers 503 to everything, a call is dispatched four
    times, waits 1 s, 2 s and 4 s in between, and throws. *)
Example post_unavailable :
  exists e w',
    post uuid_of_nat always_unavailable bridgeConfig "/transfers" "{}" ∅ fresh_world
      = Some (Thrown e, w') /\
    delays (log w') = [1000; 2000; 4000] /\
    length (sends (log w')) = 4%nat /\
    f_status e = Some 503.
Proof. do 2 eexists. split; [vm_compute; reflexivity|]. by vm_compute. Qed.

(** With [retryAttempts] set to 0 the first failure is still retried once:
    [_retryCount] is [undefined] on a fresh request and [undefined >= 0] is
    false. *)
Example no_retries_configured :
  exists e w',
    post uuid_of_nat always_unavailable (BridgeConfig.mk 30000 0 1000 [429; 500; 502; 503; 504])
      "/transfers" "{}" ∅ fresh_world
      = Some (Thrown e, w') /\
    delays (log w') = [1000] /\ length (sends (log w')) = 2%nat.
Proof. do 2 eexists. split; [vm_compute; reflexivity|]. by vm_compute. Qed.

(** A 400 is thrown at once. *)
Example post_bad_request :
  exists e w',
    post uuid_of_nat
      (fun _ _ => Rejected "Request failed with status code 400" None
                    (Some (mkResponse 400 "{}")))
      bridgeConfig "/transfers" "{}" ∅ fresh_world
      = Some (Thrown e, w') /\
    delays (log w') = [] /\ length (sends (log w')) = 1%nat.
Proof. do 2 eexists. split; [vm_compute; reflexivity|]. by vm_compute. Qed.

(** C2, as stated, fails for PATCH: a [patch] call made without a key of
    the caller's is sent without an [Idempotency-Key] header. *)
Lemma C2_patch_sent_without_key :
  exists res w' c o,
    patch uuid_of_nat always_ok bridgeConfig "/cards/card_1" "{}" ∅ fresh_world
      = Some (res, w') /\
    sends (log w') = [(c, o)] /\
    Js.toLowerCase (method c) = "patch" /\
    headers c !! "Idempotency-Key" = None.
Proof.
  do 4 eexists. split; [vm_compute; reflexivity|].
  split; [vm_compute; reflexivity|]. by vm_compute.
Qed.

(** C2, amended. Every dispatch of a call carries the same
    [Idempotency-Key] header. For POST and PUT it is the caller's key when
    that is a non-empty string and otherwise the UUID drawn when the
    request is first intercepted; for every other verb, PATCH included, it
    is whatever the caller passed, possibly nothing. *)
Theorem C2_idempotency_key (uuidv4 : nat -> string)
    (transport : nat -> RequestConfig -> Outcome) (cfg : BridgeConfig.t)
    (verb u : string) (d : option string) (hs : gmap string string) (w : World) :
  (forall n, uuidv4 n <> "") ->
  exists res t w',
    request uuidv4 transport cfg verb u d hs w = Some (res, w') /\
    log w' = log w ++ t /\
    sends t <> [] /\
    forall c o, (c, o) ∈ sends t ->
      headers c !! "Idempotency-Key" =
        if Js.includes ["post"; "put"] (Js.toLowerCase verb) then
          if Js.truthy (hs !! "Idempotency-Key")
          then hs !! "Idempotency-Key"
          else Some (uuidv4 (S (uuid_next w)))
        else hs !! "Idempotency-Key".
Proof.
  intros Hne.
  destruct (request_total uuidv4 transport cfg verb u d hs w) as [[res w'] Hrun].
  unfold request in *.
  destruct (client_keys uuidv4 transport cfg Hne _ _ _ _ _ Hrun)
    as (t & Hlog & Hsome & Hkeys).
  exists res, t, w'. repeat split; try done.
Qed.

Lemma C2_idempotency_key_witness :
  (forall n, uuid_of_nat n <> "") /\
  exists res t w',
    request uuid_of_nat always_unavailable bridgeConfig "put" "/customers/c_1"
      (Some "{}") ∅ fresh_world = Some (res, w') /\
    log w' = log fresh_world ++ t /\
    forall c o, (c, o) ∈ sends t ->
      headers c !! "Idempotency-Key" = Some (uuid_of_nat 1).
Proof.
  split; [intros n; discriminate|].
  destruct (C2_idempotency_key uuid_of_nat always_unavailable bridgeConfig
              "put" "/customers/c_1" (Some "{}") ∅ fresh_world)
    as (res & t & w' & Hrun & Hlog & _ & Hkeys); [intros n; discriminate|].
  exists res, t, w'. split; [exact Hrun|]. split; [exact Hlog|].
  intros c o Hin. exact (Hkeys c o Hin).
Defined.

End BridgeClientFacts.


(** ** Queries on the mirror *)

Module StoreFacts.

Import SupabaseConfig.

Lemma includes_elem_of (l : list string) (x : string) :
  Js.includes l x = true <-> x ∈ l.
Proof.
  unfold Js.includes. rewrite existsb_exists. split.
  - intros (y & Hy & Heq). apply String.eqb_eq in Heq. subst.
    by apply list_elem_of_In.
  - intros Hx. exists x. split; [by apply list_elem_of_In | apply String.eqb_refl].
Qed.

Section Lists.

Context {A : Type} (P : A -> Prop) `{!forall x, Decision (P x)}.

Lemma filter_none (l : list A) : (forall x, x ∈ l -> ~ P x) -> filter P l = [].
Proof.
  induction l as [|a l IH]; intros Hl; [done|].
  rewrite filter_cons_False by (apply Hl; left).
  apply IH. intros x Hx. apply Hl. by right.
Qed.

(** A query on a column with a UNIQUE constraint selects the one row that
    carries the key. *)
Lemma filter_unique {K : Type} (f : A -> option K) (l : list A) (x : A) (k : K) :
  NoDup (omap f l) -> x ∈ l -> f x = Some k -> P x ->
  (forall y, P y -> f y = Some k) ->
  filter P l = [x].
Proof.
  intros Hnd Hx Hfx HPx HP.
  induction l as [|a l IH]; [by apply elem_of_nil in Hx|].
  simpl in Hnd.
  destruct (decide (P a)) as [HPa|HPa].
  - rewrite filter_cons_True by done.
    rewrite (HP a HPa) in Hnd. apply NoDup_cons in Hnd as [Hk Hnd].
    assert (Hrest : forall y, y ∈ l -> ~ P y).
    { intros y Hy HPy. apply Hk. apply list_elem_of_omap. exists y. auto. }
    apply elem_of_cons in Hx as [->|Hx]; [by rewrite filter_none|].
    by destruct (Hrest x Hx).
  - rewrite filter_cons_False by done.
    apply elem_of_cons in Hx as [->|Hx]; [done|].
    apply IH; [|done]. destruct (f a); [by apply NoDup_cons in Hnd as [_ ?] | done].
Qed.

Lemma single_filter_unique {K : Type} (f : A -> option K) (l : list A) (x : A) (k : K) :
  NoDup (omap f l) -> x ∈ l -> f x = Some k -> P x ->
  (forall y, P y -> f y = Some k) ->
  single (filter P l) = Some x.
Proof. intros. by erewrite filter_unique. Qed.

Lemma single_elem_of (l : list A) (x : A) : single l = Some x -> x ∈ l.
Proof. destruct l as [|a [|b l]]; intros Hs; simplify_eq/=. by left. Qed.

Lemma single_filter_Some (l : list A) (x : A) :
  single (filter P l) = Some x -> x ∈ l /\ P x.
Proof. intros Hs. apply single_elem_of in Hs. by apply list_elem_of_filter in Hs as [? ?]. Qed.

End Lists.

Lemma omap_Some_map {A K : Type} (key : A -> K) (l : list A) :
  omap (fun x => Some (key x)) l = map key l.
Proof. induction l as [|a l IH]; [done|]. cbn. by f_equal. Qed.

Section Frames.

Context {num : Type} `{JsNumber num}.

Local Abbreviation Db := (@SupabaseConfig.Db num).

(** Whether the preferences stored for a user let a notification through. *)
Definition passes_preferences (userId priority category : string) (db : Db) : bool :=
  match single (filter (fun p => np_user_id p = userId) (notification_preferences db)) with
  | Some preferences =>
      default false (getCategoryPreference preferences category)
      && meetsMinimumPriority priority (min_priority_level preferences)
  | None => true
  end.

(** [createNotification] on values the schema accepts. *)
Lemma createNotification_valid userId type title message options (db : Db) :
  let priority := default "normal" (opt_priority options) in
  let category := default "general" (opt_category options) in
  let n := mkNotification userId type title message priority category
             (opt_actionUrl options) (opt_expiresAt options) in
  type ∈ notification_types -> priority ∈ notification_priorities ->
  category ∈ notification_categories ->
  createNotification userId type title message options db
  = if passes_preferences userId priority category db
    then (Some n, set_notifications (notifications db ++ [n]) db)
    else (None, db).
Proof.
  intros priority category n Ht Hp Hc.
  unfold createNotification, passes_preferences.
  fold priority category. fold n.
  assert (Hins : insert_notification n (notifications db)
                 = Some (notifications db ++ [n])).
  { unfold insert_notification. subst n. cbn [n_type n_priority n_category].
    apply includes_elem_of in Ht, Hp, Hc. by rewrite Ht, Hp, Hc. }
  destruct (single _) as [p|]; [|by rewrite Hins].
  destruct (default false (getCategoryPreference p category)); simpl; [|done].
  destruct (meetsMinimumPriority priority (min_priority_level p)); simpl; [|done].
  by rewrite Hins.
Qed.

(** [createNotification] writes to [notifications] only. *)
Lemma createNotification_frame userId type title message options (db : Db) :
  let db' := (createNotification userId type title message options db).2 in
  users db' = users db /\ bridge_cards db' = bridge_cards db /\
  card_transactions db' = card_transactions db /\
  transactions db' = transactions db /\
  bridge_transfers db' = bridge_transfers db /\
  bridge_virtual_accounts db' = bridge_virtual_accounts db /\
  notification_preferences db' = notification_preferences db /\
  audit_logs db' = audit_logs db.
Proof.
  unfold createNotification. simpl.
  repeat (case_match; simpl; try done).
Qed.

Lemma passes_preferences_frame userId priority category (db db' : Db) :
  notification_preferences db' = notification_preferences db ->
  passes_preferences userId priority category db'
  = passes_preferences userId priority category db.
Proof. intros Heq. unfold passes_preferences. by rewrite Heq. Qed.

Lemma set_notifications_same (db : Db) : set_notifications (notifications db) db = db.
Proof. by destruct db. Qed.

Lemma set_users_id (db : Db) : set_users (users db) db = db.
Proof. by destruct db. Qed.

(** The row [createAuditLog] appends. *)
Definition audit_row (logData : LogData) : AuditLog :=
  mkAuditLog (Js.or_null (ld_userId logData)) (ld_eventType logData)
    (Js.or_null (ld_description logData))
    (Js.or_null (ld_bridgeEventId logData))
    (Js.or_null (ld_bridgeEventType logData)).

(** The rows the interceptors of the HTTP client append for a call. *)
Definition client_rows (t : list BridgeClient.Event) : list AuditLog :=
  map (fun s : BridgeClient.RequestConfig * BridgeClient.Outcome =>
         match s.2 with
         | BridgeClient.Resolved _ =>
             audit_row (mkLogData None "bridge_api_success"
                          (ld_description (BridgeClientAudit.response_entry s.1))
                          None (Some "bridge_api_success"))
         | BridgeClient.Rejected _ _ _ =>
             audit_row (mkLogData None "bridge_api_error"
                          (ld_description (BridgeClientAudit.error_entry s.1))
                          None (Some "bridge_api_error"))
         end)
    (BridgeClient.sends t).

(** The interceptors write to [audit_logs] only. *)
Lemma audit_eq (t : list BridgeClient.Event) (db : Db) :
  BridgeClientAudit.audit t db
  = set_audit_logs (audit_logs db ++ client_rows t) db.
Proof.
  unfold BridgeClientAudit.audit, client_rows.
  generalize (BridgeClient.sends t). intros l. revert db.
  induction l as [|s l IH]; intros db; simpl.
  - rewrite app_nil_r. by destruct db.
  - rewrite IH. unfold BridgeClientAudit.audit_dispatch.
    destruct s as [c [r|msg cd r]]; simpl;
      unfold set_audit_logs; simpl; by rewrite <- app_assoc.
Qed.

(** A user found by id is a row of that id. *)
Lemma getUserById_exists (userId : string) (db : Db) (user : User) :
  getUserById userId db = Some user ->
  existsb (fun u => String.eqb (u_id u) userId) (users db) = true.
Proof.
  intros Hget. apply single_filter_Some in Hget as [Hin Hid].
  apply existsb_exists. exists user.
  split; [by apply list_elem_of_In | by apply String.eqb_eq].
Qed.

Lemma getUserById_unique (db : Db) (user : User) :
  NoDup (map u_id (users db)) -> user ∈ users db ->
  getUserById (u_id user) db = Some user.
Proof.
  intros Hnd Hin. unfold getUserById.
  apply (single_filter_unique _ (fun u => Some (u_id u)) _ user (u_id user));
    [by rewrite omap_Some_map | done | done | done | by intros y ->].
Qed.

End Frames.

End StoreFacts.


(** ** Notification preferences *)

Module NotificationFacts.

Import SupabaseConfig StoreFacts.

(** C10. For a user without a preferences row, [createNotification] inserts
    the notification whatever its category and priority (among the values
    the schema admits); and whenever a notification is not created, a
    preferences row of the user exists and its category toggle or its
    minimum priority is what blocked it. *)
Theorem C10_no_preferences_no_filter {num : Type} `{JsNumber num}
    (db : @Db num) (userId type title message : string) (options : Options) :
  let priority := default "normal" (opt_priority options) in
  let category := default "general" (opt_category options) in
  let n := mkNotification userId type title message priority category
             (opt_actionUrl options) (opt_expiresAt options) in
  type ∈ notification_types -> priority ∈ notification_priorities ->
  category ∈ notification_categories ->
  ((forall p, p ∈ notification_preferences db -> np_user_id p <> userId) ->
   createNotification userId type title message options db
   = (Some n, set_notifications (notifications db ++ [n]) db)) /\
  ((createNotification userId type title message options db).1 = None ->
   exists p, p ∈ notification_preferences db /\ np_user_id p = userId /\
     (default false (getCategoryPreference p category) = false \/
      meetsMinimumPriority priority (min_priority_level p) = false)).
Proof.
  intros priority category n Ht Hp Hc.
  rewrite (createNotification_valid userId type title message options db Ht Hp Hc).
  fold priority category. fold n.
  unfold passes_preferences.
  destruct (single _) as [p|] eqn:Hsingle.
  - apply single_filter_Some in Hsingle as [Hin Hp_user]. split.
    + intros Hnone. by destruct (Hnone p Hin).
    + intros Hskip. exists p. split; [done|]. split; [done|].
      destruct (default false (getCategoryPreference p category)); [|by left].
      destruct (meetsMinimumPriority priority (min_priority_level p));
        [done | by right].
  - split; [done|]. intros Hskip. done.
Qed.

(** A store with one user and no preferences row. *)
Definition one_user : @Db Z :=
  @mkDb Z [mkUser "u1" (Some "cust_1") (Some "pending") (Some 1)] [] [] [] [] [] [] [] [].

Lemma C10_no_preferences_no_filter_witness :
  createNotification "u1" "info" "Card Purchase" "10 USD"
    (mkOptions (Some "low") (Some "card") None None) one_user
  = (Some (mkNotification "u1" "info" "Card Purchase" "10 USD" "low" "card" None None),
     set_notifications
       [mkNotification "u1" "info" "Card Purchase" "10 USD" "low" "card" None None]
       one_user).
Proof.
  apply (proj1 (C10_no_preferences_no_filter one_user "u1" "info" "Card Purchase"
                  "10 USD" (mkOptions (Some "low") (Some "card") None None)
                  ltac:(apply includes_elem_of; reflexivity)
                  ltac:(apply includes_elem_of; reflexivity)
                  ltac:(apply includes_elem_of; reflexivity))).
  intros p Hp. by apply elem_of_nil in Hp.
Defined.

(** With a preferences row, both filters are live. *)
Example card_notifications_disabled :
  (createNotification "u1" "info" "Card Purchase" "10 USD"
     (mkOptions (Some "urgent") (Some "card") None None)
     (@mkDb Z (users one_user) [] [] [] [] []
        [mkPreferences "u1" (Some true) (Some false) (Some true) (Some true)
           (Some true) (Some true) (Some "low")] [] [])).1 = None.
Proof. by vm_compute. Qed.

Example below_minimum_priority :
  (createNotification "u1" "info" "Card Purchase" "10 USD"
     (mkOptions (Some "normal") (Some "card") None None)
     (@mkDb Z (users one_user) [] [] [] [] []
        [mkPreferences "u1" (Some true) (Some true) (Some true) (Some true)
           (Some true) (Some true) (Some "high")] [] [])).1 = None.
Proof. by vm_compute. Qed.

End NotificationFacts.

(** ** Cancelling a transfer *)

Module TransferFacts.

Import SupabaseConfig StoreFacts TransferService.

Lemma NoDup_map_elem_inj {A K : Type} (key : A -> K) (l : list A) (x y : A) :
  NoDup (map key l) -> x ∈ l -> y ∈ l -> key x = key y -> x = y.
Proof.
  induction l as [|a l IH]; intros Hnd Hx Hy Hk; [by apply elem_of_nil in Hx|].
  simpl in Hnd. apply NoDup_cons in Hnd as [Ha Hnd].
  assert (Hin : forall z, z ∈ l -> key z ∈ map key l).
  { intros z Hz. apply list_elem_of_In, in_map, list_elem_of_In, Hz. }
  apply elem_of_cons in Hx as [->|Hx]; apply elem_of_cons in Hy as [->|Hy].
  - done.
  - destruct Ha. rewrite Hk. by apply Hin.
  - destruct Ha. rewrite <- Hk. by apply Hin.
  - by apply IH.
Qed.

(** The row a cancellation at [now] leaves in place of [t]. *)
Definition cancelled_at {num : Type} (now : Z) (t : @Transfer num) : @Transfer num :=
  mkTransfer (bt_user_id t) (bt_bridge_transfer_id t) (bt_transfer_type t)
    (bt_amount t) (bt_currency t) (bt_fee t) (bt_total_amount t) "cancelled"
    (bt_description t) (bt_created_at t) now (bt_completed_at t) (Some now).

(** C9. On a table in which provider transfer ids are unique:
    [cancelTransfer] returns normally only if the transfer exists, belongs to
    the caller and is pending; on such a transfer it returns normally, and
    the row, and no other, becomes [cancelled] with [cancelled_at] set to the
    time of the call. On a transfer in any other status it throws, whoever
    owns it; it throws on a transfer of another user and on an unknown id;
    and whenever it throws, the store is what it was. *)
Theorem C9_cancel_only_pending {num : Type} `{JsNumber num}
    (db : @Db num) (userId transferId : string) (now : Z) :
  NoDup (map bt_bridge_transfer_id (bridge_transfers db)) ->
  (forall r db', cancelTransfer userId transferId now db = (inr r, db') ->
     exists t, t ∈ bridge_transfers db /\ bt_bridge_transfer_id t = transferId /\
       bt_user_id t = userId /\ bt_status t = "pending") /\
  (forall t, t ∈ bridge_transfers db -> bt_bridge_transfer_id t = transferId ->
     bt_user_id t = userId -> bt_status t = "pending" ->
     exists db', cancelTransfer userId transferId now db
                 = (inr (mkCancelled true transferId), db') /\
       (forall x, x ∈ bridge_transfers db ->
          bt_bridge_transfer_id x = transferId -> x = t) /\
       bridge_transfers db'
       = map (fun x => if decide (bt_bridge_transfer_id x = transferId)
                       then cancelled_at now t else x)
           (bridge_transfers db)) /\
  (forall t, t ∈ bridge_transfers db -> bt_bridge_transfer_id t = transferId ->
     bt_status t <> "pending" ->
     exists message,
       cancelTransfer userId transferId now db = (inl message, db) /\
       (bt_user_id t = userId ->
        message = "Failed to cancel transfer: Can only cancel pending transfers")) /\
  (forall t, t ∈ bridge_transfers db -> bt_bridge_transfer_id t = transferId ->
     bt_user_id t <> userId ->
     cancelTransfer userId transferId now db
     = (inl "Failed to cancel transfer: Transfer not found or unauthorized", db)) /\
  ((forall t, t ∈ bridge_transfers db -> bt_bridge_transfer_id t <> transferId) ->
   cancelTransfer userId transferId now db
   = (inl "Failed to cancel transfer: Transfer not found or unauthorized", db)) /\
  (forall message db',
     cancelTransfer userId transferId now db = (inl message, db') -> db' = db).
Proof.
  intros Hnd.
  assert (Hfind : forall t, t ∈ bridge_transfers db ->
            bt_bridge_transfer_id t = transferId -> bt_user_id t = userId ->
            single (filter (fun t => bt_bridge_transfer_id t = transferId
                                     /\ bt_user_id t = userId)
                      (bridge_transfers db)) = Some t).
  { intros t Hin Hid Hu.
    apply (single_filter_unique _ (fun t => Some (bt_bridge_transfer_id t)) _ t transferId).
    - by rewrite omap_Some_map.
    - done.
    - by rewrite Hid.
    - done.
    - by intros y [-> _]. }
  assert (Huniq : forall t x, t ∈ bridge_transfers db -> x ∈ bridge_transfers db ->
            bt_bridge_transfer_id t = transferId ->
            bt_bridge_transfer_id x = transferId -> x = t).
  { intros t x Ht Hx Ht_id Hx_id.
    apply (NoDup_map_elem_inj bt_bridge_transfer_id (bridge_transfers db));
      congruence. }
  assert (Hforeign : forall t, t ∈ bridge_transfers db ->
            bt_bridge_transfer_id t = transferId -> bt_user_id t <> userId ->
            cancelTransfer userId transferId now db
            = (inl "Failed to cancel transfer: Transfer not found or unauthorized", db)).
  { intros t Hin Hid Hu. unfold cancelTransfer.
    rewrite filter_none; [done|].
    intros x Hx [Hx_id Hx_u]. apply Hu.
    by rewrite <- (Huniq t x Hin Hx Hid Hx_id). }
  split; [|split; [|split; [|split; [|split]]]].
  - intros r db' Hrun. unfold cancelTransfer in Hrun.
    destruct (single _) as [t|] eqn:Hs; [|done].
    apply single_filter_Some in Hs as (Hin & Hid & Hu).
    destruct (String.eqb_spec (bt_status t) "pending") as [Hst|Hst]; [|done].
    by exists t.
  - intros t Hin Hid Hu Hst. unfold cancelTransfer.
    rewrite (Hfind t Hin Hid Hu), Hst. simpl negb. cbv iota.
    eexists. split; [reflexivity|].
    split; [intros x Hx Hx_id; by apply (Huniq t x)|].
    match goal with |- bridge_transfers (createNotification ?u ?ty ?ti ?m ?o ?d).2 = _ =>
      destruct (createNotification_frame u ty ti m o d)
        as (_ & _ & _ & _ & -> & _)
    end.
    simpl. apply map_ext_in. intros x Hx. apply list_elem_of_In in Hx.
    destruct (decide (bt_bridge_transfer_id x = transferId)) as [Hx_id|Hx_id];
      [|done].
    by rewrite (Huniq t x Hin Hx Hid Hx_id).
  - intros t Hin Hid Hst.
    destruct (decide (bt_user_id t = userId)) as [Hu|Hu].
    + eexists. split; [|done]. unfold cancelTransfer.
      rewrite (Hfind t Hin Hid Hu).
      by destruct (String.eqb_spec (bt_status t) "pending").
    + eexists. split; [by apply (Hforeign t)|]. done.
  - exact Hforeign.
  - intros Hnone. unfold cancelTransfer.
    rewrite filter_none; [done|]. intros x Hx [Hx_id _]. by apply (Hnone x).
  - intros message db' Hrun. unfold cancelTransfer in Hrun.
    destruct (single _) as [t|]; [|by simplify_eq].
    destruct (negb _); by simplify_eq.
Qed.

(** A store with a pending and a processing transfer of user [u1]. *)
Definition two_transfers : @Db Z :=
  @mkDb Z [mkUser "u1" (Some "cust_1") (Some "approved") (Some 2)] [] [] []
    [mkTransfer "u1" "tr_1" "external" 25 "usdc" 0 25 "pending" None 1000 1000 None None;
     mkTransfer "u1" "tr_2" "ach" 40 "usd" 0 40 "processing" None 1000 2000 None None]
    [] [] [] [].

Lemma C9_cancel_only_pending_witness :
  (exists message,
     cancelTransfer "u1" "tr_2" 5000 two_transfers = (inl message, two_transfers) /\
     ("u1" = "u1" ->
      message = "Failed to cancel transfer: Can only cancel pending transfers")) /\
  cancelTransfer "u2" "tr_1" 5000 two_transfers
  = (inl "Failed to cancel transfer: Transfer not found or unauthorized", two_transfers) /\
  (exists db',
     cancelTransfer "u1" "tr_1" 5000 two_transfers = (inr (mkCancelled true "tr_1"), db') /\
     bridge_transfers db'
     = [mkTransfer "u1" "tr_1" "external" 25 "usdc" 0 25 "cancelled" None 1000 5000
          None (Some 5000);
        mkTransfer "u1" "tr_2" "ach" 40 "usd" 0 40 "processing" None 1000 2000
          None None]).
Proof.
  assert (Hnd : NoDup (map bt_bridge_transfer_id (bridge_transfers two_transfers)))
    by (apply (bool_decide_unpack _); vm_compute; exact I).
  split; [|split].
  - apply (proj1 (proj2 (proj2 (C9_cancel_only_pending two_transfers "u1" "tr_2" 5000 Hnd)))
             (mkTransfer "u1" "tr_2" "ach" 40 "usd" 0 40 "processing" None 1000 2000
                None None)).
    + vm_compute. right. left.
    + reflexivity.
    + discriminate.
  - apply (proj1 (proj2 (proj2 (proj2
             (C9_cancel_only_pending two_transfers "u2" "tr_1" 5000 Hnd))))
             (mkTransfer "u1" "tr_1" "external" 25 "usdc" 0 25 "pending" None 1000 1000
                None None)).
    + vm_compute. left.
    + reflexivity.
    + discriminate.
  - destruct (proj1 (proj2 (C9_cancel_only_pending two_transfers "u1" "tr_1" 5000 Hnd))
                (mkTransfer "u1" "tr_1" "external" 25 "usdc" 0 25 "pending" None 1000 1000
                   None None)) as (db' & Hrun & _ & Hrows).
    + vm_compute. left.
    + reflexivity.
    + reflexivity.
    + reflexivity.
    + exists db'. split; [exact Hrun | exact Hrows].
Defined.

(** Cancelling the pending transfer marks it, and only it. *)
Example cancel_pending :
  exists db', cancelTransfer "u1" "tr_1" 5000 two_transfers
              = (inr (mkCancelled true "tr_1"), db') /\
    bridge_transfers db'
    = [mkTransfer "u1" "tr_1" "external" 25 "usdc" 0 25 "cancelled" None 1000 5000
         None (Some 5000);
       mkTransfer "u1" "tr_2" "ach" 40 "usd" 0 40 "processing" None 1000 2000 None None].
Proof. eexists. split; by vm_compute. Qed.

(** Another user's transfer is not found. *)
Example cancel_foreign :
  cancelTransfer "u2" "tr_1" 5000 two_transfers
  = (inl "Failed to cancel transfer: Transfer not found or unauthorized", two_transfers).
Proof. by vm_compute. Qed.

End TransferFacts.

(** ** KYC status mapping and synchronisation *)

Module CustomerFacts.

Import SupabaseConfig StoreFacts BridgeClientAudit CustomerService BridgeWebhook.

(** An endorsement that qualifies a customer for tier 2. *)
Definition qualifying (e : Endorsement) : Prop :=
  (e_name e = "ach" \/ e_name e = "base") /\ e_status e = "approved".

Lemma kycTier_2_iff (bridgeStatus : string) (endorsements : list Endorsement) :
  kycTier (mapBridgeStatusToKalypso bridgeStatus endorsements) = 2
  <-> exists e, e ∈ endorsements /\ qualifying e.
Proof.
  unfold mapBridgeStatusToKalypso, qualifying. simpl.
  destruct (existsb _ endorsements) eqn:Hex.
  - split; [intros _ | done].
    apply existsb_exists in Hex as (e & Hin & He).
    apply andb_true_iff in He as [Hn Hs]. apply orb_true_iff in Hn.
    exists e. rewrite <- !String.eqb_eq. split; [by apply list_elem_of_In | done].
  - split; [done|]. intros (e & Hin & Hn & Hs).
    assert (existsb (fun e => (String.eqb (e_name e) "ach" || String.eqb (e_name e) "base")
                              && String.eqb (e_status e) "approved") endorsements = true)
      as Hyes; [|congruence].
    apply existsb_exists. exists e. split; [by apply list_elem_of_In|].
    apply andb_true_iff. rewrite orb_true_iff, !String.eqb_eq. done.
Qed.

Lemma kycTier_values (bridgeStatus : string) (endorsements : list Endorsement) :
  kycTier (mapBridgeStatusToKalypso bridgeStatus endorsements) = 1 \/
  kycTier (mapBridgeStatusToKalypso bridgeStatus endorsements) = 2.
Proof. unfold mapBridgeStatusToKalypso. simpl. destruct (existsb _ _); auto. Qed.

(** The status of the mapping, case by case. *)
Lemma kycStatus_cases (bridgeStatus : string) (endorsements : list Endorsement) :
  kycStatus (mapBridgeStatusToKalypso bridgeStatus endorsements)
  = if String.eqb bridgeStatus "active" then Js.str "approved"
    else if String.eqb bridgeStatus "paused" then Js.str "under_review"
    else if String.eqb bridgeStatus "offboarded" then Js.str "rejected"
    else if String.eqb bridgeStatus "__proto__" then Js.member Js.object_prototype
    else if Js.includes Js.prototype_functions bridgeStatus
         then Js.member (Js.method bridgeStatus)
    else Js.str "pending".
Proof.
  unfold mapBridgeStatusToKalypso, Js.get_or_default, Js.get, CustomerService.statusMap.
  cbn [kycStatus].
  destruct (String.eqb_spec bridgeStatus "active") as [->|H1]; [done|].
  destruct (String.eqb_spec bridgeStatus "paused") as [->|H2]; [done|].
  destruct (String.eqb_spec bridgeStatus "offboarded") as [->|H3]; [done|].
  rewrite !lookup_insert_ne, lookup_empty by done.
  destruct (String.eqb bridgeStatus "__proto__"); [done|].
  by destruct (Js.includes _ _).
Qed.

(** The CHECK on [kyc_status] refuses the mapped status for one provider
    status only. *)
Lemma kycStatus_check (bridgeStatus : string) (endorsements : list Endorsement) :
  check_text kyc_status_values
    (body_text (kycStatus (mapBridgeStatusToKalypso bridgeStatus endorsements)))
  = negb (String.eqb bridgeStatus "__proto__").
Proof.
  rewrite kycStatus_cases.
  destruct (String.eqb_spec bridgeStatus "active") as [->|H1]; [done|].
  destruct (String.eqb_spec bridgeStatus "paused") as [->|H2]; [done|].
  destruct (String.eqb_spec bridgeStatus "offboarded") as [->|H3]; [done|].
  destruct (String.eqb bridgeStatus "__proto__"); [done|].
  by destruct (Js.includes _ _).
Qed.

Lemma kycTier_check (bridgeStatus : string) (endorsements : list Endorsement) :
  Js.includesZ [1; 2] (kycTier (mapBridgeStatusToKalypso bridgeStatus endorsements))
  = true.
Proof. by destruct (kycTier_values bridgeStatus endorsements) as [-> | ->]. Qed.

(** The source text of a function is no key of [notificationConfig]. *)
Lemma notificationConfig_method (kycTier : Z) (name : string) :
  Js.get (notificationConfig kycTier) (Js.show (Js.member (Js.method name)))
  = Js.missing.
Proof.
  unfold Js.get, notificationConfig, Js.show.
  rewrite !lookup_insert_ne, lookup_empty by done.
  done.
Qed.

(** Every entry of [notificationConfig] has a type the schema admits. *)
Lemma notificationConfig_own (kycTier : Z) (key : string) (config : NotificationConfig) :
  Js.get (notificationConfig kycTier) key = Js.own config ->
  nc_type config ∈ notification_types.
Proof.
  unfold Js.get, notificationConfig.
  destruct (String.eqb_spec key "approved") as [->|H1];
    [intros [= <-]; by apply includes_elem_of|].
  destruct (String.eqb_spec key "pending") as [->|H2];
    [intros [= <-]; by apply includes_elem_of|].
  destruct (String.eqb_spec key "under_review") as [->|H3];
    [intros [= <-]; by apply includes_elem_of|].
  destruct (String.eqb_spec key "rejected") as [->|H4];
    [intros [= <-]; by apply includes_elem_of|].
  rewrite !lookup_insert_ne, lookup_empty by done.
  by repeat case_match.
Qed.

Section Sync.

Context {num : Type} `{JsNumber num}.

Local Abbreviation Db := (@SupabaseConfig.Db num).

(** The row an update of the KYC columns with the mapped result leaves in
    place of the user [userId]. *)
Definition with_kyc (r : KycResult) (userId : string) (u : User) : User :=
  if decide (u_id u = userId)
  then mkUser (u_id u) (u_bridge_customer_id u)
         (write_text (body_text (kycStatus r)) (u_kyc_status u)) (Some (kycTier r))
  else u.

Lemma with_kyc_ids (r : KycResult) (userId : string) (l : list User) :
  map u_id (map (with_kyc r userId) l) = map u_id l.
Proof.
  rewrite map_map. apply map_ext. intros u. unfold with_kyc.
  by destruct (decide _).
Qed.

Lemma with_kyc_customer_ids (r : KycResult) (userId : string) (l : list User) :
  omap u_bridge_customer_id (map (with_kyc r userId) l) = omap u_bridge_customer_id l.
Proof.
  induction l as [|u l IH]; [done|]. cbn. rewrite IH.
  unfold with_kyc. by destruct (decide _).
Qed.


(** An update of the KYC columns with a mapped result, on a store that has
    the user. *)
Lemma update_users_kyc_mapped (userId bridgeStatus : string)
    (endorsements : list Endorsement) (db : Db) :
  existsb (fun u => String.eqb (u_id u) userId) (users db) = true ->
  let r := mapBridgeStatusToKalypso bridgeStatus endorsements in
  update_users_kyc userId (kycStatus r) (Some (kycTier r)) db
  = if String.eqb bridgeStatus "__proto__" then None
    else Some (set_users (map (with_kyc r userId) (users db)) db).
Proof.
  intros Hex r.
  pose proof (kycStatus_check bridgeStatus endorsements) as Hstatus.
  pose proof (kycTier_check bridgeStatus endorsements) as Htier.
  fold r in Hstatus, Htier. clearbody r.
  unfold update_users_kyc. rewrite Hex. cbn [negb]. rewrite Hstatus, Htier.
  by destruct (String.eqb bridgeStatus "__proto__").
Qed.

(** Whether [syncCustomerStatus] regards the mapped result as a change. *)
Definition statusChanged (user : User) (r : KycResult) : bool :=
  Js.differs (Js.or_default (u_kyc_status user) "not_started") (kycStatus r)
  || negb (default 0 (u_kyc_tier user) =? kycTier r).

(** The notification a sync creates for a user, if any. *)
Definition sync_notifications (user : User) (r : KycResult) (db : Db)
  : list Notification :=
  if statusChanged user r then
    match Js.get (notificationConfig (kycTier r)) (Js.show (kycStatus r)) with
    | Js.own config =>
        if passes_preferences (u_id user) "normal" "general" db
        then [mkNotification (u_id user) (nc_type config) (nc_title config)
                (nc_message config) "normal" "general" None None]
        else []
    | Js.inherited _ | Js.missing => []
    end
  else [].

(** What a sync does when the user is there and the provider answers. *)
Lemma syncCustomerStatus_run
    (getBridgeCustomer : string -> ApiCall Customer) (db : Db) (user : User)
    (customer : Customer) (bridgeCustomerId : string) :
  NoDup (map u_id (users db)) -> user ∈ users db ->
  api_result (getBridgeCustomer bridgeCustomerId) = Some customer ->
  cust_status customer <> "__proto__" ->
  let r := mapBridgeStatusToKalypso (cust_status customer)
             (Js.or_empty (cust_endorsements customer)) in
  syncCustomerStatus getBridgeCustomer (u_id user) bridgeCustomerId db
  = (inr r,
     set_notifications (notifications db ++ sync_notifications user r db)
       (set_users (map (with_kyc r (u_id user)) (users db))
          (audit (api_log (getBridgeCustomer bridgeCustomerId)) db))).
Proof.
  intros Hnd Hin Hget Hproto r.
  unfold syncCustomerStatus.
  rewrite (getUserById_unique db user Hnd Hin), Hget.
  unfold getKycStatus. cbn [ks_status ks_endorsements]. fold r.
  fold (statusChanged user r).
  set (db1 := audit _ db).
  assert (Husers : users db1 = users db) by (subst db1; by rewrite audit_eq).
  assert (Hprefs : notification_preferences db1 = notification_preferences db)
    by (subst db1; by rewrite audit_eq).
  assert (Hnotes : notifications db1 = notifications db)
    by (subst db1; by rewrite audit_eq).
  assert (Hex : existsb (fun u => String.eqb (u_id u) (u_id user)) (users db1) = true).
  { rewrite Husers. apply (getUserById_exists _ db user).
    by apply getUserById_unique. }
  unfold updateUserKycStatus. rewrite Hex. simpl negb. cbv iota.
  subst r. rewrite (update_users_kyc_mapped _ _ _ db1 Hex).
  destruct (String.eqb_spec (cust_status customer) "__proto__") as [|_]; [done|].
  set (r := mapBridgeStatusToKalypso _ _). rewrite Husers.
  set (db2 := set_users _ db1).
  assert (Hnotes2 : notifications db2 = notifications db) by (subst db2; by simpl).
  assert (Hprefs2 : notification_preferences db2 = notification_preferences db)
    by (subst db2; by simpl).
  f_equal. unfold sync_notifications.
  destruct (statusChanged user r).
  - destruct (Js.get _ _) as [config| |] eqn:Hconfig.
    + rewrite (createNotification_valid (u_id user) (nc_type config) (nc_title config)
                 (nc_message config) no_options db2);
        [| by apply (notificationConfig_own _ _ _ Hconfig)
         | by apply includes_elem_of | by apply includes_elem_of].
      cbn [no_options opt_priority opt_category opt_actionUrl opt_expiresAt
           default from_option id].
      rewrite (passes_preferences_frame (u_id user) "normal" "general" db db2 Hprefs2).
      destruct (passes_preferences _ _ _ db); cbn [snd].
      * by rewrite Hnotes2.
      * by rewrite app_nil_r, <- Hnotes2, set_notifications_same.
    + by rewrite app_nil_r, <- Hnotes2, set_notifications_same.
    + by rewrite app_nil_r, <- Hnotes2, set_notifications_same.
  - by rewrite app_nil_r, <- Hnotes2, set_notifications_same.
Qed.

End Sync.

(** C7. The tier [mapBridgeStatusToKalypso] returns is a function of the
    endorsement list alone: it is 2 exactly when some endorsement named
    [ach] or [base] is approved and 1 otherwise, whatever the status string.
    A sync of a user of the store, the provider answering, returns the
    mapping of what the provider reports at that time and leaves, in the row
    of the user and in no other, the tier computed from the endorsements
    reported, whatever tier was stored before; so a stored tier of 2 goes
    back to 1 once the endorsements are gone. (The one provider status for
    which the row cannot be written, [__proto__], is set aside.) *)
Theorem C7_tier_rule (bridgeStatus : string) (endorsements : list Endorsement) :
  (kycTier (mapBridgeStatusToKalypso bridgeStatus endorsements) = 2
   <-> exists e, e ∈ endorsements /\ qualifying e) /\
  (kycTier (mapBridgeStatusToKalypso bridgeStatus endorsements) = 1
   <-> ~ exists e, e ∈ endorsements /\ qualifying e) /\
  (forall bridgeStatus',
     kycTier (mapBridgeStatusToKalypso bridgeStatus' endorsements)
     = kycTier (mapBridgeStatusToKalypso bridgeStatus endorsements)) /\
  (forall (num : Type) (N : JsNumber num) getBridgeCustomer bridgeCustomerId
          (db : @Db num) user,
     NoDup (map u_id (users db)) -> user ∈ users db ->
     api_result (getBridgeCustomer bridgeCustomerId)
       = Some (mkCustomer bridgeCustomerId bridgeStatus (Js.value endorsements)) ->
     bridgeStatus <> "__proto__" ->
     let tier := kycTier (mapBridgeStatusToKalypso bridgeStatus endorsements) in
     exists db' user',
       syncCustomerStatus getBridgeCustomer (u_id user) bridgeCustomerId db
       = (inr (mapBridgeStatusToKalypso bridgeStatus endorsements), db') /\
       getUserById (u_id user) db' = Some user' /\
       u_kyc_tier user' = Some tier /\
       u_bridge_customer_id user' = u_bridge_customer_id user /\
       (forall u', u' ∈ users db' -> u_id u' = u_id user -> u_kyc_tier u' = Some tier) /\
       (forall u', u' ∈ users db' -> u_id u' <> u_id user -> u' ∈ users db) /\
       length (users db') = length (users db)).
Proof.
  split; [apply kycTier_2_iff|]. split; [|split].
  - rewrite <- (kycTier_2_iff bridgeStatus endorsements).
    unfold mapBridgeStatusToKalypso. simpl. by destruct (existsb _ _).
  - done.
  - intros num N getBridgeCustomer bridgeCustomerId db user Hnd Hin Hget Hproto tier.
    pose proof (syncCustomerStatus_run getBridgeCustomer db user _ bridgeCustomerId
                  Hnd Hin Hget Hproto) as Hrun.
    cbn [cust_status cust_endorsements Js.or_empty] in Hrun.
    set (r := mapBridgeStatusToKalypso bridgeStatus endorsements) in *.
    eexists _, (with_kyc r (u_id user) user). split; [exact Hrun|].
    cbn [users set_notifications set_users].
    assert (Hid : u_id (with_kyc r (u_id user) user) = u_id user)
      by (unfold with_kyc; by rewrite decide_True).
    split; [|split; [|split; [|split; [|split]]]].
    + rewrite <- Hid at 1. apply getUserById_unique.
      * cbn [users set_notifications set_users]. by rewrite with_kyc_ids.
      * cbn [users set_notifications set_users].
        apply list_elem_of_In, in_map, list_elem_of_In, Hin.
    + unfold with_kyc. by rewrite decide_True.
    + unfold with_kyc. by rewrite decide_True.
    + intros u' (u & -> & Hu)%list_elem_of_fmap Hu'.
      unfold with_kyc in *. by destruct (decide (u_id u = u_id user)).
    + intros u' (u & -> & Hu)%list_elem_of_fmap Hu'.
      unfold with_kyc in *. destruct (decide (u_id u = u_id user)); [|done].
      by destruct Hu'.
    + by rewrite length_map.
Qed.

(** The provider of the examples: every dispatch is answered with status
    200, and the body parses to the customer given. *)
Definition reports (customer : Customer) (bridgeCustomerId : string)
  : ApiCall Customer :=
  (get_call BridgeClientFacts.uuid_of_nat BridgeClientFacts.always_ok
     BridgeConfig.bridgeConfig (fun _ => customer)
     ("/customers/" +:+ bridgeCustomerId) BridgeClientFacts.fresh_world).1.

(** An approved user at tier 2, and the provider reporting the customer
    active with its only endorsement revoked. *)
Definition tier_2_user : @Db Z :=
  @mkDb Z [mkUser "u1" (Some "cust_1") (Some "approved") (Some 2);
           mkUser "u2" (Some "cust_2") (Some "approved") (Some 2)]
    [] [] [] [] [] [] [] [].

Definition endorsements_revoked : string -> ApiCall Customer :=
  reports (mkCustomer "cust_1" "active" (Js.value [mkEndorsement "ach" "revoked"])).

Lemma C7_tier_rule_witness :
  exists db' user',
    syncCustomerStatus endorsements_revoked "u1" "cust_1" tier_2_user
    = (inr (mkKycResult (Js.str "approved") 1), db') /\
    getUserById "u1" db' = Some user' /\
    u_kyc_tier user' = Some 1 /\
    u_bridge_customer_id user' = Some "cust_1" /\
    (forall u', u' ∈ users db' -> u_id u' = "u1" -> u_kyc_tier u' = Some 1) /\
    (forall u', u' ∈ users db' -> u_id u' <> "u1" -> u' ∈ users tier_2_user) /\
    length (users db') = 2%nat.
Proof.
  refine (proj2 (proj2 (proj2 (C7_tier_rule "active" [mkEndorsement "ach" "revoked"])))
            Z Z_JsNumber endorsements_revoked "cust_1" tier_2_user
            (mkUser "u1" (Some "cust_1") (Some "approved") (Some 2)) _ _ _ _).
  - apply (bool_decide_unpack _). vm_compute. exact I.
  - vm_compute. left.
  - reflexivity.
  - discriminate.
Defined.

(** The examples of the specification, and the sync above spelled out. *)
Example map_active_ach :
  mapBridgeStatusToKalypso "active" [mkEndorsement "ach" "approved"]
  = mkKycResult (Js.str "approved") 2.
Proof. reflexivity. Qed.

Example map_active_none :
  mapBridgeStatusToKalypso "active" [] = mkKycResult (Js.str "approved") 1.
Proof. reflexivity. Qed.

Example map_offboarded :
  mapBridgeStatusToKalypso "offboarded" [mkEndorsement "base" "pending"]
  = mkKycResult (Js.str "rejected") 1.
Proof. reflexivity. Qed.

Example tier_goes_down :
  users (syncCustomerStatus endorsements_revoked "u1" "cust_1" tier_2_user).2
  = [mkUser "u1" (Some "cust_1") (Some "approved") (Some 1);
     mkUser "u2" (Some "cust_2") (Some "approved") (Some 2)].
Proof. by vm_compute. Qed.

(** [handleCustomerUpdated] does not write to [notifications]. *)
Lemma handleCustomerUpdated_notifications {num : Type} `{JsNumber num}
    (event : Event Customer) (db : @Db num) :
  notifications (handleCustomerUpdated event db) = notifications db.
Proof.
  unfold handleCustomerUpdated, update_users_kyc.
  by repeat case_match; simplify_eq.
Qed.

(** A user whose verification is pending, and the event that reports the
    customer active with an approved endorsement. *)
Definition pending_user : @Db Z :=
  @mkDb Z [mkUser "u1" (Some "cust_1") (Some "pending") (Some 1)] [] [] [] [] [] [] [] [].

Definition customer_approved : Event Customer :=
  mkEvent "evt_1" "customer.updated"
    (mkCustomer "cust_1" "active" (Js.value [mkEndorsement "ach" "approved"])).

(** C4, on the code. The handler of [customer.updated] never creates a
    notification: on the pending user above it stores [approved] at tier 2,
    a change of status, and leaves [notifications] empty, where the claim
    asks for one notification. [syncCustomerStatus], given the same customer
    by the provider, stores the same and creates the notification. *)
Theorem C4_customer_updated_creates_no_notification :
  (forall (num : Type) (N : JsNumber num) (event : Event Customer) (db : @Db num),
     notifications (handleCustomerUpdated event db) = notifications db) /\
  users (handleCustomerUpdated customer_approved pending_user)
    = [mkUser "u1" (Some "cust_1") (Some "approved") (Some 2)] /\
  notifications (handleCustomerUpdated customer_approved pending_user) = [] /\
  (let db' := (syncCustomerStatus (reports (event_data customer_approved))
                 "u1" "cust_1" pending_user).2 in
   users db' = [mkUser "u1" (Some "cust_1") (Some "approved") (Some 2)] /\
   notifications db'
   = [mkNotification "u1" "success" "KYC Verification Complete"
        "Your identity verification has been approved! You now have Tier 2 access."
        "normal" "general" None None]).
Proof.
  split; [intros; apply handleCustomerUpdated_notifications|].
  split; [by vm_compute|]. split; by vm_compute.
Qed.

End CustomerFacts.

(** ** Webhook handlers *)

Module WebhookFacts.

Import SupabaseConfig StoreFacts CustomerService BridgeWebhook.

(** *** transfer.updated *)

(** The table of the specification: provider state to local status. *)
Definition local_status (state : string) : string :=
  if String.eqb state "pending" then "pending"
  else if String.eqb state "processing" then "processing"
  else if String.eqb state "payment_processed" then "completed"
  else if String.eqb state "failed" then "failed"
  else if String.eqb state "cancelled" then "cancelled"
  else "processing".

Lemma statusMap_local_status (state : string) :
  Js.inherits state = false ->
  Js.get_or_default statusMap state "processing" = Js.str (local_status state).
Proof.
  intros [Hproto Hfun]%orb_false_iff.
  unfold local_status, Js.get_or_default, Js.get, statusMap.
  destruct (String.eqb_spec state "pending") as [->|H1]; [done|].
  destruct (String.eqb_spec state "processing") as [->|H2]; [done|].
  destruct (String.eqb_spec state "payment_processed") as [->|H3]; [done|].
  destruct (String.eqb_spec state "failed") as [->|H4]; [done|].
  destruct (String.eqb_spec state "cancelled") as [->|H5]; [done|].
  by rewrite !lookup_insert_ne, lookup_empty, Hproto, Hfun by done.
Qed.

Lemma statusMap_inherited (state : string) :
  Js.inherits state = true ->
  Js.get_or_default statusMap state "processing"
  = Js.member (if String.eqb state "__proto__" then Js.object_prototype
               else Js.method state).
Proof.
  intros Hin. unfold Js.inherits in Hin.
  unfold Js.get_or_default, Js.get, statusMap.
  destruct (String.eqb_spec state "pending") as [->|H1]; [done|].
  destruct (String.eqb_spec state "processing") as [->|H2]; [done|].
  destruct (String.eqb_spec state "payment_processed") as [->|H3]; [done|].
  destruct (String.eqb_spec state "failed") as [->|H4]; [done|].
  destruct (String.eqb_spec state "cancelled") as [->|H5]; [done|].
  rewrite !lookup_insert_ne, lookup_empty by done.
  destruct (String.eqb state "__proto__"); [done|].
  cbn [orb] in Hin. by rewrite Hin.
Qed.

Lemma local_status_allowed (state : string) :
  Js.includes transfer_statuses (local_status state) = true.
Proof. unfold local_status. by repeat case_match. Qed.

(** The rule of the table, for the states the lookup does not find on the
    prototype. *)
Lemma handleTransferUpdated_table {num : Type} `{JsNumber num}
    (db : @Db num) (event : Event TransferData) (now : Z) (transaction : Transaction) :
  NoDup (omap tx_bridge_transfer_id (transactions db)) ->
  transaction ∈ transactions db ->
  tx_bridge_transfer_id transaction = Some (td_id (event_data event)) ->
  let state := td_state (event_data event) in
  Js.inherits state = false ->
  transactions (handleTransferUpdated event now db)
  = map (fun t =>
           if decide (tx_id t = tx_id transaction) then
             mkTransaction (tx_id t) (tx_user_id t) (tx_bridge_transfer_id t)
               (local_status state) (Some state) (Some (event_data event)) now
               (if decide (local_status state = "completed") then Some now
                else tx_completed_at t)
           else t)
      (transactions db).
Proof.
  intros Hnd Hin Hid state Hown.
  unfold handleTransferUpdated.
  rewrite (single_filter_unique _ tx_bridge_transfer_id _ transaction
             (td_id (event_data event))) by done.
  fold state. rewrite (statusMap_local_status state Hown).
  cbn [body_text check_text is_completed]. rewrite local_status_allowed.
  cbn [negb transactions set_transactions].
  apply map_ext. intros t. destruct (decide (tx_id t = _)); [|done].
  f_equal. destruct (String.eqb_spec (local_status state) "completed");
    [by rewrite decide_True | by rewrite decide_False].
Qed.

(** A store with one pending transaction, and an event whose state is a
    name every JS object inherits. *)
Definition pending_transaction : @Db Z :=
  @mkDb Z [] [] []
    [mkTransaction "tx_1" "u1" (Some "tr_1") "pending" (Some "pending") None 1000 None]
    [] [] [] [] [].

Definition inherited_state_event : Event TransferData :=
  mkEvent "evt_3" "transfer.updated" (mkTransferData "tr_1" "constructor").

(** C5, on the code. For every provider state but the twelve names an object
    literal inherits, the handler does what the claim says: the row of the
    transfer, and no other, gets the status of the table ([processing] for a
    state outside it), and [completed_at] is set to the time of the update
    exactly when that status is [completed]. For a state such as
    [constructor] the lookup [statusMap[transfer.state]] finds a function,
    the fallback to [processing] is not taken, and the update is sent without
    a status: the pending row above stays [pending], where the claim says
    [processing]. *)
Theorem C5_inherited_state_keeps_status :
  (forall (num : Type) (N : JsNumber num) (db : @Db num) (event : Event TransferData)
          (now : Z) (transaction : Transaction),
     NoDup (omap tx_bridge_transfer_id (transactions db)) ->
     transaction ∈ transactions db ->
     tx_bridge_transfer_id transaction = Some (td_id (event_data event)) ->
     let state := td_state (event_data event) in
     Js.inherits state = false ->
     transactions (handleTransferUpdated event now db)
     = map (fun t =>
              if decide (tx_id t = tx_id transaction) then
                mkTransaction (tx_id t) (tx_user_id t) (tx_bridge_transfer_id t)
                  (local_status state) (Some state) (Some (event_data event)) now
                  (if decide (local_status state = "completed") then Some now
                   else tx_completed_at t)
              else t)
         (transactions db)) /\
  local_status "pending" = "pending" /\
  local_status "processing" = "processing" /\
  local_status "payment_processed" = "completed" /\
  local_status "failed" = "failed" /\
  local_status "cancelled" = "cancelled" /\
  (forall state,
     state ∉ ["pending"; "processing"; "payment_processed"; "failed"; "cancelled"] ->
     local_status state = "processing") /\
  local_status "constructor" = "processing" /\
  transactions (handleTransferUpdated inherited_state_event 7000 pending_transaction)
  = [mkTransaction "tx_1" "u1" (Some "tr_1") "pending" (Some "constructor")
       (Some (mkTransferData "tr_1" "constructor")) 7000 None].
Proof.
  split; [intros; by apply handleTransferUpdated_table|].
  repeat (split; [reflexivity|]).
  split; [|split; [reflexivity | by vm_compute]].
  intros state Hout. unfold local_status.
  repeat match goal with
    | |- context [String.eqb state ?s] =>
        destruct (String.eqb_spec state s) as [Heq|_];
        [exfalso; apply Hout; rewrite Heq; set_solver|]
    end.
  done.
Qed.

(** A store with one processing transaction, and the event that reports the
    transfer processed. *)
Definition one_transaction : @Db Z :=
  @mkDb Z [] [] []
    [mkTransaction "tx_1" "u1" (Some "tr_1") "processing" (Some "processing") None 1000 None]
    [] [] [] [] [].

Example transfer_processed :
  transactions
    (handleTransferUpdated (mkEvent "evt_2" "transfer.updated"
                              (mkTransferData "tr_1" "payment_processed"))
       7000 one_transaction)
  = [mkTransaction "tx_1" "u1" (Some "tr_1") "completed" (Some "payment_processed")
       (Some (mkTransferData "tr_1" "payment_processed")) 7000 (Some 7000)].
Proof. by vm_compute. Qed.

Example transfer_unknown_state :
  transactions
    (handleTransferUpdated (mkEvent "evt_3" "transfer.updated"
                              (mkTransferData "tr_1" "awaiting_funds"))
       7000 one_transaction)
  = [mkTransaction "tx_1" "u1" (Some "tr_1") "processing" (Some "awaiting_funds")
       (Some (mkTransferData "tr_1" "awaiting_funds")) 7000 None].
Proof. by vm_compute. Qed.

(** The state [__proto__] is found as an object, which the CHECK on [status]
    refuses: the row is left as it was. *)
Example transfer_state_proto :
  handleTransferUpdated (mkEvent "evt_3" "transfer.updated"
                           (mkTransferData "tr_1" "__proto__"))
    7000 pending_transaction
  = pending_transaction.
Proof. by vm_compute. Qed.

(** *** Spend counters *)

Section Spend.

Context {num : Type} `{JsNumber num}.

Local Abbreviation Card := (@SupabaseConfig.Card num).




End Spend.

(** *** virtual_account.deposit.created *)

Section Deposits.

Context {num : Type} `{JsNumber num}.

Local Abbreviation Db := (@SupabaseConfig.Db num).
Local Abbreviation DepositData := (@BridgeWebhook.DepositData num).
Local Abbreviation Transfer := (@SupabaseConfig.Transfer num).





End Deposits.






(** *** card.transaction.created *)

Section CardTransactions.

Context {num : Type} `{JsNumber num}.

Local Abbreviation Db := (@SupabaseConfig.Db num).
Local Abbreviation Card := (@SupabaseConfig.Card num).
Local Abbreviation CardTransactionData := (@BridgeWebhook.CardTransactionData num).
Local Abbreviation CardTransaction := (@SupabaseConfig.CardTransaction num).

Definition transactionType (cardTransaction : CardTransactionData) : string :=
  Js.or_default (cd_type cardTransaction) "purchase".

Definition transactionStatus (cardTransaction : CardTransactionData) : string :=
  Js.or_default (cd_status cardTransaction) "pending".

Definition isDeclined (cardTransaction : CardTransactionData) : bool :=
  String.eqb (transactionStatus cardTransaction) "declined".





Definition card_notification (userId : string) (cardTransaction : CardTransactionData)
  : Notification :=
  let amount := cd_amount cardTransaction in
  let currency :=
    Js.toUpperCase (Js.or_default (cd_currency cardTransaction) "usd") in
  let priority := if isDeclined cardTransaction then "high" else "normal" in
  if isDeclined cardTransaction then
    mkNotification userId "warning" "Card Declined"
      ("Transaction of " +:+ num_show amount +:+ " " +:+ currency
         +:+ " was declined"
         +:+ (match Js.or_null (cd_decline_reason cardTransaction) with
              | Some reason => ": " +:+ reason
              | None => ""
              end))
      priority "card" None None
  else if String.eqb (transactionStatus cardTransaction) "approved"
          || String.eqb (transactionStatus cardTransaction) "settled" then
    mkNotification userId "info" "Card Purchase"
      (num_show amount +:+ " " +:+ currency +:+ at_merchant cardTransaction)
      priority "card" None None
  else
    mkNotification userId "info" "Card Transaction"
      ("Transaction of " +:+ num_show amount +:+ " " +:+ currency +:+ " is pending")
      priority "card" None None.

Lemma card_notification_fields userId cardTransaction :
  n_user_id (card_notification userId cardTransaction) = userId /\
  n_category (card_notification userId cardTransaction) = "card" /\
  n_priority (card_notification userId cardTransaction)
  = (if isDeclined cardTransaction then "high" else "normal").
Proof.
  unfold card_notification.
  destruct (isDeclined cardTransaction); [done|]. by destruct (_ || _).
Qed.




End CardTransactions.


(** A card with 40 spent today and 300 this month, the counters last reset
    [hours] hours before [now]. *)
Definition hour_ms : Z := 60 * 60 * 1000.
Definition example_now : Z := 1000 * hour_ms.
Definition card_40 (hours : Z) : @Card Z :=
  mkCard "c1" "u1" "card_1" 40 300 1000 10000
    (Some (example_now - hours * hour_ms)) (Some (example_now - hours * hour_ms)) 0.


(** The two cases of the specification. *)
Example spend_23h_ago :
  apply_card_updates (spending_updates (card_40 23) 10 example_now) (card_40 23)
  = mkCard "c1" "u1" "card_1" 50 310 1000 10000
      (Some (example_now - 23 * hour_ms)) (Some (example_now - 23 * hour_ms))
      example_now.
Proof. by vm_compute. Qed.

Example spend_25h_ago :
  apply_card_updates (spending_updates (card_40 25) 10 example_now) (card_40 25)
  = mkCard "c1" "u1" "card_1" 10 310 1000 10000
      (Some example_now) (Some (example_now - 25 * hour_ms)) example_now.
Proof. by vm_compute. Qed.

Example spend_exactly_24h_ago :
  current_daily_spend
    (apply_card_updates (spending_updates (card_40 24) 10 example_now) (card_40 24)) = 10.
Proof. by vm_compute. Qed.


(** A store with one card of user [u1], who has no preferences row, and the
    event of an approved purchase of 10 USD. *)
Definition one_card : @Db Z :=
  @mkDb Z [mkUser "u1" (Some "cust_1") (Some "approved") (Some 2)]
    [mkCard "c1" "u1" "card_1" 40 300 1000 10000 (Some 0) (Some 0) 0]
    [] [] [] [] [] [] [].




End WebhookFacts.

(** * Further properties *)

(** ** The HTTP client: what every dispatch carries, and how long a call
    can wait *)

Module BridgeClientExtras.

Import BridgeConfig BridgeClient BridgeClientFacts.

Definition correlation_header (s : RequestConfig * Outcome) : option string :=
  headers s.1 !! "X-Correlation-ID".

(** The headers the client manages itself. *)
Definition managed (k : string) : Prop :=
  k = "X-Correlation-ID" \/ k = "Idempotency-Key".

(** A dispatch that re-sends the request [c] was made with. *)
Definition same_request (c : RequestConfig) (s : RequestConfig * Outcome) : Prop :=
  method s.1 = method c /\ url s.1 = url c /\ data s.1 = data c /\
  forall k, ~ managed k -> headers s.1 !! k = headers c !! k.

Definition total (l : list Z) : Z := foldr Z.add 0 l.

Section Trace.

Variable uuidv4 : nat -> string.
Variable transport : nat -> RequestConfig -> Outcome.
Variable cfg : BridgeConfig.t.

Lemma _handleRequest_facts c w :
  let r := _handleRequest uuidv4 c w in
  method r.1 = method c /\ url r.1 = url c /\ data r.1 = data c /\
  headers r.1 !! "X-Correlation-ID" = Some (uuidv4 (uuid_next w)) /\
  metadata r.1 = Some (mkMetadata (uuidv4 (uuid_next w))) /\
  (forall k, ~ managed k -> headers r.1 !! k = headers c !! k) /\
  (uuid_next w < uuid_next r.2)%nat /\ log r.2 = log w.
Proof.
  unfold _handleRequest, managed.
  destruct (Js.includes _ _); [destruct (negb _)|]; simpl;
    (split; [done|]; split; [done|]; split; [done|]; split;
     [by rewrite ?lookup_insert_ne, lookup_insert_eq by discriminate|];
     split; [done|]; split; [|split; [lia | done]]);
    intros k Hk; rewrite ?lookup_insert_ne; try done;
    intros <-; apply Hk; auto.
Qed.

Lemma client_trace fuel : forall c w res w',
  client uuidv4 transport cfg fuel c w = Some (res, w') ->
  exists t ks,
    log w' = log w ++ t /\
    (uuid_next w < uuid_next w')%nat /\
    Forall (same_request c) (sends t) /\
    map correlation_header (sends t) = map (fun k => Some (uuidv4 k)) ks /\
    map (fun s => metadata s.1) (sends t)
    = map (fun k => Some (mkMetadata (uuidv4 k))) ks /\
    Forall (fun k => (uuid_next w <= k < uuid_next w')%nat) ks /\
    NoDup ks /\
    (forall e, res = Thrown e ->
       exists k, last ks = Some k /\ f_correlationId e = Some (uuidv4 k)).
Proof.
  induction fuel as [|fuel IH]; intros c w res w' Hrun; [done|].
  simpl in Hrun.
  pose proof (_handleRequest_facts c w)
    as (Hm & Hu & Hd & Hcorr & Hmeta & Hother & Hnext & Hlog).
  destruct (_handleRequest uuidv4 c w) as [c1 w1]. simpl in *.
  assert (Hsame : same_request c (c1, transport (length (sends (log w1))) c1))
    by done.
  destruct (transport _ c1) as [r | msg cd r] eqn:Ho.
  - simplify_eq. exists [Sent c1 (Resolved r)], [uuid_next w]. simpl.
    rewrite Hlog. split; [done|]. split; [done|]. split; [by constructor|].
    unfold correlation_header. simpl. rewrite Hcorr, Hmeta.
    split; [done|]. split; [done|]. split; [constructor; [lia | constructor]|].
    split; [apply NoDup_singleton | done].
  - unfold _handleError in Hrun.
    destruct (_isRetryable cfg _).
    + unfold _retry in Hrun. simpl in Hrun.
      apply IH in Hrun
        as (t & ks & Ht & Hlt & Hreq & Hids & Hmetas & Hks & Hnd & Hthrown).
      simpl in *.
      exists (Sent c1 (Rejected msg cd r)
                :: Slept (retryDelay cfg * 2 ^ (default 0 (_retryCount c1) + 1 - 1)) :: t),
        (uuid_next w :: ks).
      simpl. split; [by rewrite Ht, Hlog, <- !app_assoc|].
      split; [lia|]. split.
      { constructor; [done|]. eapply Forall_impl; [exact Hreq|].
        intros s (Hs1 & Hs2 & Hs3 & Hs4). simpl in *.
        split; [congruence|]. split; [congruence|]. split; [congruence|].
        intros k Hk. rewrite Hs4 by done. by apply Hother. }
      unfold correlation_header at 1. simpl. rewrite Hcorr, Hmeta, Hids, Hmetas.
      split; [done|]. split; [done|]. split.
      { constructor; [lia|]. eapply Forall_impl; [exact Hks|]. simpl. lia. }
      split.
      { apply NoDup_cons. split; [|done]. intros Hin.
        rewrite Forall_forall in Hks. apply Hks in Hin. lia. }
      intros e He. destruct (Hthrown e He) as (k & Hk & Hid).
      exists k. split; [|done]. destruct ks; [done | by rewrite last_cons, Hk].
    + simplify_eq. exists [Sent c1 (Rejected msg cd r)], [uuid_next w]. simpl.
      rewrite Hlog. split; [done|]. split; [done|]. split; [by constructor|].
      unfold correlation_header. simpl. rewrite Hcorr, Hmeta.
      split; [done|]. split; [done|]. split; [constructor; [lia | constructor]|].
      split; [apply NoDup_singleton|].
      intros e [= <-]. exists (uuid_next w). split; [done|].
      unfold _formatError. simpl. by rewrite Hmeta.
Qed.

End Trace.

Lemma map_eq_lookup {A B C : Type} (f : A -> C) (g : B -> C) (l : list A) (ks : list B) :
  map f l = map g ks ->
  length l = length ks /\
  forall (i : nat) x, l !! i = Some x -> exists k, ks !! i = Some k /\ f x = g k.
Proof.
  revert ks. induction l as [|a l IH]; intros [|k ks] Heq; simplify_eq/=.
  - split; [done|]. intros i x Hi. by destruct i.
  - destruct (IH ks) as [Hlen Hl]; [done|]. split; [by rewrite Hlen|].
    intros [|i] x Hi; simpl in *; [simplify_eq; eauto | by apply Hl].
Qed.

Lemma total_geometric (d : Z) (ds : list Z) : forall k0 : Z,
  0 <= k0 ->
  (forall (n : nat) ms, ds !! n = Some ms -> ms = d * 2 ^ (k0 + Z.of_nat n)) ->
  total ds = d * (2 ^ (k0 + Z.of_nat (length ds)) - 2 ^ k0).
Proof.
  induction ds as [|x ds IH]; intros k0 Hk0 Hds.
  - simpl. replace (k0 + Z.of_nat 0) with k0 by lia. lia.
  - cbn [total foldr length]. fold (total ds). rewrite (Hds 0%nat x eq_refl).
    rewrite (IH (k0 + 1)); [|lia|].
    + replace (k0 + Z.of_nat 0) with k0 by lia.
      replace (k0 + Z.of_nat (S (length ds))) with (k0 + 1 + Z.of_nat (length ds))
        by lia.
      rewrite (Z.pow_add_r 2 k0 1) by lia. lia.
    + intros n ms Hn. rewrite (Hds (S n) ms Hn). f_equal. f_equal. lia.
Qed.

(** X1. Each dispatch of a call carries an [X-Correlation-ID] header equal
    to the [correlationId] of its metadata, and the error a call throws
    carries the correlation id of the last dispatch. *)
Theorem X1_correlation_id (uuidv4 : nat -> string)
    (transport : nat -> RequestConfig -> Outcome) (cfg : BridgeConfig.t)
    (verb u : string) (d : option string) (hs : gmap string string) (w : World) :
  exists res t w',
    request uuidv4 transport cfg verb u d hs w = Some (res, w') /\
    log w' = log w ++ t /\
    (forall s, s ∈ sends t ->
       exists id, correlation_header s = Some id /\
                  metadata s.1 = Some (mkMetadata id)) /\
    (forall e, res = Thrown e ->
       exists s, last (sends t) = Some s /\
                 f_correlationId e = correlation_header s).
Proof.
  destruct (request_total uuidv4 transport cfg verb u d hs w) as [[res w'] Hrun].
  exists res. unfold request in *.
  destruct (client_trace uuidv4 transport cfg _ _ _ _ _ Hrun)
    as (t & ks & Hlog & _ & _ & Hids & Hmetas & _ & _ & Hthrown).
  exists t, w'. split; [done|]. split; [done|].
  apply map_eq_lookup in Hids as [Hlen Hids].
  apply map_eq_lookup in Hmetas as [_ Hmetas].
  split.
  - intros s Hs. apply list_elem_of_lookup in Hs as [i Hi].
    destruct (Hids i s Hi) as (k & Hk & Hid).
    destruct (Hmetas i s Hi) as (k' & Hk' & Hmeta).
    exists (uuidv4 k). split; [done|]. congruence.
  - intros e He. destruct (Hthrown e He) as (k & Hk & Hid).
    rewrite last_lookup in Hk. rewrite last_lookup, Hlen.
    destruct (sends t !! pred (length ks)) as [s|] eqn:Hs.
    + destruct (Hids _ s Hs) as (k' & Hk' & Hcorr).
      exists s. split; [done|]. congruence.
    + apply lookup_lt_Some in Hk. apply lookup_ge_None in Hs. lia.
Qed.

(** X2. When the UUID generator never repeats a value, no two dispatches of
    one call carry the same [X-Correlation-ID]: unlike the idempotency key,
    the correlation id is renewed on every retry. *)
Theorem X2_correlation_id_per_dispatch (uuidv4 : nat -> string)
    (transport : nat -> RequestConfig -> Outcome) (cfg : BridgeConfig.t)
    (verb u : string) (d : option string) (hs : gmap string string) (w : World) :
  (forall a b, uuidv4 a = uuidv4 b -> a = b) ->
  exists res t w',
    request uuidv4 transport cfg verb u d hs w = Some (res, w') /\
    log w' = log w ++ t /\
    forall (i j : nat) s1 s2,
      sends t !! i = Some s1 -> sends t !! j = Some s2 -> i <> j ->
      correlation_header s1 <> correlation_header s2.
Proof.
  intros Hinj.
  destruct (request_total uuidv4 transport cfg verb u d hs w) as [[res w'] Hrun].
  exists res. unfold request in *.
  destruct (client_trace uuidv4 transport cfg _ _ _ _ _ Hrun)
    as (t & ks & Hlog & _ & _ & Hids & _ & _ & Hnd & _).
  exists t, w'. split; [done|]. split; [done|].
  apply map_eq_lookup in Hids as [_ Hids].
  intros i j s1 s2 Hi Hj Hne Heq.
  destruct (Hids i s1 Hi) as (k1 & Hk1 & Hc1).
  destruct (Hids j s2 Hj) as (k2 & Hk2 & Hc2).
  rewrite Hc1, Hc2 in Heq. simplify_eq. apply Hinj in Heq. subst k2.
  apply Hne. by eapply NoDup_lookup.
Qed.

Lemma uuid_of_nat_inj (a b : nat) : uuid_of_nat a = uuid_of_nat b -> a = b.
Proof. unfold uuid_of_nat. intros [= Heq]. by apply (inj pretty). Qed.

Lemma X2_correlation_id_per_dispatch_witness :
  exists res t w',
    post uuid_of_nat always_unavailable bridgeConfig "/transfers" "{}" ∅ fresh_world
      = Some (res, w') /\
    log w' = log fresh_world ++ t /\
    forall (i j : nat) s1 s2,
      sends t !! i = Some s1 -> sends t !! j = Some s2 -> i <> j ->
      correlation_header s1 <> correlation_header s2.
Proof.
  exact (X2_correlation_id_per_dispatch uuid_of_nat always_unavailable bridgeConfig
           "post" "/transfers" (Some "{}") ∅ fresh_world uuid_of_nat_inj).
Defined.

(** X3. With a non-negative [retryDelay], the waits of one call add up to
    at most [retryDelay * (2^retryAttempts - 1)]: 7 seconds with the shipped
    configuration. *)
Theorem X3_total_wait (uuidv4 : nat -> string)
    (transport : nat -> RequestConfig -> Outcome) (cfg : BridgeConfig.t)
    (verb u : string) (d : option string) (hs : gmap string string) (w : World) :
  1 <= retryAttempts cfg -> 0 <= retryDelay cfg ->
  exists res t w',
    request uuidv4 transport cfg verb u d hs w = Some (res, w') /\
    log w' = log w ++ t /\
    total (delays t) <= retryDelay cfg * (2 ^ retryAttempts cfg - 1).
Proof.
  intros HRA Hdelay. unfold request.
  destruct (client_run uuidv4 transport cfg (S (S (Z.to_nat (retryAttempts cfg))))
              (mkRequest verb u hs d None None) w)
    as (res & t & w' & Hrun & Hlog & _ & _ & Hcap & Hdel & _);
    [done | unfold retries_so_far; simpl; lia
     | unfold retries_so_far; simpl; lia |].
  unfold retries_so_far in *. simpl in *.
  exists res, t, w'. split; [done|]. split; [done|].
  rewrite (total_geometric (retryDelay cfg) (delays t) 0) by done.
  rewrite Z.add_0_l, Z.pow_0_r. apply Z.mul_le_mono_nonneg_l; [done|].
  assert (2 ^ Z.of_nat (length (delays t)) <= 2 ^ retryAttempts cfg)
    by (apply Z.pow_le_mono_r; lia).
  lia.
Qed.

Lemma X3_total_wait_witness :
  exists res t w',
    post uuid_of_nat always_unavailable bridgeConfig "/transfers" "{}" ∅ fresh_world
      = Some (res, w') /\
    log w' = log fresh_world ++ t /\
    total (delays t) <= 7000.
Proof.
  exact (X3_total_wait uuid_of_nat always_unavailable bridgeConfig
           "post" "/transfers" (Some "{}") ∅ fresh_world
           ltac:(simpl; lia) ltac:(simpl; lia)).
Defined.


End BridgeClientExtras.

(** ** Notification filters *)

Module NotificationExtras.

Import SupabaseConfig StoreFacts.

(** The level a priority is compared at: the member found, for a key found
    on the prototype; otherwise [low] and every unknown name count as the
    default, because the level of [low], 0, is falsy in
    [priorityLevels[p] || d]. *)
Lemma level_or_cases (p : string) (d : Z) :
  level_or p d
  = if Js.inherits p
    then level_member (if String.eqb p "__proto__" then Js.object_prototype
                       else Js.method p)
    else level_number (if String.eqb p "normal" then 1
                       else if String.eqb p "high" then 2
                       else if String.eqb p "urgent" then 3 else d).
Proof.
  unfold level_or, Js.get, Js.inherits, priorityLevels.
  destruct (String.eqb_spec p "normal") as [->|H1]; [done|].
  destruct (String.eqb_spec p "high") as [->|H2]; [done|].
  destruct (String.eqb_spec p "urgent") as [->|H3]; [done|].
  destruct (String.eqb_spec p "low") as [->|H4]; [done|].
  rewrite !lookup_insert_ne, lookup_empty by done.
  destruct (String.eqb p "__proto__"); [done|].
  by destruct (Js.includes _ _).
Qed.

(** X5. The priority filter blocks a notification in these cases only: the
    minimum is [high] and the priority is neither [high] nor [urgent]; the
    minimum is [urgent] and the priority is not [urgent]; one of the
    priority and the minimum, and not the other, is one of the twelve names
    an object literal inherits ([constructor], [toString], ...), so that a
    function or an object is compared with a number; or both are such names
    and the text the priority's member prints as sorts before that of the
    minimum's. A minimum of [normal] therefore lets [low] notifications
    through, and a missing minimum lets through every priority that is not
    such a name. *)
Theorem X5_minimum_priority (notificationPriority : string) (minPriority : option string) :
  let text key :=
    Js.show (Js.member (if String.eqb key "__proto__" then Js.object_prototype
                        else Js.method key)) in
  let minimum := default "null" minPriority in
  meetsMinimumPriority notificationPriority minPriority = false
  <-> (minPriority = Some "high"
       /\ notificationPriority <> "high" /\ notificationPriority <> "urgent")
      \/ (minPriority = Some "urgent" /\ notificationPriority <> "urgent")
      \/ Js.inherits notificationPriority <> Js.inherits minimum
      \/ (Js.inherits notificationPriority = true /\ Js.inherits minimum = true
          /\ String.ltb (text notificationPriority) (text minimum) = true).
Proof.
  intros text minimum. unfold meetsMinimumPriority. fold minimum.
  rewrite !level_or_cases.
  assert (Hhigh : minPriority = Some "high" -> minimum = "high")
    by (by intros ->).
  assert (Hurgent : minPriority = Some "urgent" -> minimum = "urgent")
    by (by intros ->).
  assert (Hmin : forall k, minimum = k -> k <> "null" -> minPriority = Some k).
  { intros k <- Hk. subst minimum. by destruct minPriority. }
  clearbody minimum.
  destruct (Js.inherits notificationPriority) eqn:Hp,
           (Js.inherits minimum) eqn:Hm; cbn [level_ge].
  - fold (text notificationPriority) (text minimum).
    rewrite negb_false_iff. split; [by auto 10|].
    intros [(Hh & _)|[(Hu & _)|[?|(_ & _ & ?)]]]; [| |done|done].
    + apply Hhigh in Hh. by subst minimum.
    + apply Hurgent in Hu. by subst minimum.
  - split; [intros _; right; right; left; done | done].
  - split; [intros _; right; right; left; done | done].
  - rewrite Z.leb_gt.
    destruct (String.eqb_spec minimum "normal") as [H1|H1];
      [|destruct (String.eqb_spec minimum "high") as [H2|H2];
        [|destruct (String.eqb_spec minimum "urgent") as [H3|H3]]];
    destruct (String.eqb_spec notificationPriority "normal") as [Hp0|Hp0];
    try destruct (String.eqb_spec notificationPriority "high") as [Hp1|Hp1];
    try destruct (String.eqb_spec notificationPriority "urgent") as [Hp2|Hp2];
    (split;
     [ try lia; intros _;
       first [ left; split; [by apply Hmin | by subst]
             | right; left; split; [by apply Hmin | by subst] ]
     | intros [(Hh%Hhigh & ? & ?)|[(Hu%Hurgent & ?)|[?|(? & _)]]];
       try done; try congruence; subst; done ]).
Qed.

(** The member [constructor] finds prints as [function Object() ...], which
    sorts before [function toString() ...]: of two inherited names the
    comparison is that of these texts. *)
Example inherited_priorities :
  meetsMinimumPriority "constructor" (Some "low") = false /\
  meetsMinimumPriority "low" (Some "constructor") = false /\
  meetsMinimumPriority "constructor" (Some "constructor") = true /\
  meetsMinimumPriority "constructor" (Some "toString") = false /\
  meetsMinimumPriority "toString" (Some "constructor") = true /\
  meetsMinimumPriority "__proto__" (Some "valueOf") = false.
Proof. by vm_compute. Qed.

Lemma getCategoryPreference_other (preferences : NotificationPreferences)
    (category : string) :
  category ∉ ["transaction"; "card"; "wallet"; "kyc"; "security"; "system"] ->
  getCategoryPreference preferences category = Some true.
Proof.
  intros Hout. unfold getCategoryPreference, Js.get.
  assert (forall k, k ∈ ["transaction"; "card"; "wallet"; "kyc"; "security"; "system"]
                    -> k <> category) as Hne by (intros k Hk ->; done).
  rewrite !lookup_insert_ne by (apply Hne; repeat constructor).
  destruct (String.eqb_spec category "general") as [->|Hg]; [done|].
  rewrite lookup_insert_ne, lookup_empty by done.
  by repeat case_match.
Qed.

(** X6. No preference toggle switches off the [general] category, nor a
    category the toggles do not name: for a user with a preferences row,
    such a notification is created exactly when its priority meets the
    minimum of the row. *)
Theorem X6_general_category_always_enabled {num : Type} `{JsNumber num}
    (db : @Db num) (preferences : NotificationPreferences)
    (userId type title message category priority : string) :
  NoDup (map np_user_id (notification_preferences db)) ->
  preferences ∈ notification_preferences db ->
  np_user_id preferences = userId ->
  type ∈ notification_types -> priority ∈ notification_priorities ->
  category ∈ notification_categories ->
  category ∉ ["transaction"; "card"; "wallet"; "kyc"; "security"; "system"] ->
  (createNotification userId type title message
     (mkOptions (Some priority) (Some category) None None) db).1
  = if meetsMinimumPriority priority (min_priority_level preferences)
    then Some (mkNotification userId type title message priority category None None)
    else None.
Proof.
  intros Hnd Hin Hu Hty Hp Hc Hout.
  rewrite (createNotification_valid userId type title message
             (mkOptions (Some priority) (Some category) None None) db Hty Hp Hc).
  simpl. unfold passes_preferences.
  rewrite (single_filter_unique _ (fun p => Some (np_user_id p)) _ preferences userId);
    [| by rewrite omap_Some_map | done | by rewrite Hu | done | by intros y ->].
  rewrite getCategoryPreference_other by done. simpl.
  by destruct (meetsMinimumPriority _ _).
Qed.

(** A user who switched every toggle off and asks for [high] at least. *)
Definition all_off : @Db Z :=
  @mkDb Z [mkUser "u1" (Some "cust_1") (Some "approved") (Some 2)] [] [] [] [] []
    [mkPreferences "u1" (Some false) (Some false) (Some false) (Some false)
       (Some false) (Some false) (Some "high")] [] [].

Lemma X6_general_category_always_enabled_witness :
  (createNotification "u1" "success" "KYC Verification Complete" "Approved."
     (mkOptions (Some "urgent") (Some "general") None None) all_off).1
  = Some (mkNotification "u1" "success" "KYC Verification Complete" "Approved."
            "urgent" "general" None None).
Proof.
  refine (X6_general_category_always_enabled all_off
            (mkPreferences "u1" (Some false) (Some false) (Some false) (Some false)
               (Some false) (Some false) (Some "high"))
            "u1" "success" "KYC Verification Complete" "Approved." "general" "urgent"
            _ _ _ _ _ _ _).
  - apply (bool_decide_unpack _). vm_compute. exact I.
  - vm_compute. left.
  - reflexivity.
  - apply includes_elem_of. reflexivity.
  - apply includes_elem_of. reflexivity.
  - apply includes_elem_of. reflexivity.
  - apply (bool_decide_unpack _). vm_compute. exact I.
Defined.

(** X7. A call of [createNotification] either leaves the whole store as it
    was and returns nothing, or appends one row to [notifications], made of
    the arguments of the call with the defaults [normal] and [general], and
    returns it; earlier notifications and the other tables are never
    touched. *)
Theorem X7_createNotification_appends {num : Type} `{JsNumber num}
    (db : @Db num) (userId type title message : string) (options : Options) :
  let r := createNotification userId type title message options db in
  (r = (None, db)) \/
  (exists n, r = (Some n, set_notifications (notifications db ++ [n]) db) /\
     n = mkNotification userId type title message
           (default "normal" (opt_priority options))
           (default "general" (opt_category options))
           (opt_actionUrl options) (opt_expiresAt options)).
Proof.
  unfold createNotification, insert_notification. simpl.
  repeat (case_match; simplify_eq/=; eauto).
Qed.

End NotificationExtras.

(** ** Synchronising the KYC status *)

Module CustomerExtras.

Import SupabaseConfig StoreFacts CustomerService BridgeWebhook.

Lemma filter_map_commute {A : Type} (P : A -> Prop) `{!forall x, Decision (P x)}
    (f : A -> A) (l : list A) :
  (forall x, P (f x) <-> P x) -> filter P (map f l) = map f (filter P l).
Proof.
  intros Hf. induction l as [|a l IH]; [done|]. simpl.
  destruct (decide (P a)) as [Ha|Ha].
  - rewrite (filter_cons_True P (f a)) by (by apply Hf).
    rewrite (filter_cons_True P a) by done. simpl. by rewrite IH.
  - rewrite (filter_cons_False P (f a)) by (by rewrite Hf).
    by rewrite (filter_cons_False P a) by done.
Qed.

Lemma set_users_same {num : Type} (db : @Db num) : set_users (users db) db = db.
Proof. by destruct db. Qed.

(** X8. The status [mapBridgeStatusToKalypso] returns follows the table
    active, paused, offboarded to approved, under_review, rejected, and is
    [pending] for every other provider status, except the twelve names an
    object literal inherits ([constructor], [toString], ...): for these the
    lookup [statusMap[bridgeStatus]] finds a function or an object, which is
    what the function returns as [kycStatus]. A status that is a string is
    always one the CHECK constraint of [users] admits and never
    [not_started]; the tier is always 1 or 2. *)
Theorem X8_kyc_status_table (bridgeStatus : string) (endorsements : list Endorsement) :
  let r := mapBridgeStatusToKalypso bridgeStatus endorsements in
  (Js.inherits bridgeStatus = false ->
   kycStatus r
   = Js.str (if String.eqb bridgeStatus "active" then "approved"
             else if String.eqb bridgeStatus "paused" then "under_review"
             else if String.eqb bridgeStatus "offboarded" then "rejected"
             else "pending")) /\
  (Js.inherits bridgeStatus = true ->
   kycStatus r
   = Js.member (if String.eqb bridgeStatus "__proto__" then Js.object_prototype
                else Js.method bridgeStatus)) /\
  (forall s, kycStatus r = Js.str s ->
     s ∈ kyc_status_values /\ s <> "not_started") /\
  (kycTier r = 1 \/ kycTier r = 2).
Proof.
  intros r. subst r. rewrite CustomerFacts.kycStatus_cases. unfold Js.inherits.
  split; [|split; [|split]].
  - intros [Hproto Hfun]%orb_false_iff. rewrite Hproto, Hfun.
    by repeat case_match.
  - destruct (String.eqb_spec bridgeStatus "active") as [->|H1]; [done|].
    destruct (String.eqb_spec bridgeStatus "paused") as [->|H2]; [done|].
    destruct (String.eqb_spec bridgeStatus "offboarded") as [->|H3]; [done|].
    destruct (String.eqb bridgeStatus "__proto__"); [done|].
    cbn [orb]. by intros ->.
  - intros s Hs.
    repeat case_match; simplify_eq;
      (split; [by apply includes_elem_of | done]).
  - apply CustomerFacts.kycTier_values.
Qed.

Section Sync.

Context {num : Type} `{JsNumber num}.
Variable getBridgeCustomer : string -> BridgeClientAudit.ApiCall Customer.

Local Abbreviation Db := (@SupabaseConfig.Db num).
Local Abbreviation statusChanged := CustomerFacts.statusChanged.
Local Abbreviation with_kyc := CustomerFacts.with_kyc.

(** A status found in the table has its notification configured. *)
Lemma notificationConfig_total (bridgeStatus : string) (endorsements : list Endorsement) :
  Js.inherits bridgeStatus = false ->
  let r := mapBridgeStatusToKalypso bridgeStatus endorsements in
  exists s config,
    kycStatus r = Js.str s /\ s <> "" /\
    notificationConfig (kycTier r) !! s = Some config /\
    Js.get (notificationConfig (kycTier r)) (Js.show (kycStatus r)) = Js.own config.
Proof.
  intros [Hproto Hfun]%orb_false_iff r.
  pose proof (CustomerFacts.kycStatus_cases bridgeStatus endorsements) as Hs.
  fold r in Hs. rewrite Hproto, Hfun in Hs. clearbody r.
  destruct (String.eqb bridgeStatus "active");
    [|destruct (String.eqb bridgeStatus "paused");
      [|destruct (String.eqb bridgeStatus "offboarded")]];
    rewrite Hs; eexists _, _; (split; [reflexivity|]); (split; [done|]);
    by split.
Qed.

(** X9. A sync of a user of the store, the provider answering with a status
    other than [__proto__], returns the mapped result. When the status is
    none of the names an object literal inherits, it creates a notification
    exactly when the mapped status differs from the stored one
    ([not_started] when none is stored) or the mapped tier differs from the
    stored one (0 when none is stored), and the preferences of the user let
    a [general] notification of [normal] priority through; it is the
    notification configured for the new status. When the status is such a
    name, nothing is configured for it and no notification is created. *)
Theorem X9_sync_notifies_on_change (db : Db) (user : User) (customer : Customer)
    (bridgeCustomerId : string) :
  NoDup (map u_id (users db)) -> user ∈ users db ->
  BridgeClientAudit.api_result (getBridgeCustomer bridgeCustomerId) = Some customer ->
  cust_status customer <> "__proto__" ->
  let r := mapBridgeStatusToKalypso (cust_status customer)
             (Js.or_empty (cust_endorsements customer)) in
  exists db',
    syncCustomerStatus getBridgeCustomer (u_id user) bridgeCustomerId db = (inr r, db') /\
    (Js.inherits (cust_status customer) = false ->
     exists s config,
       kycStatus r = Js.str s /\
       notificationConfig (kycTier r) !! s = Some config /\
       notifications db'
       = notifications db ++
         (if statusChanged user r
             && passes_preferences (u_id user) "normal" "general" db
          then [mkNotification (u_id user) (nc_type config) (nc_title config)
                  (nc_message config) "normal" "general" None None]
          else [])) /\
    (Js.inherits (cust_status customer) = true ->
     notifications db' = notifications db).
Proof.
  intros Hnd Hin Hget Hproto r.
  eexists. split.
  { by apply CustomerFacts.syncCustomerStatus_run. }
  fold r. cbn [notifications set_notifications].
  unfold CustomerFacts.sync_notifications. split.
  - intros Hown.
    destruct (notificationConfig_total (cust_status customer)
                (Js.or_empty (cust_endorsements customer)) Hown)
      as (s & config & Hs & _ & Hconfig & Hget_config).
    fold r in Hs, Hconfig, Hget_config.
    exists s, config. split; [done|]. split; [done|].
    rewrite Hget_config.
    by destruct (CustomerFacts.statusChanged user r), (passes_preferences _ _ _ db).
  - intros Hinh.
    pose proof (CustomerFacts.kycStatus_cases (cust_status customer)
                  (Js.or_empty (cust_endorsements customer))) as Hs.
    fold r in Hs. unfold Js.inherits in Hinh.
    destruct (String.eqb_spec (cust_status customer) "active") as [He|_];
      [by rewrite He in Hinh|].
    destruct (String.eqb_spec (cust_status customer) "paused") as [He|_];
      [by rewrite He in Hinh|].
    destruct (String.eqb_spec (cust_status customer) "offboarded") as [He|_];
      [by rewrite He in Hinh|].
    destruct (String.eqb_spec (cust_status customer) "__proto__") as [|_]; [done|].
    cbn [orb] in Hinh. rewrite Hinh in Hs. rewrite Hs.
    rewrite CustomerFacts.notificationConfig_method.
    destruct (CustomerFacts.statusChanged _ _); by rewrite app_nil_r.
Qed.

(** X10. [syncCustomerStatus] succeeds when the user row is there, the
    provider call succeeds and the status reported is not [__proto__]. When
    it throws, either the user row is missing and the store is untouched, or
    the provider call was made and failed (or reported [__proto__], for
    which the update is refused), and then the entries the HTTP client wrote
    to [audit_logs] for that call are all that was written. *)
Theorem X10_sync_failure_leaves_audit_rows_only (db : Db)
    (userId bridgeCustomerId : string) :
  let call := getBridgeCustomer bridgeCustomerId in
  let r := syncCustomerStatus getBridgeCustomer userId bridgeCustomerId db in
  (forall customer,
     is_Some (getUserById userId db) ->
     BridgeClientAudit.api_result call = Some customer ->
     cust_status customer <> "__proto__" ->
     exists result, r.1 = inr result) /\
  (forall message, r.1 = inl message ->
     (getUserById userId db = None /\ r.2 = db) \/
     (is_Some (getUserById userId db) /\
      r.2 = set_audit_logs (audit_logs db ++ client_rows (BridgeClientAudit.api_log call)) db /\
      (BridgeClientAudit.api_result call = None \/
       exists customer, BridgeClientAudit.api_result call = Some customer /\
                        cust_status customer = "__proto__"))).
Proof.
  intros call r. subst r. unfold syncCustomerStatus. fold call.
  destruct (getUserById userId db) as [user|] eqn:Huser;
    [|split; [by intros ? [? ?] | intros; left; by simplify_eq/=]].
  rewrite audit_eq.
  destruct (BridgeClientAudit.api_result call) as [customer|] eqn:Hcall;
    [|split; [done | intros; right; by simplify_eq/=; eauto]].
  unfold updateUserKycStatus, getKycStatus. cbn [ks_status ks_endorsements].
  assert (Hex : existsb (fun u => String.eqb (u_id u) userId)
                  (users (set_audit_logs
                            (audit_logs db ++ client_rows (BridgeClientAudit.api_log call))
                            db)) = true)
    by (by apply (getUserById_exists _ db user)).
  rewrite Hex. cbn [negb].
  rewrite (CustomerFacts.update_users_kyc_mapped _ _ _ _ Hex).
  destruct (String.eqb_spec (cust_status customer) "__proto__") as [Hp|Hp].
  - split; [intros ? _ [= <-] ?; done|].
    intros message _. right. split; [done|]. split; [done|]. right. by exists customer.
  - split; [intros; by eexists | done].
Qed.





End Sync.

(** The provider reporting the customer of [CustomerFacts.customer_approved]. *)
Definition provider_approved : string -> BridgeClientAudit.ApiCall Customer :=
  CustomerFacts.reports (event_data CustomerFacts.customer_approved).

Lemma X9_sync_notifies_on_change_witness :
  exists db',
    syncCustomerStatus provider_approved "u1" "cust_1" CustomerFacts.pending_user
    = (inr (mkKycResult (Js.str "approved") 2), db') /\
    (Js.inherits "active" = false ->
     exists s config,
       Js.str "approved" = Js.str s /\
       notificationConfig 2 !! s = Some config /\
       notifications db'
       = [mkNotification "u1" (nc_type config) (nc_title config) (nc_message config)
            "normal" "general" None None]) /\
    (Js.inherits "active" = true -> notifications db' = []).
Proof.
  refine (X9_sync_notifies_on_change provider_approved CustomerFacts.pending_user
            (mkUser "u1" (Some "cust_1") (Some "pending") (Some 1))
            (event_data CustomerFacts.customer_approved) "cust_1" _ _ _ _).
  - apply (bool_decide_unpack _). vm_compute. exact I.
  - vm_compute. left.
  - reflexivity.
  - discriminate.
Defined.



(** The same event with [endorsements: null]: the handler throws and stores
    nothing, while a sync reads [null] as no endorsement. *)
Example customer_updated_null_endorsements :
  handleCustomerUpdated
    (mkEvent "evt_1" "customer.updated" (mkCustomer "cust_1" "active" Js.null))
    CustomerFacts.pending_user
  = CustomerFacts.pending_user.
Proof. by vm_compute. Qed.

(** A provider status named like an inherited function: the status column is
    left as it was, the tier is written. *)
Example customer_updated_inherited_status :
  users (handleCustomerUpdated
           (mkEvent "evt_1" "customer.updated"
              (mkCustomer "cust_1" "constructor"
                 (Js.value [mkEndorsement "ach" "approved"])))
           CustomerFacts.pending_user)
  = [mkUser "u1" (Some "cust_1") (Some "pending") (Some 2)].
Proof. by vm_compute. Qed.

End CustomerExtras.

(** ** Webhook handlers and services on the mirror: unknown ids, replays,
    append-only logs *)

Module WebhookExtras.

Import SupabaseConfig StoreFacts CustomerService TransferService BridgeWebhook
  WebhookFacts.

Section Handlers.

Context {num : Type} `{JsNumber num}.

Local Abbreviation Db := (@SupabaseConfig.Db num).
Local Abbreviation Card := (@SupabaseConfig.Card num).
Local Abbreviation Transfer := (@SupabaseConfig.Transfer num).
Local Abbreviation CardTransactionData := (@BridgeWebhook.CardTransactionData num).
Local Abbreviation DepositData := (@BridgeWebhook.DepositData num).

Lemma single_filter_none {A : Type} (P : A -> Prop) `{!forall x, Decision (P x)}
    (l : list A) :
  (forall x, x ∈ l -> ~ P x) -> single (filter P l) = None.
Proof. intros Hl. by rewrite filter_none. Qed.

(** X13. An event whose provider id matches no row of the mirror is
    skipped: the handlers of [customer.updated], [transfer.updated],
    [card.transaction.created] and [virtual_account.deposit.created] leave
    the store exactly as it was, without audit entry or notification; so do
    the last two when the id is missing or empty. *)
Theorem X13_unknown_ids_ignored (db : Db) (now : Z) :
  (forall event : Event Customer,
     (forall u, u ∈ users db ->
        u_bridge_customer_id u <> Some (cust_id (event_data event))) ->
     handleCustomerUpdated event db = db) /\
  (forall event : Event TransferData,
     (forall t, t ∈ transactions db ->
        tx_bridge_transfer_id t <> Some (td_id (event_data event))) ->
     handleTransferUpdated event now db = db) /\
  (forall event : Event CardTransactionData,
     (cd_card_id (event_data event) = None \/ cd_card_id (event_data event) = Some "" \/
      forall c, c ∈ bridge_cards db ->
        Some (card_bridge_card_id c) <> cd_card_id (event_data event)) ->
     handleCardTransaction event now db = db) /\
  (forall event : Event DepositData,
     (dd_external_account_id (event_data event) = None \/
      dd_external_account_id (event_data event) = Some "" \/
      forall a, a ∈ bridge_virtual_accounts db ->
        Some (va_bridge_account_id a) <> dd_external_account_id (event_data event)) ->
     handleVirtualAccountDeposit event now db = db).
Proof.
  split; [|split; [|split]].
  - intros event Hnone. unfold handleCustomerUpdated, getUserByBridgeCustomerId.
    by rewrite single_filter_none.
  - intros event Hnone. unfold handleTransferUpdated.
    by rewrite single_filter_none.
  - intros event [Hid|[Hid|Hnone]]; unfold handleCardTransaction.
    + by rewrite Hid.
    + by rewrite Hid.
    + destruct (negb _); [done|]. by rewrite single_filter_none.
  - intros event [Hid|[Hid|Hnone]]; unfold handleVirtualAccountDeposit.
    + by rewrite Hid.
    + by rewrite Hid.
    + destruct (negb _); [done|]. by rewrite single_filter_none.
Qed.

(** *** transfer.updated *)

Lemma set_transactions_twice (v v' : list Transaction) (db : Db) :
  set_transactions v (set_transactions v' db) = set_transactions v db.
Proof. done. Qed.

Lemma filter_map_commute_tx {A : Type} (P : A -> Prop) `{!forall x, Decision (P x)}
    (f : A -> A) (l : list A) :
  (forall x, P (f x) <-> P x) -> filter P (map f l) = map f (filter P l).
Proof. apply CustomerExtras.filter_map_commute. Qed.

Lemma single_map {A : Type} (f : A -> A) (l : list A) :
  single (map f l) = f <$> single l.
Proof. by destruct l as [|a [|b l]]. Qed.

(** X14. Deliveries of one [transfer.updated] event overwrite each other:
    handling the event at [now1] and again at [now2] leaves the store the
    handling at [now2] alone would have left. The status is therefore the
    same after one delivery and after two, while [updated_at], and
    [completed_at] of a completed transfer, are those of the last
    delivery. *)
Theorem X14_transfer_updated_last_write_wins (db : Db) (event : Event TransferData)
    (now1 now2 : Z) :
  handleTransferUpdated event now2 (handleTransferUpdated event now1 db)
  = handleTransferUpdated event now2 db.
Proof.
  unfold handleTransferUpdated at 2.
  destruct (single (filter _ (transactions db))) as [transaction|] eqn:Hfind; [|done].
  destruct (negb (check_text transfer_statuses _)) eqn:Hcheck; [done|].
  unfold handleTransferUpdated.
  cbn [transactions set_transactions].
  rewrite filter_map_commute_tx, single_map, Hfind.
  2:{ intros t. by destruct (decide _). }
  cbn [fmap option_fmap option_map].
  rewrite decide_True by done. cbn [tx_id].
  rewrite Hcheck.
  rewrite set_transactions_twice, map_map. f_equal.
  apply map_ext. intros t.
  destruct (decide (tx_id t = tx_id transaction)) as [Heq|Hne]; cbn [tx_id].
  - rewrite decide_True by done. cbn. f_equal.
    + by destruct (body_text _).
    + by destruct (is_completed _).
  - by rewrite decide_False.
Qed.

(** *** card.transaction.created *)


(** *** virtual_account.deposit.created *)


End Handlers.

(** A store with one processing transaction, as in the transfer examples,
    and events that match nothing in it. *)
Lemma X13_unknown_ids_ignored_witness :
  handleTransferUpdated (mkEvent "evt_9" "transfer.updated"
                           (mkTransferData "tr_unknown" "failed"))
    7000 one_transaction = one_transaction.
Proof.
  apply (proj1 (proj2 (X13_unknown_ids_ignored one_transaction 7000))).
  intros t Ht. apply list_elem_of_singleton in Ht. by subst t.
Defined.



End WebhookExtras.

(** ** Cancelling twice, and the append-only tables *)

Module ServiceExtras.

Import SupabaseConfig StoreFacts CustomerService TransferService BridgeWebhook.

Section Services.

Context {num : Type} `{JsNumber num}.

Local Abbreviation Db := (@SupabaseConfig.Db num).
Local Abbreviation Transfer := (@SupabaseConfig.Transfer num).

Lemma find_transfer (tbl : list Transfer) (t : Transfer) (userId transferId : string) :
  NoDup (map bt_bridge_transfer_id tbl) -> t ∈ tbl ->
  bt_bridge_transfer_id t = transferId -> bt_user_id t = userId ->
  single (filter (fun t => bt_bridge_transfer_id t = transferId /\ bt_user_id t = userId)
            tbl) = Some t.
Proof.
  intros Hnd Hin Hid Hu.
  apply (single_filter_unique _ (fun t => Some (bt_bridge_transfer_id t)) _ t transferId);
    [by rewrite omap_Some_map | done | by rewrite Hid | done | by intros y [-> _]].
Qed.

(** X17. A transfer can be cancelled once: after a successful
    [cancelTransfer], a second call for the same transfer throws "Can only
    cancel pending transfers" and changes nothing, so [cancelled_at] keeps
    the time of the first call and no second notification is created. *)
Theorem X17_cancel_twice (db : Db) (t : Transfer) (userId transferId : string)
    (now1 now2 : Z) :
  NoDup (map bt_bridge_transfer_id (bridge_transfers db)) ->
  t ∈ bridge_transfers db ->
  bt_bridge_transfer_id t = transferId -> bt_user_id t = userId ->
  bt_status t = "pending" ->
  exists db1,
    cancelTransfer userId transferId now1 db = (inr (mkCancelled true transferId), db1) /\
    cancelTransfer userId transferId now2 db1
    = (inl "Failed to cancel transfer: Can only cancel pending transfers", db1).
Proof.
  intros Hnd Hin Hid Hu Hst.
  unfold cancelTransfer at 1.
  rewrite (find_transfer _ t userId transferId Hnd Hin Hid Hu), Hst.
  simpl negb. cbv iota.
  eexists. split; [reflexivity|].
  set (g := fun x : Transfer =>
              if decide (bt_bridge_transfer_id x = transferId)
              then mkTransfer (bt_user_id x) (bt_bridge_transfer_id x)
                     (bt_transfer_type x) (bt_amount x) (bt_currency x) (bt_fee x)
                     (bt_total_amount x) "cancelled" (bt_description x)
                     (bt_created_at x) now1 (bt_completed_at x) (Some now1)
              else x).
  set (db1 := (createNotification _ _ _ _ _ _).2).
  assert (Hbt : bridge_transfers db1 = map g (bridge_transfers db)).
  { subst db1.
    match goal with |- bridge_transfers (createNotification ?u ?ty ?ti ?m ?o ?d).2 = _ =>
      by destruct (createNotification_frame u ty ti m o d)
           as (_ & _ & _ & _ & -> & _)
    end. }
  unfold cancelTransfer. rewrite Hbt.
  rewrite (find_transfer _ (g t) userId transferId).
  - subst g. simpl. by rewrite decide_True.
  - rewrite map_map. erewrite map_ext; [exact Hnd|].
    intros x. subst g. simpl. by destruct (decide _).
  - apply list_elem_of_In, in_map, list_elem_of_In, Hin.
  - subst g. simpl. by destruct (decide _).
  - subst g. simpl. by destruct (decide _).
Qed.

(** One store extends another when its audit log and its notifications
    start with those of the other. *)
Definition extends (db db' : Db) : Prop :=
  audit_logs db `prefix_of` audit_logs db' /\
  notifications db `prefix_of` notifications db'.

Lemma extends_refl (db : Db) : extends db db.
Proof. by split. Qed.

Lemma extends_trans (db1 db2 db3 : Db) :
  extends db1 db2 -> extends db2 db3 -> extends db1 db3.
Proof. intros [? ?] [? ?]. split; by etrans. Qed.

Lemma extends_same (db db' : Db) :
  audit_logs db' = audit_logs db -> notifications db' = notifications db ->
  extends db db'.
Proof. intros Ha Hn. split; by rewrite ?Ha, ?Hn. Qed.

Lemma extends_createNotification userId type title message options (db : Db) :
  extends db (createNotification userId type title message options db).2.
Proof.
  unfold createNotification.
  destruct (match single _ with Some _ => _ | None => _ end); [apply extends_refl|].
  unfold insert_notification.
  repeat (destruct (negb _); [apply extends_refl|]).
  split; cbn [snd audit_logs notifications set_notifications];
    [done | by apply prefix_app_r].
Qed.

Lemma extends_createAuditLog logData (db : Db) :
  extends db (createAuditLog logData db).
Proof. split; simpl; [by apply prefix_app_r | done]. Qed.

Lemma extends_update_users_kyc userId kyc_status kyc_tier (db db' : Db) :
  update_users_kyc userId kyc_status kyc_tier db = Some db' -> extends db db'.
Proof.
  unfold update_users_kyc. intros Hupdate.
  repeat case_match; simplify_eq; by apply extends_same.
Qed.

Lemma extends_audit (t : list BridgeClient.Event) (db : Db) :
  extends db (BridgeClientAudit.audit t db).
Proof.
  rewrite audit_eq. split; simpl; [by apply prefix_app_r | done].
Qed.

(** X18. The audit log and the notifications are append-only under every
    modelled operation: after any [customer.updated], [transfer.updated],
    [card.transaction.created] or [virtual_account.deposit.created] event,
    after [cancelTransfer] and after [syncCustomerStatus], whatever their
    outcome, both tables start with the rows they had before. *)
Theorem X18_logs_append_only (db : Db) (now : Z) :
  (forall event, extends db (handleCustomerUpdated event db)) /\
  (forall event, extends db (handleTransferUpdated event now db)) /\
  (forall event, extends db (handleCardTransaction event now db)) /\
  (forall event, extends db (handleVirtualAccountDeposit event now db)) /\
  (forall userId transferId, extends db (cancelTransfer userId transferId now db).2) /\
  (forall getBridgeCustomer userId bridgeCustomerId,
     extends db (syncCustomerStatus getBridgeCustomer userId bridgeCustomerId db).2).
Proof.
  split; [|split; [|split; [|split; [|split]]]].
  - intros event. unfold handleCustomerUpdated.
    destruct (getUserByBridgeCustomerId _ db); [|apply extends_refl].
    destruct (mapBridgeStatusToKalypso_call _ _); [|apply extends_refl].
    destruct (update_users_kyc _ _ _ db) as [db'|] eqn:Hupdate; [|apply extends_refl].
    eapply extends_trans; [|apply extends_createAuditLog].
    by eapply extends_update_users_kyc.
  - intros event. unfold handleTransferUpdated.
    destruct (single _); [|apply extends_refl].
    destruct (negb _); [apply extends_refl | by apply extends_same].
  - intros event. unfold handleCardTransaction.
    destruct (negb _); [apply extends_refl|].
    destruct (single _) as [card|]; [|apply extends_refl].
    repeat case_match;
      (eapply extends_trans; [|apply extends_createNotification]);
      (eapply extends_trans; [|apply extends_createAuditLog]);
      by apply extends_same.
  - intros event. unfold handleVirtualAccountDeposit.
    destruct (negb _); [apply extends_refl|].
    destruct (single _) as [account|]; [|apply extends_refl].
    repeat case_match;
      (eapply extends_trans; [|apply extends_createNotification]);
      (eapply extends_trans; [|apply extends_createAuditLog]);
      by apply extends_same.
  - intros userId transferId. unfold cancelTransfer.
    destruct (single _) as [t|]; [|apply extends_refl].
    destruct (negb _); [apply extends_refl|]. simpl.
    eapply extends_trans; [|apply extends_createNotification]. by apply extends_same.
  - intros getBridgeCustomer userId bridgeCustomerId. unfold syncCustomerStatus.
    destruct (getUserById _ db); [|apply extends_refl].
    destruct (BridgeClientAudit.api_result _); [|apply extends_audit].
    unfold updateUserKycStatus.
    destruct (negb (existsb _ _)); [apply extends_audit|].
    destruct (update_users_kyc _ _ _ _) as [db'|] eqn:Hupdate; [|apply extends_audit].
    cbn [snd].
    assert (extends db db') as Hdb'.
    { eapply extends_trans; [apply extends_audit|].
      by eapply extends_update_users_kyc. }
    destruct (_ || _); [|done].
    destruct (Js.get _ _); [|done|done].
    eapply extends_trans; [|apply extends_createNotification]. done.
Qed.

End Services.

Lemma X17_cancel_twice_witness :
  exists db1,
    cancelTransfer "u1" "tr_1" 5000 TransferFacts.two_transfers
    = (inr (mkCancelled true "tr_1"), db1) /\
    cancelTransfer "u1" "tr_1" 9000 db1
    = (inl "Failed to cancel transfer: Can only cancel pending transfers", db1).
Proof.
  refine (X17_cancel_twice TransferFacts.two_transfers
            (mkTransfer "u1" "tr_1" "external" 25 "usdc" 0 25 "pending" None
               1000 1000 None None)
            "u1" "tr_1" 5000 9000 _ _ _ _ _).
  - apply (bool_decide_unpack _). vm_compute. exact I.
  - vm_compute. left.
  - reflexivity.
  - reflexivity.
  - reflexivity.
Defined.

End ServiceExtras.

(** ** Wallet balances from the transaction history *)

Module WalletExtras.

Import WalletService.

Fixpoint has_underscore (s : string) : bool :=
  match s with
  | EmptyString => false
  | String a s' => Ascii.eqb a "_" || has_underscore s'
  end.

Lemma split_underscore_plain (s : string) :
  has_underscore s = false -> split_underscore s = [s].
Proof.
  induction s as [|a s IH]; simpl; [done|].
  destruct (Ascii.eqb a "_"); [done|]. simpl. intros Hs. by rewrite IH.
Qed.

Lemma split_underscore_joined (c r : string) :
  has_underscore c = false ->
  split_underscore (c +:+ "_" +:+ r) = c :: split_underscore r.
Proof.
  induction c as [|a c IH]; simpl; [done|].
  destruct (Ascii.eqb a "_"); [done|]. simpl. intros Hc. by rewrite IH.
Qed.

Section Balances.

Context {num : Type} `{JsBalance num}.

Local Abbreviation HistoryTransaction := (@WalletService.HistoryTransaction num).

(** The side whose key a transaction is counted under: the destination when
    it names a wallet, else the source when it names a payment rail. *)
Definition counted_side (t : HistoryTransaction) : option Side :=
  match h_destination t with
  | None => None
  | Some destination =>
      if Js.truthy (bridge_wallet_id destination) then Some destination
      else match h_source t with
           | None => None
           | Some source =>
               if Js.truthy (payment_rail source) then Some source else None
           end
  end.

(** The transactions the callback raises a [TypeError] on. *)
Definition throws (t : HistoryTransaction) : bool :=
  match h_destination t with
  | None => true
  | Some destination =>
      if Js.truthy (bridge_wallet_id destination) then false
      else match h_source t with
           | None => true
           | Some _ => false
           end
  end.

Lemma map_get_set_eq (k : string) (v : num) (m : list (string * num)) :
  map_get k (map_set k v m) = Some v.
Proof.
  induction m as [|[k' x] m IH]; simpl; [by rewrite String.eqb_refl|].
  destruct (String.eqb k' k) eqn:E; simpl; by rewrite E.
Qed.

Lemma map_get_set_ne (k k' : string) (v : num) (m : list (string * num)) :
  k <> k' -> map_get k (map_set k' v m) = map_get k m.
Proof.
  intros Hk. induction m as [|[k0 x] m IH]; simpl.
  - by destruct (String.eqb_spec k' k).
  - destruct (String.eqb_spec k0 k') as [->|Hk0]; simpl.
    + by destruct (String.eqb_spec k' k).
    + by destruct (String.eqb k0 k).
Qed.

Lemma map_set_fst (k : string) (v : num) (m : list (string * num)) :
  map fst (map_set k v m)
  = map fst m ++ (if decide (k ∈ map fst m) then [] else [k]).
Proof.
  induction m as [|[k0 x] m IH]; simpl.
  - done.
  - destruct (String.eqb_spec k0 k) as [->|Hk0]; simpl.
    + rewrite decide_True by left. by rewrite app_nil_r.
    + rewrite IH. f_equal.
      destruct (decide (k ∈ map fst m)) as [Hin|Hin].
      * rewrite decide_True; [done | by right].
      * rewrite decide_False; [done|].
        intros [?|?]%elem_of_cons; congruence.
Qed.

Lemma map_set_NoDup (k : string) (v : num) (m : list (string * num)) :
  NoDup (map fst m) -> NoDup (map fst (map_set k v m)).
Proof.
  intros Hnd. rewrite map_set_fst. case_decide as Hin.
  - by rewrite app_nil_r.
  - apply NoDup_app. split; [done|]. split; [|apply NoDup_singleton].
    intros x Hx ->%list_elem_of_singleton. done.
Qed.

Lemma map_set_elem_of (k x : string) (v : num) (m : list (string * num)) :
  x ∈ map fst (map_set k v m) -> x = k \/ x ∈ map fst m.
Proof.
  rewrite map_set_fst. intros [Hx|Hx]%elem_of_app; [by right|].
  case_decide; [by apply elem_of_nil in Hx|].
  apply list_elem_of_singleton in Hx. by left.
Qed.

Lemma count_transaction_cases (m m' : list (string * num)) (t : HistoryTransaction) :
  count_transaction m t = Some m' ->
  (counted_side t = None /\ m' = m) \/
  (exists s v, counted_side t = Some s /\ m' = map_set (side_key s) v m).
Proof.
  unfold count_transaction, counted_side.
  destruct (h_destination t) as [d|]; [|done].
  destruct (Js.truthy (bridge_wallet_id d)).
  { intros [= <-]. right. by do 2 eexists. }
  destruct (h_source t) as [s|]; [|done].
  destruct (Js.truthy (payment_rail s)); intros [= <-].
  - right. by do 2 eexists.
  - by left.
Qed.

Lemma count_transaction_throws (m : list (string * num)) (t : HistoryTransaction) :
  count_transaction m t = None <-> throws t = true.
Proof.
  unfold count_transaction, throws.
  destruct (h_destination t) as [d|]; [|done].
  destruct (Js.truthy (bridge_wallet_id d)); [done|].
  destruct (h_source t) as [s|]; [|done].
  by destruct (Js.truthy (payment_rail s)).
Qed.

Lemma forEach_throws (history : list HistoryTransaction) (m : list (string * num)) :
  forEach history m = None <-> exists t, t ∈ history /\ throws t = true.
Proof.
  revert m. induction history as [|t history IH]; intros m; simpl.
  - split; [done|]. intros (t & Ht & _). by apply elem_of_nil in Ht.
  - destruct (count_transaction m t) as [m'|] eqn:E.
    + rewrite IH. split.
      * intros (t' & Ht' & Hthrows). exists t'. split; [by right | done].
      * intros (t' & [->|Ht']%elem_of_cons & Hthrows); [|by exists t'].
        apply (count_transaction_throws m) in Hthrows. congruence.
    + split; [|done]. intros _. exists t. split; [by left|].
      by apply (count_transaction_throws m).
Qed.

(** X19. [calculateBalanceFromHistory] throws exactly when the history holds
    a transaction with no [destination], or one whose destination names no
    wallet and that has no [source]; so one such transaction anywhere in the
    history loses every balance. *)
Theorem X19_balance_throws (history : list HistoryTransaction) :
  calculateBalanceFromHistory history = None
  <-> exists t, t ∈ history /\ throws t = true.
Proof.
  unfold calculateBalanceFromHistory. rewrite fmap_None. apply forEach_throws.
Qed.

Lemma count_transaction_other (k : string) (m m' : list (string * num))
    (t : HistoryTransaction) :
  count_transaction m t = Some m' ->
  side_key <$> counted_side t <> Some k ->
  map_get k m' = map_get k m.
Proof.
  intros [[_ ->]|(s & v & Hs & ->)]%count_transaction_cases Hk; [done|].
  rewrite Hs in Hk. simpl in Hk. apply map_get_set_ne. congruence.
Qed.

Lemma count_transaction_same (k : string) (m1 m1' m2 : list (string * num))
    (t : HistoryTransaction) :
  count_transaction m1 t = Some m1' ->
  side_key <$> counted_side t = Some k ->
  map_get k m1 = map_get k m2 ->
  exists m2', count_transaction m2 t = Some m2' /\ map_get k m2' = map_get k m1'.
Proof.
  unfold count_transaction, counted_side, get_or_0.
  destruct (h_destination t) as [d|]; [|done].
  destruct (Js.truthy (bridge_wallet_id d)).
  { intros [= <-] [= <-] Hm. eexists. split; [done|].
    by rewrite !map_get_set_eq, Hm. }
  destruct (h_source t) as [s|]; [|done].
  destruct (Js.truthy (payment_rail s)); [|done].
  intros [= <-] [= <-] Hm. eexists. split; [done|].
  by rewrite !map_get_set_eq, Hm.
Qed.

Lemma forEach_key (k : string) (history : list HistoryTransaction)
    (m1 m2 m : list (string * num)) :
  map_get k m1 = map_get k m2 ->
  forEach history m1 = Some m ->
  exists m', forEach (filter (fun t => side_key <$> counted_side t = Some k) history) m2
             = Some m' /\
             map_get k m' = map_get k m.
Proof.
  revert m1 m2. induction history as [|t history IH]; intros m1 m2 Hm; simpl.
  - intros [= <-]. by exists m2.
  - destruct (count_transaction m1 t) as [m1'|] eqn:E; [|done]. intros Hrest.
    destruct (decide (side_key <$> counted_side t = Some k)) as [Hk|Hk].
    + rewrite filter_cons_True by done. simpl.
      destruct (count_transaction_same k m1 m1' m2 t E Hk Hm) as (m2' & -> & Hm').
      by apply (IH m1' m2').
    + rewrite filter_cons_False by done.
      apply (IH m1' m2); [|done].
      by rewrite (count_transaction_other k m1 m1' t E Hk).
Qed.

(** X20. Balances are kept apart by key: the balance the loop of
    [calculateBalanceFromHistory] computes under a key is the one it computes
    from the transactions counted under that key alone, whatever else the
    history holds. *)
Theorem X20_balance_per_key (k : string) (history : list HistoryTransaction)
    (m : list (string * num)) :
  forEach history [] = Some m ->
  exists m', forEach (filter (fun t => side_key <$> counted_side t = Some k) history) []
             = Some m' /\
             map_get k m' = map_get k m.
Proof. by apply forEach_key. Qed.

Lemma forEach_keys (history : list HistoryTransaction) (m m' : list (string * num)) :
  forEach history m = Some m' ->
  NoDup (map fst m) ->
  NoDup (map fst m') /\
  forall k, k ∈ map fst m' ->
    k ∈ map fst m \/
    exists t s, t ∈ history /\ counted_side t = Some s /\ k = side_key s.
Proof.
  revert m. induction history as [|t history IH]; intros m; simpl.
  - intros [= <-] Hnd. split; [done|]. intros k Hk. by left.
  - destruct (count_transaction m t) as [m1|] eqn:E; [|done]. intros Hrest Hnd.
    apply count_transaction_cases in E as [[_ ->]|(s & v & Hs & ->)].
    + destruct (IH m Hrest Hnd) as [Hnd' Hkeys]. split; [done|].
      intros k Hk. destruct (Hkeys k Hk) as [?|(t' & s & ? & ? & ?)]; [by left|].
      right. exists t', s. split; [by right | done].
    + destruct (IH _ Hrest (map_set_NoDup _ v m Hnd)) as [Hnd' Hkeys]. split; [done|].
      intros k Hk. destruct (Hkeys k Hk) as [Hk'|(t' & s' & ? & ? & ?)].
      * apply map_set_elem_of in Hk' as [->|?]; [|by left].
        right. exists t, s. split; [by left | done].
      * right. exists t', s'. split; [by right | done].
Qed.

Lemma entry_plain (c r : string) (v : num) :
  has_underscore c = false -> has_underscore r = false ->
  entry (c +:+ "_" +:+ r, v) = mkBalance (num_show v) (Some c) (Some r).
Proof.
  intros Hc Hr. unfold entry. cbn [fst snd].
  by rewrite (split_underscore_joined c r Hc), (split_underscore_plain r Hr).
Qed.

(** X21. When the currency and the payment rail of every counted side are
    there and hold no underscore, every entry [calculateBalanceFromHistory]
    returns carries the currency and the rail of a side counted in the
    history, and no two entries carry the same pair. *)
Theorem X21_balance_entries (history : list HistoryTransaction) (bs : list Balance) :
  (forall t s, t ∈ history -> counted_side t = Some s ->
     exists c r, currency s = Some c /\ payment_rail s = Some r /\
                 has_underscore c = false /\ has_underscore r = false) ->
  calculateBalanceFromHistory history = Some bs ->
  (forall b, b ∈ bs ->
     exists t s, t ∈ history /\ counted_side t = Some s /\
                 b_currency b = currency s /\ b_chain b = payment_rail s) /\
  NoDup (map (fun b => (b_currency b, b_chain b)) bs).
Proof.
  intros Hplain. unfold calculateBalanceFromHistory.
  destruct (forEach history []) as [m|] eqn:E; [|done]. intros [= <-].
  destruct (forEach_keys history [] m E) as [Hnd Hkeys]; [by apply NoDup_nil|].
  assert (Hentry : forall e, e ∈ m ->
            exists t s c r, t ∈ history /\ counted_side t = Some s /\
              currency s = Some c /\ payment_rail s = Some r /\
              e.1 = c +:+ "_" +:+ r /\
              entry e = mkBalance (num_show e.2) (Some c) (Some r)).
  { intros [k v] He.
    assert (Hk : k ∈ map fst m).
    { apply list_elem_of_In, (in_map fst m (k, v)), list_elem_of_In, He. }
    destruct (Hkeys k Hk) as [Hnil|(t & s & Ht & Hs & ->)];
      [by apply elem_of_nil in Hnil|].
    destruct (Hplain t s Ht Hs) as (c & r & Hc & Hr & Hcu & Hru).
    exists t, s, c, r. unfold side_key.
    assert (side_currency s = Js.value c) as ->
      by (unfold currency in Hc; by destruct (side_currency s); simplify_eq/=).
    assert (side_payment_rail s = Js.value r) as ->
      by (unfold payment_rail in Hr; by destruct (side_payment_rail s); simplify_eq/=).
    cbn [Js.template].
    repeat (split; [done|]). by apply entry_plain. }
  split.
  - intros b (e & -> & He)%list_elem_of_fmap.
    destruct (Hentry e He) as (t & s & c & r & Ht & Hs & Hc & Hr & _ & ->).
    exists t, s. by rewrite Hc, Hr.
  - rewrite map_map. apply (NoDup_fmap_2_strong _ m).
    + intros x y Hx Hy Hxy.
      destruct (Hentry x Hx) as (_ & _ & c & r & _ & _ & _ & _ & Hkx & Hex).
      destruct (Hentry y Hy) as (_ & _ & c' & r' & _ & _ & _ & _ & Hky & Hey).
      rewrite Hex, Hey in Hxy. simpl in Hxy.
      apply (TransferFacts.NoDup_map_elem_inj fst m x y Hnd Hx Hy).
      rewrite Hkx, Hky. congruence.
    + by apply (NoDup_fmap_1 fst).
Qed.

End Balances.

Definition incoming (amount : Z) (currency rail : string) : @HistoryTransaction Z :=
  mkHistoryTransaction amount
    (Some (mkSide (Js.value "wallet_1") (Js.value currency) (Js.value rail))) None.

Definition outgoing (amount : Z) (currency rail : string) : @HistoryTransaction Z :=
  mkHistoryTransaction amount
    (Some (mkSide Js.undefined (Js.value currency) (Js.value rail)))
    (Some (mkSide (Js.value "wallet_1") (Js.value currency) (Js.value rail))).

Lemma X20_balance_per_key_witness :
  exists m',
    forEach (filter (fun t => side_key <$> counted_side t = Some "usdc_base")
               [incoming 10 "usdc" "base"; incoming 7 "usdc" "solana";
                outgoing 4 "usdc" "base"]) []
    = Some m' /\
    map_get "usdc_base" m' = map_get "usdc_base" [("usdc_base", 6); ("usdc_solana", 7)].
Proof.
  refine (X20_balance_per_key "usdc_base"
            [incoming 10 "usdc" "base"; incoming 7 "usdc" "solana";
             outgoing 4 "usdc" "base"]
            [("usdc_base", 6); ("usdc_solana", 7)] _).
  reflexivity.
Defined.

Lemma X21_balance_entries_witness :
  (forall b,
     b ∈ [mkBalance "6" (Some "usdc") (Some "base");
          mkBalance "7" (Some "usdc") (Some "solana")] ->
     exists t s,
       t ∈ [incoming 10 "usdc" "base"; incoming 7 "usdc" "solana";
            outgoing 4 "usdc" "base"] /\
       counted_side t = Some s /\
       b_currency b = currency s /\ b_chain b = payment_rail s) /\
  NoDup (map (fun b => (b_currency b, b_chain b))
           [mkBalance "6" (Some "usdc") (Some "base");
            mkBalance "7" (Some "usdc") (Some "solana")]).
Proof.
  refine (X21_balance_entries
            [incoming 10 "usdc" "base"; incoming 7 "usdc" "solana";
             outgoing 4 "usdc" "base"] _ _ _).
  - intros t s Ht Hs.
    repeat (apply elem_of_cons in Ht as [->|Ht]);
      [| | |by apply elem_of_nil in Ht];
      vm_compute in Hs; injection Hs as <-; do 2 eexists;
      by repeat split.
  - vm_compute. reflexivity.
Defined.

(** A rail with an underscore is cut at it, and two rails that differ only
    after it give two entries of one name. *)
Example rails_with_underscore :
  calculateBalanceFromHistory
    [incoming 10 "usd" "ach_push"; incoming 5 "usd" "ach_pull"]
  = Some [mkBalance "10" (Some "usd") (Some "ach");
          mkBalance "5" (Some "usd") (Some "ach")].
Proof. by vm_compute. Qed.

(** A side whose currency is [null] is counted under the key the template
    prints for it. *)
Example null_currency_key :
  calculateBalanceFromHistory
    [mkHistoryTransaction (5 : Z)
       (Some (mkSide (Js.value "wallet_1") Js.null (Js.value "base"))) None;
     mkHistoryTransaction (2 : Z)
       (Some (mkSide (Js.value "wallet_1") Js.undefined (Js.value "base"))) None]
  = Some [mkBalance "5" (Some "null") (Some "base");
          mkBalance "2" (Some "undefined") (Some "base")].
Proof. by vm_compute. Qed.

End WalletExtras.

(** ** Linking a customer, and the scheduled resets of the spend counters *)

Module MirrorExtras.

Import SupabaseConfig StoreFacts CustomerService BridgeWebhook MirrorUpdates.

Section Mirror.

Context {num : Type} `{JsNumber num}.

Local Abbreviation Db := (@SupabaseConfig.Db num).
Local Abbreviation Card := (@SupabaseConfig.Card num).

Definition linked (bridgeCustomerId : string) (u : User) : User :=
  mkUser (u_id u) (Some bridgeCustomerId) (u_kyc_status u) (u_kyc_tier u).

Lemma single_filter_eq {A : Type} (P : A -> Prop) `{!forall x, Decision (P x)}
    (l : list A) (x : A) :
  single (filter P l) = Some x -> filter P l = [x].
Proof. destruct (filter P l) as [|a [|b l']]; intros Hs; by simplify_eq/=. Qed.

Lemma linked_by_customer (userId bridgeCustomerId : string) (l : list User) :
  existsb (fun u => negb (String.eqb (u_id u) userId)
                    && bool_decide (u_bridge_customer_id u = Some bridgeCustomerId)) l
  = false ->
  filter (fun u => u_bridge_customer_id u = Some bridgeCustomerId)
    (map (fun u => if decide (u_id u = userId) then linked bridgeCustomerId u else u) l)
  = map (linked bridgeCustomerId) (filter (fun u => u_id u = userId) l).
Proof.
  induction l as [|a l IH]; [done|]. simpl.
  intros [Ha Hl]%orb_false_iff. specialize (IH Hl).
  destruct (decide (u_id a = userId)) as [Hid|Hid].
  - rewrite (filter_cons_True _ (linked bridgeCustomerId a)) by done.
    rewrite (filter_cons_True _ a) by done. simpl. by rewrite IH.
  - rewrite (filter_cons_False (fun u => u_id u = userId) a) by done.
    rewrite (filter_cons_False
               (fun u => u_bridge_customer_id u = Some bridgeCustomerId) a); [done|].
    intros Hb. destruct (String.eqb_spec (u_id a) userId); [done|].
    simpl in Ha. by apply bool_decide_eq_false in Ha.
Qed.

Lemma linked_by_id (userId bridgeCustomerId : string) (l : list User) :
  filter (fun u => u_id u = userId)
    (map (fun u => if decide (u_id u = userId) then linked bridgeCustomerId u else u) l)
  = map (linked bridgeCustomerId) (filter (fun u => u_id u = userId) l).
Proof.
  induction l as [|a l IH]; [done|]. simpl.
  destruct (decide (u_id a = userId)) as [Hid|Hid].
  - rewrite (filter_cons_True _ (linked bridgeCustomerId a)) by done.
    rewrite (filter_cons_True _ a) by done. simpl. by rewrite IH.
  - rewrite (filter_cons_False _ a) by done.
    by rewrite filter_cons_False.
Qed.

Lemma link_lookup (userId bridgeCustomerId : string) (db db' : Db) (u' : User) :
  updateUserBridgeCustomerId userId bridgeCustomerId db = Some (u', db') ->
  getUserByBridgeCustomerId bridgeCustomerId db' = Some u' /\
  getUserById userId db' = Some u' /\
  u_id u' = userId /\ u_bridge_customer_id u' = Some bridgeCustomerId.
Proof.
  unfold updateUserBridgeCustomerId.
  destruct (single _) as [user|] eqn:Hsingle; [|done].
  destruct (existsb _ _) eqn:Hunique; [done|]. intros [= <- <-].
  pose proof (single_filter_Some _ _ _ Hsingle) as [_ Hid].
  apply single_filter_eq in Hsingle.
  unfold getUserByBridgeCustomerId, getUserById. cbn [users set_users].
  pose proof (linked_by_customer userId bridgeCustomerId _ Hunique) as Hc.
  pose proof (linked_by_id userId bridgeCustomerId (users db)) as Hi.
  unfold linked in Hc, Hi. rewrite Hc, Hi, Hsingle. by simpl.
Qed.

(** X22. A customer id written by [updateUserBridgeCustomerId] can be read
    back: when the update succeeds, [getUserByBridgeCustomerId] on the new
    customer id and [getUserById] on the user id both return the updated
    row, which carries that user id and that customer id. *)
Theorem X22_link_round_trip (userId bridgeCustomerId : string) (db db' : Db) (u' : User) :
  updateUserBridgeCustomerId userId bridgeCustomerId db = Some (u', db') ->
  getUserByBridgeCustomerId bridgeCustomerId db' = Some u' /\
  getUserById userId db' = Some u' /\
  u_id u' = userId /\ u_bridge_customer_id u' = Some bridgeCustomerId.
Proof. apply link_lookup. Qed.

(** X23. Once [updateUserBridgeCustomerId] has linked a user to a customer,
    a [customer.updated] event for that customer reaches that user. When the
    endorsements of the event are not [null] and its status is not
    [__proto__], the row of the user carries after the handler the tier
    mapped from the event, still the customer id, and the mapped KYC status
    when that is a string; for a status named like an inherited function
    the update is sent without status and the stored status stays. When the
    endorsements are [null] or the status is [__proto__], the handler throws
    and the row stays as the link left it. *)
Theorem X23_link_then_webhook (userId bridgeCustomerId : string) (db db' : Db)
    (u' : User) (event : Event Customer) :
  updateUserBridgeCustomerId userId bridgeCustomerId db = Some (u', db') ->
  cust_id (event_data event) = bridgeCustomerId ->
  let r := mapBridgeStatusToKalypso (cust_status (event_data event))
             (Js.or_empty (cust_endorsements (event_data event))) in
  (cust_endorsements (event_data event) <> Js.null ->
   cust_status (event_data event) <> "__proto__" ->
   getUserById userId (handleCustomerUpdated event db')
   = Some (mkUser userId (Some bridgeCustomerId)
             (match kycStatus r with
              | Js.str s => Some s
              | Js.member _ => u_kyc_status u'
              end)
             (Some (kycTier r)))) /\
  (cust_endorsements (event_data event) = Js.null \/
   cust_status (event_data event) = "__proto__" ->
   handleCustomerUpdated event db' = db' /\
   getUserById userId (handleCustomerUpdated event db') = Some u').
Proof.
  intros Hlink Hcust r.
  destruct (link_lookup _ _ _ _ _ Hlink) as (Hby_customer & Hby_id & Hid & Hb).
  pose proof (getUserById_exists _ _ _ Hby_id) as Hex. rewrite <- Hid in Hex.
  pose proof (CustomerFacts.update_users_kyc_mapped (u_id u')
                (cust_status (event_data event))
                (Js.or_empty (cust_endorsements (event_data event))) db' Hex)
    as Hupdate.
  cbv zeta in Hupdate. fold r in Hupdate.
  unfold handleCustomerUpdated. rewrite Hcust, Hby_customer.
  split.
  - intros Hnull Hproto.
    assert (mapBridgeStatusToKalypso_call (cust_status (event_data event))
              (cust_endorsements (event_data event)) = Some r) as ->.
    { subst r. by destruct (cust_endorsements (event_data event)). }
    rewrite Hupdate.
    destruct (String.eqb_spec (cust_status (event_data event)) "__proto__"); [done|].
    unfold getUserById in *. cbn [users createAuditLog set_users set_audit_logs].
    rewrite (CustomerExtras.filter_map_commute (fun u => u_id u = userId)).
    + apply single_filter_eq in Hby_id. rewrite Hby_id.
      cbn [map single fmap option_fmap option_map].
      unfold CustomerFacts.with_kyc. rewrite decide_True by done.
      rewrite Hid, Hb. f_equal. f_equal.
      by destruct (kycStatus r) as [s|[name|]].
    + intros x. unfold CustomerFacts.with_kyc. by destruct (decide _).
  - intros [Hnull|Hproto].
    + rewrite Hnull. by cbn [mapBridgeStatusToKalypso_call].
    + destruct (mapBridgeStatusToKalypso_call _ _) as [r'|] eqn:Hcall; [|done].
      assert (r' = r) as ->.
      { subst r. destruct (cust_endorsements (event_data event));
          by simplify_eq/=. }
      rewrite Hupdate, Hproto. done.
Qed.

Definition daily_reset (now : Z) (c : Card) : Card :=
  match last_daily_reset c with
  | Some stamp =>
      if stamp <? now then
        mkCard (card_id c) (card_user_id c) (card_bridge_card_id c)
          (num_of_Z 0) (current_monthly_spend c)
          (daily_spend_limit c) (monthly_spend_limit c)
          (Some now) (last_monthly_reset c) now
      else c
  | None => c
  end.

Definition monthly_reset (now : Z) (c : Card) : Card :=
  match last_monthly_reset c with
  | Some stamp =>
      if stamp <? now then
        mkCard (card_id c) (card_user_id c) (card_bridge_card_id c)
          (current_daily_spend c) (num_of_Z 0)
          (daily_spend_limit c) (monthly_spend_limit c)
          (last_daily_reset c) (Some now) now
      else c
  | None => c
  end.


Lemma daily_reset_twice (now1 now2 : Z) (c : Card) :
  now1 <= now2 -> daily_reset now2 (daily_reset now1 c) = daily_reset now2 c.
Proof.
  intros Hle. unfold daily_reset.
  destruct (last_daily_reset c) as [s|] eqn:Hs; [|by rewrite Hs].
  destruct (Z.ltb_spec s now1) as [H1|H1]; cbn [last_daily_reset].
  - destruct (Z.ltb_spec s now2); [|lia].
    destruct (Z.ltb_spec now1 now2); [done|].
    by replace now2 with now1 by lia.
  - by rewrite Hs.
Qed.

Lemma monthly_reset_twice (now1 now2 : Z) (c : Card) :
  now1 <= now2 -> monthly_reset now2 (monthly_reset now1 c) = monthly_reset now2 c.
Proof.
  intros Hle. unfold monthly_reset.
  destruct (last_monthly_reset c) as [s|] eqn:Hs; [|by rewrite Hs].
  destruct (Z.ltb_spec s now1) as [H1|H1]; cbn [last_monthly_reset].
  - destruct (Z.ltb_spec s now2); [|lia].
    destruct (Z.ltb_spec now1 now2); [done|].
    by replace now2 with now1 by lia.
  - by rewrite Hs.
Qed.

(** X24. A later run of a reset job absorbs an earlier one: running
    [resetDailySpend] at [now1] and again at [now2], not before [now1],
    leaves the store the run at [now2] alone would have left; the same holds
    of [resetMonthlySpend]. In particular a job run twice at one instant
    does what one run does. *)
Theorem X24_reset_absorbs (now1 now2 : Z) (db : Db) :
  now1 <= now2 ->
  resetDailySpend now2 (resetDailySpend now1 db) = resetDailySpend now2 db /\
  resetMonthlySpend now2 (resetMonthlySpend now1 db) = resetMonthlySpend now2 db.
Proof.
  intros Hle. unfold resetDailySpend, resetMonthlySpend.
  fold (daily_reset now1) (daily_reset now2) (monthly_reset now1) (monthly_reset now2).
  destruct db. unfold set_bridge_cards. cbn [bridge_cards].
  split; f_equal; rewrite map_map; apply map_ext; intros c.
  - by apply daily_reset_twice.
  - by apply monthly_reset_twice.
Qed.


End Mirror.

Definition two_users : @Db Z :=
  @mkDb Z [mkUser "u1" None None None;
           mkUser "u2" (Some "cust_2") (Some "approved") (Some 1)]
    [] [] [] [] [] [] [] [].

Lemma X22_link_round_trip_witness :
  let u' := mkUser "u1" (Some "cust_1") None None in
  let db' := @mkDb Z [u'; mkUser "u2" (Some "cust_2") (Some "approved") (Some 1)]
               [] [] [] [] [] [] [] [] in
  getUserByBridgeCustomerId "cust_1" db' = Some u' /\
  getUserById "u1" db' = Some u' /\
  u_id u' = "u1" /\ u_bridge_customer_id u' = Some "cust_1".
Proof.
  refine (X22_link_round_trip "u1" "cust_1" two_users _ _ _).
  reflexivity.
Defined.

Lemma X23_link_then_webhook_witness :
  getUserById "u1"
    (handleCustomerUpdated
       (mkEvent "evt_1" "customer.updated"
          (mkCustomer "cust_1" "active" (Js.value [mkEndorsement "base" "approved"])))
       (@mkDb Z [mkUser "u1" (Some "cust_1") None None;
                 mkUser "u2" (Some "cust_2") (Some "approved") (Some 1)]
          [] [] [] [] [] [] [] []))
  = Some (mkUser "u1" (Some "cust_1") (Some "approved") (Some 2)).
Proof.
  refine (proj1 (X23_link_then_webhook "u1" "cust_1" two_users _ _
                   (mkEvent "evt_1" "customer.updated"
                      (mkCustomer "cust_1" "active"
                         (Js.value [mkEndorsement "base" "approved"])))
                   _ _) _ _).
  - reflexivity.
  - reflexivity.
  - discriminate.
  - discriminate.
Defined.

Lemma X24_reset_absorbs_witness :
  resetDailySpend 5000 (resetDailySpend 3000 WebhookFacts.one_card)
  = resetDailySpend 5000 WebhookFacts.one_card /\
  resetMonthlySpend 5000 (resetMonthlySpend 3000 WebhookFacts.one_card)
  = resetMonthlySpend 5000 WebhookFacts.one_card.
Proof.
  refine (X24_reset_absorbs 3000 5000 WebhookFacts.one_card _). lia.
Defined.


End MirrorExtras.
